(** * emwrite: aligned-tile producer, cube assembler and pyramid metadata

    A shallow embedding of [emwrite_docker/emwrite.py].  Python integers are
    [Z] (unbounded), [//] and [%] are [Z.div] and [Z.modulo] (both floor
    towards minus infinity, the sign of [%] following the divisor, as in
    Python), byte strings are [list byte], exceptions are the [Raise] branch
    of an error monad. *)

From stdpp Require Import base option list strings gmap pretty.
From coqutil Require Import Byte Word.LittleEndianList.
From Stdlib Require Import ZArith Lia.
Local Open Scope Z_scope.

(** ** Exceptions and the error monad *)

(** The exception classes the modelled code paths can raise. *)
Inductive exn : Type :=
| OverflowError                     (* int.to_bytes: negative or too wide *)
| ValueError                        (* range() step 0; numpy negative dimension or shape mismatch *)
| IndexError                        (* numpy index out of bounds *)
| ZeroDivisionError                 (* integer modulo by zero *)
| RuntimeError (msg : string)       (* raised by the endpoints themselves *)
| NotFound (bucket key : string)    (* object store: no such blob *)
| RangeNotSatisfiable               (* object store: byte range outside the blob *)
| UploadFailed (bucket key : string) (* object store: a put was refused *)
| TypeError                         (* item assignment on None *)
| AttributeError                    (* attribute of None *)
| AssertionError                    (* a failed assert *)
| DecodeError                       (* PIL cannot decode the bytes *)
| WriterError.                      (* tensorstore write failed *)

Inductive result (A : Type) : Type :=
| Ok (a : A)
| Raise (e : exn).
Arguments Ok {A} a.
Arguments Raise {A} e.

#[global] Instance result_ret : MRet result := λ A a, Ok a.
#[global] Instance result_bind : MBind result := λ A B f m,
  match m with
  | Ok a => f a
  | Raise e => Raise e
  end.

#[global] Instance result_fmap : FMap result := λ A B f m,
  match m with
  | Ok a => Ok (f a)
  | Raise e => Raise e
  end.

(** [for x in xs: s = body x s], stopping at the first exception. *)
Fixpoint for_each {A S : Type} (xs : list A) (body : A → S → result S) (s : S)
  : result S :=
  match xs with
  | [] => Ok s
  | x :: xs' => s' ← body x s; for_each xs' body s'
  end.

(** ** Python primitives *)
Module Py.

(** [range(start, stop, step)] as the list it iterates over. *)
Definition range (start stop step : Z) : result (list Z) :=
  if decide (step = 0) then Raise ValueError
  else if decide (0 < step)
  then Ok ((λ i, start + i * step) <$> seqZ 0 ((stop - start + step - 1) `div` step))
  else Ok ((λ i, start + i * step) <$> seqZ 0 ((start - stop - step - 1) `div` (- step))).

(** [range(start, stop)] as the list it iterates over. *)
Definition range1 (start stop : Z) : list Z := seqZ start (stop - start).

(** [n.to_bytes(8, byteorder="little")]: unsigned, so a negative [n] and an
    [n] of more than 64 bits both raise OverflowError. *)
Definition to_bytes8 (n : Z) : result (list byte) :=
  if decide (0 ≤ n < 2 ^ 64) then Ok (le_split 8 n) else Raise OverflowError.

(** [int.from_bytes(bs, byteorder="little")], unsigned. *)
Definition from_bytes (bs : list byte) : Z := le_combine bs.

(** [bs[a:b]] for [0 <= a] and [0 <= b]. *)
Definition slice {A : Type} (bs : list A) (a b : Z) : list A :=
  take (Z.to_nat b - Z.to_nat a) (drop (Z.to_nat a) bs).

(** [len(bs)] *)
Definition len {A : Type} (bs : list A) : Z := Z.of_nat (length bs).

(** [math.ceil(a / b)] for ints [a] and [b > 0]; the code only divides by
    1024, for which the float quotient is exact. *)
Definition ceil_div (a b : Z) : Z := - ((- a) `div` b).

(** [round(n / 2)] for an int [n]: [n / 2] is an exact float, and Python 3
    rounds an exact half to the nearest even integer. *)
Definition round_half (n : Z) : Z :=
  let q := n `div` 2 in
  if Z.even n then q else if Z.even q then q else q + 1.

End Py.

Definition MAX_IMAGE_SIZE : Z := 4096.

(** ** The grouped-tile container written by [alignedslice] *)
Module Container.

(** The second loop of "pack binary":
    [for val in sizes: start_pos += val; final_binary += start_pos.to_bytes(8, "little")]. *)
Fixpoint offsets_loop (sizes : list Z) (start_pos : Z) (final_binary : list byte)
  : result (list byte) :=
  match sizes with
  | [] => Ok final_binary
  | val :: rest =>
      let start_pos := start_pos + val in
      b ← Py.to_bytes8 start_pos;
      offsets_loop rest start_pos (final_binary ++ b)
  end.

(** "pack binary": header, offset table, payload. *)
Definition pack (width height shard_size : Z) (sizes : list Z)
    (binary_volume : list byte) : result (list byte) :=
  w ← Py.to_bytes8 width;
  h ← Py.to_bytes8 height;
  s ← Py.to_bytes8 shard_size;
  let final_binary := w ++ h ++ s in
  let start_pos := 24 + (Py.len sizes + 1) * 8 in
  b ← Py.to_bytes8 start_pos;
  final_binary ← offsets_loop sizes start_pos (final_binary ++ b);
  Ok (final_binary ++ binary_volume).

(** The [(chunkx, chunky)] pairs visited by the two nested tile loops of one
    super-block, in iteration order (y outer, x inner). *)
Definition tile_grid (width height shard_size startx starty : Z)
  : result (list (Z * Z)) :=
  ys ← Py.range starty (Z.min (starty + MAX_IMAGE_SIZE) height) shard_size;
  for_each ys (λ chunky acc,
    xs ← Py.range startx (Z.min (startx + MAX_IMAGE_SIZE) width) shard_size;
    Ok (acc ++ ((λ chunkx, (chunkx, chunky)) <$> xs))) [].

Section Producer.
(** [tile_png chunkx chunky] is the PNG file the loop body produces for the
    tile cropped at [(chunkx, chunky)]: crop, equalize_adapthist,
    [Image.save(format="PNG")]. *)
Context (tile_png : Z → Z → list byte).

(** The loop body once the PNG is produced:
    [sizes.append(len(tile_bytes)); binary_volume += tile_bytes]. *)
Definition append_tile (origin : Z * Z) (st : list Z * list byte)
  : list Z * list byte :=
  let tile_bytes := tile_png origin.1 origin.2 in
  (st.1 ++ [Py.len tile_bytes], st.2 ++ tile_bytes).

(** One turn of the super-block loop up to the upload: the bytes of
    [final_binary]. *)
Definition superblock_container (width height shard_size startx starty : Z)
  : result (list byte) :=
  grid ← tile_grid width height shard_size startx starty;
  let st := foldl (λ st origin, append_tile origin st) ([], []) grid in
  pack width height shard_size st.1 st.2.

(** The PNG files appended for one super-block, in order. *)
Definition superblock_tiles (grid : list (Z * Z)) : list (list byte) :=
  (λ origin, tile_png origin.1 origin.2) <$> grid.
End Producer.

(** [blob.download_as_string(start=a, end=b)] on a blob holding [data]: the
    bytes [a..b], both ends included, cut at the end of the blob.  A range
    that starts outside the blob or runs backwards is refused. *)
Definition download_range (data : list byte) (a b : Z) : result (list byte) :=
  if decide (0 ≤ a < Py.len data ∧ a ≤ b)
  then Ok (Py.slice data a (b + 1))
  else Raise RangeNotSatisfiable.

(** "read offset binary" and "png blob" of [set_image], for tile index [spot]
    of the container [data]. *)
Definition read_tile (data : list byte) (spot : Z) : result (list byte) :=
  let pre := 24 in
  let start_index := pre + spot * 8 in
  let end_index := start_index + 16 - 1 in
  im_range ← download_range data start_index end_index;
  let start := Py.from_bytes (Py.slice im_range 0 8) in
  let end_ := Py.from_bytes (Py.slice im_range 8 16) - 1 in
  download_range data start end_.

(** The name of a container in the temporary bucket:
    [f"{slice}_{x_block}_{y_block}"]. *)
Definition blob_name (slice x_block y_block : Z) : string :=
  (pretty slice +:+ "_" +:+ pretty x_block +:+ "_" +:+ pretty y_block)%string.

(** The unsigned little-endian 64-bit integer at byte [off] of [data], and
    the offset entry [i] of a container, at byte [24 + 8 i]. *)
Definition u64_at (data : list byte) (off : Z) : Z :=
  Py.from_bytes (Py.slice data off (off + 8)).
Definition entry (data : list byte) (i : Z) : Z := u64_at data (24 + 8 * i).

End Container.

(** ** Tiles of the warped slice *)
Module Tiles.

(** An 8-bit grayscale image: PIL's [size] and its pixels. *)
Record image : Type := {
  im_width : Z;
  im_height : Z;
  im_pixel : Z → Z → Z;
}.

(** [Image.crop((x0, y0, x1, y1))], the box being (left, upper, right,
    lower).  The result has the size of the box, whatever the size of the
    source: the part of the box outside the source is filled with zero. *)
Definition crop (im : image) (box : Z * Z * Z * Z) : image :=
  let '(x0, y0, x1, y1) := box in
  {| im_width := Z.max 0 (x1 - x0);
     im_height := Z.max 0 (y1 - y0);
     im_pixel := λ x y,
       if decide (0 ≤ x0 + x < im_width im ∧ 0 ≤ y0 + y < im_height im)
       then im_pixel im (x0 + x) (y0 + y)
       else 0 |}.

(** The image cropped by the tile loop body of [write_sub_image_tiles]:
    [curr_im.crop((chunkx, chunky, chunkx+shard_size, chunky+shard_size))].
    The steps that follow ([np.array], [equalize_adapthist], [astype],
    [Image.fromarray], the PNG codec) all keep the shape. *)
Definition cropped_tile (curr_im : image) (shard_size chunkx chunky : Z) : image :=
  crop curr_im (chunkx, chunky, chunkx + shard_size, chunky + shard_size).

(** The [(startx, starty)] pairs of the two super-block loops, in order;
    [job_id] is the position in this list. *)
Definition superblocks (width height : Z) : result (list (Z * Z)) :=
  ys ← Py.range 0 height MAX_IMAGE_SIZE;
  for_each ys (λ starty acc,
    xs ← Py.range 0 width MAX_IMAGE_SIZE;
    Ok (acc ++ ((λ startx, (startx, starty)) <$> xs))) [].

End Tiles.

(** ** The volume descriptor built by [create_meta] *)
Module Meta.
Local Open Scope string_scope.

(** The ["sharding"] object of a scale. *)
Record sharding : Type := {
  sh_type : string;                    (* "@type" *)
  sh_hash : string;                    (* "hash" *)
  minishard_bits : Z;
  minishard_index_encoding : string;
  preshift_bits : Z;
  shard_bits : Z;
}.

(** One entry of ["scales"]; [sharding_spec] is [None] when the dict has no
    ["sharding"] key. *)
Record scale : Type := {
  chunk_sizes : list (list Z);
  encoding : string;
  key : string;
  resolution : list Z;
  sharding_spec : option sharding;
  size : list Z;
  realsize : list Z;
  offset : list Z;
  realoffset : list Z;
}.

Record descriptor : Type := {
  at_type : string;                    (* "@type" *)
  data_type : string;
  num_channels : Z;
  scales : list scale;
  type_ : string;                      (* "type" *)
}.

(** [f"{r}.0x{r}.0x{r}.0"] for an int [r]. *)
Definition scale_key (r : Z) : string :=
  pretty r +:+ ".0x" +:+ pretty r +:+ ".0x" +:+ pretty r +:+ ".0".

Definition sharded_v1 (bits : Z) : sharding :=
  {| sh_type := "neuroglancer_uint64_sharded_v1";
     sh_hash := "identity";
     minishard_bits := 0;
     minishard_index_encoding := "gzip";
     preshift_bits := 6;
     shard_bits := bits |}.

(** The three [if (v % shard_size) > 0: v += (1024 - (v % shard_size))]
    statements at the head of [create_meta]. *)
Definition pad (v shard_size : Z) : Z :=
  if decide (v `mod` shard_size > 0) then v + (1024 - v `mod` shard_size) else v.
Definition pad_maxz (maxz shard_size : Z) : Z :=
  if decide ((maxz + 1) `mod` shard_size > 0)
  then maxz + (1024 - (maxz + 1) `mod` shard_size) else maxz.

Definition create_meta (width height minz maxz shard_size : Z) (isRaw : bool)
    (res : Z) : result descriptor :=
  if decide (shard_size = 0) then Raise ZeroDivisionError else
  let width := pad width shard_size in
  let height := pad height shard_size in
  let maxz := pad_maxz maxz shard_size in
  if isRaw then
    Ok {| at_type := "neuroglancer_multiscale_volume";
          data_type := "uint8";
          num_channels := 1;
          scales := [
            {| chunk_sizes := [[128; 128; 128]];
               encoding := "raw";
               key := scale_key res;
               resolution := [res; res; res];
               sharding_spec := None;
               size := [width; height; maxz + 1];
               realsize := [width; height; maxz - minz + 1];
               offset := [0; 0; 0];
               realoffset := [0; 0; minz] |} ];
          type_ := "image" |}
  else
    Ok {| at_type := "neuroglancer_multiscale_volume";
          data_type := "uint8";
          num_channels := 1;
          scales := [
            {| chunk_sizes := [[64; 64; 64]];
               encoding := if isRaw then "raw" else "jpeg";
               key := scale_key res;
               resolution := [res; res; res];
               sharding_spec := Some (sharded_v1 27);
               size := [width; height; maxz + 1];
               realsize := [width; height; maxz - minz + 1];
               offset := [0; 0; 0];
               realoffset := [0; 0; minz] |};
            {| chunk_sizes := [[64; 64; 64]];
               encoding := if isRaw then "raw" else "jpeg";
               key := scale_key (res * 2);
               resolution := [res * 2; res * 2; res * 2];
               sharding_spec := Some (sharded_v1 24);
               size := [width `div` 2 + 1; height `div` 2 + 1; (maxz + 1) `div` 2 + 1];
               realsize := [width `div` 2; height `div` 2; (maxz - minz + 1) `div` 2];
               offset := [0; 0; 0];
               realoffset := [0; 0; minz `div` 2] |};
            {| chunk_sizes := [[64; 64; 64]];
               encoding := if isRaw then "raw" else "jpeg";
               key := scale_key (res * 4);
               resolution := [res * 4; res * 4; res * 4];
               sharding_spec := Some (sharded_v1 21);
               size := [width `div` 4 + 2; height `div` 4 + 2; (maxz + 1) `div` 4 + 2];
               realsize := [width `div` 4; height `div` 4; (maxz - minz + 1) `div` 4];
               offset := [0; 0; 0];
               realoffset := [0; 0; minz `div` 4] |};
            {| chunk_sizes := [[64; 64; 64]];
               encoding := if isRaw then "raw" else "jpeg";
               key := scale_key (res * 8);
               resolution := [res * 8; res * 8; res * 8];
               sharding_spec := None;
               size := [width `div` 8 + 4; height `div` 8 + 4; (maxz + 1) `div` 8 + 4];
               realsize := [width `div` 8; height `div` 8; (maxz - minz + 1) `div` 8];
               offset := [0; 0; 0];
               realoffset := [0; 0; minz `div` 8] |};
            {| chunk_sizes := [[64; 64; 64]];
               encoding := if isRaw then "raw" else "jpeg";
               key := scale_key (res * 16);
               resolution := [res * 16; res * 16; res * 16];
               sharding_spec := None;
               size := [width `div` 16 + 8; height `div` 16 + 8; (maxz + 1) `div` 16 + 8];
               realsize := [width `div` 16; height `div` 16; (maxz - minz + 1) `div` 16];
               offset := [0; 0; 0];
               realoffset := [0; 0; minz `div` 16] |};
            {| chunk_sizes := [[64; 64; 64]];
               encoding := if isRaw then "raw" else "jpeg";
               key := scale_key (res * 32);
               resolution := [res * 32; res * 32; res * 32];
               sharding_spec := None;
               size := [width `div` 32 + 16; height `div` 32 + 16; (maxz + 1) `div` 32 + 16];
               realsize := [width `div` 32; height `div` 32; (maxz - minz + 1) `div` 32];
               offset := [0; 0; 0];
               realoffset := [0; 0; minz `div` 16] |} ];
          type_ := "image" |}.

(** [v] rounded up to the next multiple of 1024. *)
Definition round_up_1024 (v : Z) : Z := Py.ceil_div v 1024 * 1024.

End Meta.

(** ** Downsampling by two, at the level of array shapes *)
Module Downsample.

(** [vol.shape] of a 3-D array. *)
Definition shape3 : Type := Z * Z * Z.

(** [ndimage.interpolation.zoom(vol, 0.5, order=1).shape]: scipy sizes the
    output [int(round(n * 0.5))] along each axis, with Python's [round]. *)
Definition zoom_shape (s : shape3) : shape3 :=
  let '(x, y, z) := s in (Py.round_half x, Py.round_half y, Py.round_half z).

(** Number of elements selected by the basic slice [a[lo:hi]] on an axis of
    [n] elements ([0 <= lo], [0 <= hi]): numpy cuts both ends at [n]. *)
Definition slice_len (n lo hi : Z) : Z := Z.max 0 (Z.min hi n - Z.min lo n).

(** [dst[...] = value] needs [value.shape] to broadcast to the shape of the
    selected region: along each axis equal, or 1. *)
Definition broadcasts (value dst : shape3) : bool :=
  let '(vx, vy, vz) := value in
  let '(dx, dy, dz) := dst in
  bool_decide ((vx = dx ∨ vx = 1) ∧ (vy = dy ∨ vy = 1) ∧ (vz = dz ∨ vz = 1)).

(** One iteration of the innermost loop of [_downsample]: the block of [vol]
    that is zoomed and the block of [target] it is assigned to. *)
Record piece : Type := {
  src_lo : shape3;      (* vol[xiter:, yiter:, ziter:] *)
  src_hi : shape3;      (* vol[:xiter+256, :yiter+256, :ziter+256] *)
  dst_lo : shape3;      (* target[xiter//2:, ...] *)
  dst_hi : shape3;      (* target[:(xiter+256)//2, ...] *)
}.

Definition mk_piece (xiter yiter ziter : Z) : piece :=
  {| src_lo := (xiter, yiter, ziter);
     src_hi := (xiter + 256, yiter + 256, ziter + 256);
     dst_lo := (xiter `div` 2, yiter `div` 2, ziter `div` 2);
     dst_hi := ((xiter + 256) `div` 2, (yiter + 256) `div` 2, (ziter + 256) `div` 2) |}.

(** How the result was produced. *)
Inductive downsampled : Type :=
| Whole (out : shape3)                          (* one zoom call on [vol] *)
| Pieced (target : shape3) (writes : list piece). (* [target], filled block by block *)

Definition out_shape (d : downsampled) : shape3 :=
  match d with
  | Whole out => out
  | Pieced target _ => target
  end.

(** The assignment in the innermost loop, for a volume of shape [vol] and a
    target of shape [target]; ValueError when the zoomed block does not fit
    the selected region of [target]. *)
Definition assign_piece (vol target : shape3) (p : piece) : result unit :=
  let '(x, y, z) := vol in
  let '(tx, ty, tz) := target in
  let '(sx0, sy0, sz0) := src_lo p in
  let '(sx1, sy1, sz1) := src_hi p in
  let '(dx0, dy0, dz0) := dst_lo p in
  let '(dx1, dy1, dz1) := dst_hi p in
  let value := zoom_shape (slice_len x sx0 sx1, slice_len y sy0 sy1, slice_len z sz0 sz1) in
  let region := (slice_len tx dx0 dx1, slice_len ty dy0 dy1, slice_len tz dz0 dz1) in
  if broadcasts value region then Ok () else Raise ValueError.

Definition _downsample (vol : shape3) : result downsampled :=
  let '(x, y, z) := vol in
  if decide (x ≤ 256 ∧ y ≤ 256 ∧ z ≤ 256) then Ok (Whole (zoom_shape vol))
  else
    let target := (Py.round_half x, Py.round_half y, Py.round_half z) in
    xs ← Py.range 0 x 256;
    writes ← for_each xs (λ xiter acc,
      ys ← Py.range 0 y 256;
      for_each ys (λ yiter acc,
        zs ← Py.range 0 z 256;
        for_each zs (λ ziter acc,
          let p := mk_piece xiter yiter ziter in
          _ ← assign_piece vol target p;
          Ok (acc ++ [p])) acc) acc) [];
    Ok (Pieced target writes).

(** The values of [range(0, n, 256)] for [0 <= n]. *)
Definition multiples_of_256 (n : Z) : list Z :=
  (λ i, 0 + i * 256) <$> seqZ 0 ((n - 0 + 256 - 1) `div` 256).

(** Half-up rounding of [n / 2]: [n + 0.5] goes to [n + 1]. *)
Definition round_half_up (n : Z) : Z := (n + 1) `div` 2.

End Downsample.

(** ** The object store, the volume writer and HTTP responses *)
Module Store.

(** One assignment [dataset[origin : origin + shape] = vol] handed to the
    tensorstore driver, for the dataset [neuroglancer/{format}] at scale
    [level]. *)
Record ts_write : Type := {
  tw_bucket : string;
  tw_format : string;
  tw_level : Z;
  tw_origin : Z * Z * Z;
  tw_shape : Z * Z * Z;
}.

(** What the endpoints can observe and change outside the process.
    [blobs] are the binary objects by (bucket, name); [infos] are the objects
    written with [json.dumps(config)], kept as the descriptor they encode;
    [volume] lists the writes the volume writer accepted, oldest first;
    [put_ok] and [writer_ok] say which uploads and which volume writes
    succeed. *)
Record world : Type := {
  blobs : gmap (string * string) (list byte);
  infos : gmap (string * string) Meta.descriptor;
  volume : list ts_write;
  put_ok : string → string → bool;
  writer_ok : ts_write → bool;
}.

(** Code that reads and writes the world and may raise. *)
Definition io (A : Type) : Type := world → result A * world.

Definition io_ret {A : Type} (a : A) : io A := λ w, (Ok a, w).

Definition io_bind {A B : Type} (m : io A) (f : A → io B) : io B := λ w,
  match m w with
  | (Ok a, w') => f a w'
  | (Raise e, w') => (Raise e, w')
  end.

(** A computation that does not touch the world. *)
Definition lift {A : Type} (r : result A) : io A := λ w, (r, w).

(** A computation that only reads the world. *)
Definition reading {A : Type} (f : world → result A) : io A := λ w, (f w, w).

(** [for x in xs: body(x)] *)
Fixpoint io_for_each {A : Type} (xs : list A) (body : A → io unit) : io unit :=
  match xs with
  | [] => io_ret ()
  | x :: xs' => io_bind (body x) (λ _, io_for_each xs' body)
  end.

(** [bucket.blob(name).download_as_string()] *)
Definition download (bucket name : string) : io (list byte) := λ w,
  match blobs w !! (bucket, name) with
  | Some data => (Ok data, w)
  | None => (Raise (NotFound bucket name), w)
  end.

(** [bucket.blob(name).upload_from_string(data, ...)] *)
Definition upload (bucket name : string) (data : list byte) : io unit := λ w,
  if put_ok w bucket name
  then (Ok (),
        {| blobs := <[(bucket, name) := data]> (blobs w); infos := infos w;
           volume := volume w; put_ok := put_ok w; writer_ok := writer_ok w |})
  else (Raise (UploadFailed bucket name), w).

(** [bucket.blob(name).upload_from_string(json.dumps(config))] *)
Definition upload_info (bucket name : string) (config : Meta.descriptor) : io unit :=
  λ w,
  if put_ok w bucket name
  then (Ok (),
        {| blobs := blobs w; infos := <[(bucket, name) := config]> (infos w);
           volume := volume w; put_ok := put_ok w; writer_ok := writer_ok w |})
  else (Raise (UploadFailed bucket name), w).

(** The body of a response: [b"success"], [str(e)] or
    [traceback.format_exc()]. *)
Inductive body : Type :=
| Success
| Message (e : exn)
| StackTrace (e : exn).

Record response : Type := {
  status : Z;
  content : body;
  content_type : string;
}.

(** [r = make_response("success".encode()); r.headers.set('Content-Type', 'text/html')] *)
Definition success_response : response :=
  {| status := 200; content := Success; content_type := "text/html" |}.

(** [Response(text, 400)]: Flask's default content type. *)
Definition error_response (text : body) : response :=
  {| status := 400; content := text; content_type := "text/html; charset=utf-8" |}.

(** [try: ...; return success  except Exception as e: return Response(fmt(e), 400)] *)
Definition try_except {A : Type} (m : io A) (fmt : exn → body) : world → response * world :=
  λ w,
  match m w with
  | (Ok _, w') => (success_response, w')
  | (Raise e, w') => (error_response (fmt e), w')
  end.

End Store.

Notation "x ←io m ; k" := (Store.io_bind m (λ x, k))
  (at level 20, m at level 100, k at level 200, only parsing, right associativity).
Notation "m ;;io k" := (Store.io_bind m (λ _, k))
  (at level 100, k at level 200, only parsing, right associativity).

(** ** [/ngmeta] *)
Module NgMeta.
Import Store.
Local Open Scope string_scope.

(** The fields read from the request body. *)
Record config : Type := {
  dest : string;
  minz : Z;
  maxz : Z;
  resolution : Z;
  bbox : Z * Z;
  shard_size : Z;
  writeRaw : bool;
}.

Definition ngmeta_body (cfg : config) : io unit :=
  let '(width, height) := bbox cfg in
  _ ←io lift (if decide (shard_size cfg ≠ 1024)
             then Raise (RuntimeError "shard size must be 1024x1024x1024")
             else Ok ());
  config ←io lift (Meta.create_meta width height (minz cfg) (maxz cfg)
                     (shard_size cfg) false (resolution cfg));
  _ ←io upload_info (dest cfg) "neuroglancer/jpeg/info" config;
  if writeRaw cfg then
    config ←io lift (Meta.create_meta width height (minz cfg) (maxz cfg)
                       (shard_size cfg) true (resolution cfg));
    upload_info (dest cfg) "neuroglancer/raw/info" config
  else io_ret ().

Definition ngmeta (cfg : config) : world → response * world :=
  try_except (ngmeta_body cfg) Message.

End NgMeta.

(** ** [/ngshard] *)
Module NgShard.
Import Store.

(** The fields read from the request body; [tile_chunk] is ["start"]. *)
Record config : Type := {
  dest : string;
  source : string;
  tile_chunk : Z * Z * Z;
  minz : Z;
  maxz : Z;
  bbox : Z * Z;
  shard_size : Z;
  writeRaw : bool;
}.

(** One Z-plane of [vol3d]: still the zeros of [np.zeros], a copy of an image
    of the plane's shape, or an image with an axis of length 1 broadcast to
    the plane's shape. *)
Inductive plane : Type :=
| Zeros
| Copied (im : Tiles.image)
| Stretched (im : Tiles.image).

(** [vol3d], in the (Z, Y, X) order it is assembled in. *)
Record cube : Type := {
  cube_shape : Z * Z * Z;
  planes : list plane;
}.

(** [np.zeros((nz, h, w), dtype=np.uint8)] *)
Definition np_zeros (nz h w : Z) : result cube :=
  if decide (nz < 0 ∨ h < 0 ∨ w < 0) then Raise ValueError
  else Ok {| cube_shape := (nz, h, w); planes := replicate (Z.to_nat nz) Zeros |}.

(** [vol[i, :, :] = img_array] *)
Definition set_plane (vol : cube) (i : Z) (im : Tiles.image) : result cube :=
  let '(nz, h, w) := cube_shape vol in
  if decide (i < - nz ∨ nz ≤ i) then Raise IndexError else
  let j := Z.to_nat (if decide (i < 0) then i + nz else i) in
  if decide (Tiles.im_height im = h ∧ Tiles.im_width im = w)
  then Ok {| cube_shape := cube_shape vol; planes := <[j := Copied im]> (planes vol) |}
  else if decide ((Tiles.im_height im = h ∨ Tiles.im_height im = 1)
                  ∧ (Tiles.im_width im = w ∨ Tiles.im_width im = 1))
  then Ok {| cube_shape := cube_shape vol; planes := <[j := Stretched im]> (planes vol) |}
  else Raise ValueError.

Definition zstart (cfg : config) : Z :=
  Z.max (shard_size cfg * (tile_chunk cfg).2) (minz cfg).
Definition zfinish (cfg : config) : Z :=
  Z.min (maxz cfg) (zstart cfg + shard_size cfg - 1).

(** The tile index [spot] computed by [set_image]. *)
Definition spot (cfg : config) : Z :=
  let '(cx, cy, _) := tile_chunk cfg in
  let '(width, _) := bbox cfg in
  let chunk_tile_chunk_0 := ((cx * shard_size cfg) `mod` MAX_IMAGE_SIZE) `div` shard_size cfg in
  let chunk_tile_chunk_1 := ((cy * shard_size cfg) `mod` MAX_IMAGE_SIZE) `div` shard_size cfg in
  let chunk_width :=
    Py.ceil_div (Z.min MAX_IMAGE_SIZE (width - cx * shard_size cfg)) (shard_size cfg) in
  chunk_tile_chunk_1 * chunk_width + chunk_tile_chunk_0.

Section WithCodec.
(** [Image.open(io.BytesIO(im_data))] and the decoding [np.array(im)] forces. *)
Context (png_open : list byte → result Tiles.image).

(** [set_image] up to [im.height, im.width]: the tile of [slice]. *)
Definition fetch_tile (cfg : config) (w : world) (slice : Z) : result Tiles.image :=
  let '(cx, cy, _) := tile_chunk cfg in
  let x_block := (cx * shard_size cfg) `div` MAX_IMAGE_SIZE in
  let y_block := (cy * shard_size cfg) `div` MAX_IMAGE_SIZE in
  data ← (download (source cfg) (Container.blob_name slice x_block y_block) w).1;
  im_data ← Container.read_tile data (spot cfg);
  png_open im_data.

(** [set_image(slice)]; [vol3d] is the shared variable, [None] before the
    first call. *)
Definition set_image (cfg : config) (w : world) (slice : Z) (vol3d : option cube)
  : result (option cube) :=
  im ← fetch_tile cfg w slice;
  let height2 := Tiles.im_height im in
  let width2 := Tiles.im_width im in
  vol3d ← (if decide (slice = zstart cfg)
           then Some <$> np_zeros (zfinish cfg - zstart cfg + 1) height2 width2
           else Ok vol3d);
  match vol3d with
  | None => Raise TypeError
  | Some vol => Some <$> set_plane vol (slice - zstart cfg) im
  end.

(** A worker thread running [set_images(start, finish, thread_id,
    num_threads)]: the state of [vol3d] when the thread ends, and the
    exception that ended it, if any.  Nothing reads that exception. *)
Fixpoint set_images_from (cfg : config) (w : world) (slices : list Z)
    (thread_id num_threads : Z) (vol3d : option cube) : option cube * option exn :=
  match slices with
  | [] => (vol3d, None)
  | slice :: rest =>
      if decide (slice `mod` num_threads = thread_id) then
        match set_image cfg w slice vol3d with
        | Ok vol3d' => set_images_from cfg w rest thread_id num_threads vol3d'
        | Raise e => (vol3d, Some e)
        end
      else set_images_from cfg w rest thread_id num_threads vol3d
  end.

Definition set_images (cfg : config) (w : world) (start finish thread_id num_threads : Z)
    (vol3d : option cube) : option cube * option exn :=
  set_images_from cfg w (Py.range1 start (finish + 1)) thread_id num_threads vol3d.

(** The twenty threads, started and joined.  Each thread writes planes no
    other thread writes and none allocates, so their effect on [vol3d] is
    that of running them one after the other.  The second component lists
    the exceptions that ended threads. *)
Definition fetch_threads (cfg : config) (w : world) (vol3d : option cube)
  : option cube * list exn :=
  let num_threads := 20 in
  foldl (λ st thread_id,
           let '(vol3d', e) :=
             set_images cfg w (zstart cfg + 1) (zfinish cfg) thread_id num_threads st.1 in
           (vol3d', st.2 ++ option_list e))
        (vol3d, []) (Py.range1 0 num_threads).

(** [_write_shard(level, start, vol3d, format, dataset)] *)
Definition _write_shard (cfg : config) (level : Z) (start shape : Z * Z * Z)
    (format : string) : io unit := λ w,
  let wr := {| tw_bucket := dest cfg; tw_format := format; tw_level := level;
               tw_origin := start; tw_shape := shape |} in
  if writer_ok w wr
  then (Ok (),
        {| blobs := blobs w; infos := infos w; volume := volume w ++ [wr];
           put_ok := put_ok w; writer_ok := writer_ok w |})
  else (Raise WriterError, w).

(** The [level == 0] branch: eight 512-cubed blocks, z outermost. *)
Definition write_level0 (cfg : config) (start shape : Z * Z * Z) : io unit :=
  let '(x, y, z) := shape in
  let '(s0, s1, s2) := start in
  io_for_each [0; 512] (λ iterz,
    io_for_each [0; 512] (λ itery,
      io_for_each [0; 512] (λ iterx,
        let currsize := (Downsample.slice_len x iterx (iterx + 512),
                         Downsample.slice_len y itery (itery + 512),
                         Downsample.slice_len z iterz (iterz + 512)) in
        if decide (currsize.1.1 = 0 ∨ currsize.1.2 = 0 ∨ currsize.2 = 0) then io_ret ()
        else
          let start_temp := (s0 + iterx, s1 + itery, s2 + iterz) in
          _ ←io _write_shard cfg 0 start_temp currsize "jpeg"%string;
          if writeRaw cfg then _write_shard cfg 0 start_temp currsize "raw"%string
          else io_ret ()))).

(** [for level in range(num_levels): ...], on the shape of [vol3d]. *)
Fixpoint levels_loop (cfg : config) (levels : list Z) (start shape : Z * Z * Z)
  : io unit :=
  match levels with
  | [] => io_ret ()
  | level :: rest =>
      _ ←io (if decide (level = 0) then write_level0 cfg start shape
             else _write_shard cfg level start shape "jpeg"%string);
      d ←io lift (Downsample._downsample shape);
      let vol3d := Downsample.out_shape d in
      let start := (start.1.1 `div` 2, start.1.2 `div` 2, start.2 `div` 2) in
      if decide (vol3d.1.1 = 0 ∨ vol3d.1.2 = 0 ∨ vol3d.2 = 0) then io_ret ()
      else levels_loop cfg rest start vol3d
  end.

(** The cube as the main thread has it once the workers are joined. *)
Definition assemble (cfg : config) (w : world) : result (option cube * list exn) :=
  vol3d ← set_image cfg w (zstart cfg) None;
  Ok (fetch_threads cfg w vol3d).

Definition ngshard_body (cfg : config) : io unit :=
  _ ←io lift (if decide (shard_size cfg ≠ 1024)
             then Raise (RuntimeError "shard size must be 1024x1024x1024"%string)
             else Ok ());
  _ ←io lift (if decide (MAX_IMAGE_SIZE `mod` shard_size cfg = 0)
             then Ok () else Raise AssertionError);
  assembled ←io reading (assemble cfg);
  let num_levels := 6 in
  let '(cx, cy, _) := tile_chunk cfg in
  let start := (cx * shard_size cfg, cy * shard_size cfg, zstart cfg) in
  match assembled.1 with
  | None => lift (Raise AttributeError)
  | Some vol =>
      let '(nz, h, w) := cube_shape vol in
      levels_loop cfg (Py.range1 0 num_levels) start (w, h, nz)
  end.

Definition ngshard (cfg : config) : world → response * world :=
  try_except (ngshard_body cfg) StackTrace.

End WithCodec.
End NgShard.

(** ** [/alignedslice] *)
Module AlignedSlice.
Import Store.

Definition TARGET_SIZE : Z := 4096.
Definition NUM_THREADS : Z := 4.

(** [while max_dim > TARGET_SIZE: max_dim = max_dim // 2; factor *= 2].
    [max_dim] at least halves at every turn, so [max_dim] turns are enough. *)
Fixpoint halve_until (fuel : nat) (max_dim factor : Z) : Z :=
  match fuel with
  | O => factor
  | S fuel' =>
      if decide (max_dim > TARGET_SIZE)
      then halve_until fuel' (max_dim `div` 2) (factor * 2)
      else factor
  end.

Section WithImaging.
(** The ["transform"] field, six numbers. *)
Context {affine : Type}.
(** [Image.open(io.BytesIO(bytes))] *)
Context (png_open : list byte → result Tiles.image).
(** Inverting the affine matrix and [curr_im.transform((width, height), ...)]. *)
Context (warp : Tiles.image → affine → Z → Z → result Tiles.image).
(** The thumbnail written to [align/]: resize by [factor] when it is above 1,
    equalize, save as PNG. *)
Context (thumbnail_png : Tiles.image → Z → list byte).
(** A cropped tile, equalized and saved as PNG. *)
Context (tile_png : Tiles.image → list byte).

(** The fields read from the request body. *)
Record config : Type := {
  img : string;
  dest : string;
  dest_tmp : string;
  transform : affine;
  bbox : Z * Z;
  slice : Z;
  shard_size : Z;
}.

(** The body of [write_sub_image_tiles(thread_id)] inside its [try]. *)
Definition write_sub_image_tiles (cfg : config) (curr_im : Tiles.image)
    (thread_id : Z) : io unit :=
  let '(width, height) := bbox cfg in
  sbs ←io lift (Tiles.superblocks width height);
  io_for_each (imap (λ i sb, (Z.of_nat i, sb)) sbs) (λ job,
    let '(job_id, (startx, starty)) := job in
    if decide (job_id `mod` NUM_THREADS ≠ thread_id) then io_ret ()
    else
      final_binary ←io lift (Container.superblock_container
        (λ chunkx chunky,
           tile_png (Tiles.cropped_tile curr_im (shard_size cfg) chunkx chunky))
        width height (shard_size cfg) startx starty);
      upload (dest_tmp cfg)
        (Container.blob_name (slice cfg) (startx `div` MAX_IMAGE_SIZE)
           (starty `div` MAX_IMAGE_SIZE))
        final_binary).

(** One worker: [except Exception as e: failure = e]. *)
Definition run_worker (cfg : config) (curr_im : Tiles.image)
    (st : world * option exn) (thread_id : Z) : world * option exn :=
  match write_sub_image_tiles cfg curr_im thread_id st.1 with
  | (Ok _, w') => (w', st.2)
  | (Raise e, w') => (w', Some e)
  end.

(** The four threads, started and joined, then [if failure is not None:
    raise failure].  The workers upload to different names, so the store
    they leave is that of running them one after the other; when several
    fail, [failure] holds the exception of the one that wrote last, here the
    one with the highest thread id. *)
Definition run_workers (cfg : config) (curr_im : Tiles.image) : io unit := λ w,
  let '(w', failure) :=
    foldl (run_worker cfg curr_im) (w, None) (Py.range1 0 NUM_THREADS) in
  match failure with
  | Some e => (Raise e, w')
  | None => (Ok (), w')
  end.

Definition alignedslice_body (cfg : config) : io unit :=
  let '(width, height) := bbox cfg in
  pre_image_bin ←io download (dest cfg) ("raw/" +:+ img cfg)%string;
  curr_im ←io lift (png_open pre_image_bin);
  curr_im ←io lift (warp curr_im (transform cfg) width height);
  let max_dim := Z.max width height in
  let factor := halve_until (Z.to_nat max_dim) max_dim 1 in
  _ ←io upload (dest cfg) ("align/" +:+ img cfg)%string (thumbnail_png curr_im factor);
  run_workers cfg curr_im.

Definition alignedslice (cfg : config) : world → response * world :=
  try_except (alignedslice_body cfg) Message.

End WithImaging.
End AlignedSlice.

(** ** Vocabulary of the statements about the cube *)
Module CubeSpec.
Import Store NgShard.

Section WithCodec.
Context (png_open : list byte → result Tiles.image) (cfg : config) (w : world).

(** The plane [p] holds the tile fetched for [slice]. *)
Definition holds_slice (slice : Z) (p : plane) : Prop :=
  ∃ im, fetch_tile png_open cfg w slice = Ok im ∧ (p = Copied im ∨ p = Stretched im).

(** The plane of [slice] has been written. *)
Definition filled (vol : cube) (slice : Z) : Prop :=
  ∃ p, planes vol !! Z.to_nat (slice - zstart cfg) = Some p ∧ p ≠ Zeros.

(** [vol] has the Z extent of the request, and each of its planes is still
    zero or holds the tile of its own slice. *)
Definition cube_inv (vol : cube) : Prop :=
  (cube_shape vol).1.1 = zfinish cfg - zstart cfg + 1
  ∧ length (planes vol) = Z.to_nat (zfinish cfg - zstart cfg + 1)
  ∧ ∀ (i : nat) (p : plane), planes vol !! i = Some p →
      p = Zeros ∨ holds_slice (zstart cfg + Z.of_nat i) p.

End WithCodec.
End CubeSpec.

(** ** Concrete requests and stores, for the examples *)
Module Demo.
Import Store.

(** A stand-in for the PNG encoder: never empty, and of a length that
    depends on the tile. *)
Definition demo_png (chunkx chunky : Z) : list byte :=
  Byte.x89 :: le_split (Z.to_nat (chunky `div` 1000)) chunkx.

(** The container of super-block (1, 0) of a 5000 x 3000 slice cut in tiles
    of 1000. *)
Definition demo_container : list byte :=
  Eval vm_compute in
  match Container.superblock_container demo_png 5000 3000 1000 4096 0 with
  | Ok c => c
  | Raise _ => []
  end.

(** A black image. *)
Definition blank (width height : Z) : Tiles.image :=
  {| Tiles.im_width := width; Tiles.im_height := height; Tiles.im_pixel := λ _ _, 0 |}.

(** A stand-in for the PNG decoder: a flat 1024 x 1024 image of the first
    byte; no bytes do not decode. *)
Definition demo_open (bs : list byte) : result Tiles.image :=
  match bs with
  | [] => Raise DecodeError
  | b :: _ =>
      Ok {| Tiles.im_width := 1024; Tiles.im_height := 1024;
            Tiles.im_pixel := λ _ _, byte.unsigned b |}
  end.

(** The container of the only super-block of a 1024 x 1024 slice. *)
Definition small_container : list byte :=
  Eval vm_compute in
  match Container.superblock_container (λ _ _, [Byte.x89]) 1024 1024 1024 0 0 with
  | Ok c => c
  | Raise _ => []
  end.

(** A store that accepts every upload and every volume write, and whose
    temporary bucket holds the containers of the slices of [present]. *)
Definition store_with (present : list Z) : world :=
  {| blobs := list_to_map
       ((λ s, (("tmp"%string, Container.blob_name s 0 0), small_container)) <$> present);
     infos := ∅;
     volume := [];
     put_ok := λ _ _, true;
     writer_ok := λ _, true |}.

(** Slices 0..63. *)
Definition full_world : world := store_with (seqZ 0 64).

(** Slices 0..63 but for slice 1. *)
Definition demo_world : world := store_with (0 :: seqZ 2 62).

(** The cube (0, 0, 0) of a volume of 64 slices, 0 to 63. *)
Definition demo_shard : NgShard.config :=
  {| NgShard.dest := "vol"; NgShard.source := "tmp";
     NgShard.tile_chunk := (0, 0, 0);
     NgShard.minz := 0; NgShard.maxz := 63;
     NgShard.bbox := (1024, 1024);
     NgShard.shard_size := 1024;
     NgShard.writeRaw := false |}.

(** The cube (0, 0, 1) of a volume of 1024 slices: it starts at slice 1024,
    past the last slice. *)
Definition beyond_shard : NgShard.config :=
  {| NgShard.dest := "vol"; NgShard.source := "tmp";
     NgShard.tile_chunk := (0, 0, 1);
     NgShard.minz := 0; NgShard.maxz := 1023;
     NgShard.bbox := (1024, 1024);
     NgShard.shard_size := 1024;
     NgShard.writeRaw := false |}.

(** A store that refuses the lossless descriptor only. *)
Definition raw_refused : world :=
  {| blobs := ∅;
     infos := ∅;
     volume := [];
     put_ok := λ _ name, negb (String.eqb name "neuroglancer/raw/info");
     writer_ok := λ _, true |}.

Definition demo_meta : NgMeta.config :=
  {| NgMeta.dest := "vol"; NgMeta.minz := 0; NgMeta.maxz := 2047;
     NgMeta.resolution := 8; NgMeta.bbox := (2048, 2048);
     NgMeta.shard_size := 1024; NgMeta.writeRaw := true |}.

End Demo.

(** ** Vocabulary of the statements about containers and descriptors *)

(** The values written by [offsets_loop]: the running sums. *)
Fixpoint running (start : Z) (sizes : list Z) : list Z :=
  match sizes with
  | [] => []
  | val :: rest => (start + val) :: running (start + val) rest
  end.

(** Total length of the first [i] tiles. *)
Definition psum (tiles : list (list byte)) (i : nat) : Z :=
  Py.len (mjoin (take i tiles)).

(** What [superblock_container] returns: header, table of [k + 1] offsets,
    payload; and every integer written fits 64 bits. *)
Record laid_out (width height shard_size : Z) (tiles : list (list byte))
    (c : list byte) : Prop := {
  lo_start : Z := 24 + (Py.len tiles + 1) * 8;
  lo_offs : list Z := lo_start :: running lo_start (Py.len <$> tiles);
  lo_bytes :
    c = (le_split 8 width ++ le_split 8 height ++ le_split 8 shard_size)
        ++ mjoin (le_split 8 <$> lo_offs) ++ mjoin tiles;
  lo_width : 0 ≤ width < 2 ^ 64;
  lo_height : 0 ≤ height < 2 ^ 64;
  lo_shard : 0 ≤ shard_size < 2 ^ 64;
  lo_range : Forall (λ o, 0 ≤ o < 2 ^ 64) lo_offs;
}.

(** The padding added to ["size"] at scale [l]: 0, 1, 2, 4, 8, 16. *)
Definition size_padding (l : nat) : Z :=
  match l with
  | O => 0
  | S l' => 2 ^ Z.of_nat l'
  end.

(** ** Vocabulary of the further properties *)

(** The cell [t] of the target lies in the block piece [p] is assigned to. *)
Definition in_dst (p : Downsample.piece) (t : Z * Z * Z) : Prop :=
  let '(tx, ty, tz) := t in
  let '(x0, y0, z0) := Downsample.dst_lo p in
  let '(x1, y1, z1) := Downsample.dst_hi p in
  x0 ≤ tx < x1 ∧ y0 ≤ ty < y1 ∧ z0 ≤ tz < z1.

(** The origin and the shape of the cube after [l] turns of the level loop:
    [start // 2] and [_downsample] applied [l] times. *)
Definition level_origin (start : Z * Z * Z) (l : nat) : Z * Z * Z :=
  (start.1.1 `div` 2 ^ Z.of_nat l, start.1.2 `div` 2 ^ Z.of_nat l,
   start.2 `div` 2 ^ Z.of_nat l).
Definition level_shape (shape : Z * Z * Z) (l : nat) : Z * Z * Z :=
  Nat.iter l Downsample.zoom_shape shape.

Definition no_zero_dim (shape : Z * Z * Z) : Prop :=
  shape.1.1 ≠ 0 ∧ shape.1.2 ≠ 0 ∧ shape.2 ≠ 0.

(** [wr] is a write of the turn of the level loop for [level], entered with
    the cube of shape [shape] at [origin]: at level 0 one of the eight
    512-cubed blocks, to jpeg or, when writeRaw is set, to raw; at another
    level the whole cube, to jpeg. *)
Definition turn_write (cfg : NgShard.config) (level : Z) (origin shape : Z * Z * Z)
    (wr : Store.ts_write) : Prop :=
  Store.tw_bucket wr = NgShard.dest cfg
  ∧ Store.tw_level wr = level
  ∧ no_zero_dim (Store.tw_shape wr)
  ∧ if decide (level = 0) then
      (∃ iterx itery iterz,
         iterx ∈ [0; 512] ∧ itery ∈ [0; 512] ∧ iterz ∈ [0; 512]
         ∧ Store.tw_origin wr
           = (origin.1.1 + iterx, origin.1.2 + itery, origin.2 + iterz)
         ∧ Store.tw_shape wr
           = (Downsample.slice_len shape.1.1 iterx (iterx + 512),
              Downsample.slice_len shape.1.2 itery (itery + 512),
              Downsample.slice_len shape.2 iterz (iterz + 512)))
      ∧ (Store.tw_format wr = "jpeg"%string
         ∨ Store.tw_format wr = "raw"%string ∧ NgShard.writeRaw cfg = true)
    else
      Store.tw_format wr = "jpeg"%string
      ∧ Store.tw_origin wr = origin
      ∧ Store.tw_shape wr = shape.

(** [w'] is [w] with more writes to the volume, all satisfying [Q], and
    nothing else changed. *)
Definition extends (Q : Store.ts_write → Prop) (w w' : Store.world) : Prop :=
  Store.blobs w' = Store.blobs w
  ∧ Store.infos w' = Store.infos w
  ∧ Store.put_ok w' = Store.put_ok w
  ∧ Store.writer_ok w' = Store.writer_ok w
  ∧ ∃ new, Store.volume w' = Store.volume w ++ new ∧ Forall Q new.

(** [m] only ever adds writes satisfying [Q] to the volume. *)
Definition writes_only {A : Type} (Q : Store.ts_write → Prop) (m : Store.io A) : Prop :=
  ∀ w, extends Q w (m w).2.

(** Whenever [m] returns normally it has added a write satisfying [Q] to the
    volume. *)
Definition emits {A : Type} (Q : Store.ts_write → Prop) (m : Store.io A) : Prop :=
  ∀ w a w', m w = (Ok a, w') →
    ∃ new, Store.volume w' = Store.volume w ++ new ∧ Exists Q new.

(** The voxel [v] lies in the box of the write [wr]. *)
Definition in_write (wr : Store.ts_write) (v : Z * Z * Z) : Prop :=
  (Store.tw_origin wr).1.1 ≤ v.1.1 < (Store.tw_origin wr).1.1 + (Store.tw_shape wr).1.1
  ∧ (Store.tw_origin wr).1.2 ≤ v.1.2 < (Store.tw_origin wr).1.2 + (Store.tw_shape wr).1.2
  ∧ (Store.tw_origin wr).2 ≤ v.2 < (Store.tw_origin wr).2 + (Store.tw_shape wr).2.

(** A 4096 x 4096 slice cut in tiles of 1024, and the cube of column 1 and
    row 1 of its only super-block. *)
Module EdgeDemo.
Import Store.

Definition wide_container : list byte :=
  Eval vm_compute in
  match Container.superblock_container Demo.demo_png 4096 4096 1024 0 0 with
  | Ok c => c
  | Raise _ => []
  end.

(** The temporary bucket with the container of slice 7. *)
Definition wide_world : world :=
  {| blobs := {[ ("tmp"%string, Container.blob_name 7 0 0) := wide_container ]};
     infos := ∅;
     volume := [];
     put_ok := λ _ _, true;
     writer_ok := λ _, true |}.

Definition wide_shard : NgShard.config :=
  {| NgShard.dest := "vol"; NgShard.source := "tmp";
     NgShard.tile_chunk := (1, 1, 0);
     NgShard.minz := 0; NgShard.maxz := 63;
     NgShard.bbox := (4096, 4096);
     NgShard.shard_size := 1024;
     NgShard.writeRaw := false |}.

End EdgeDemo.

(** * Properties *)

(** ** The error monad *)

Lemma bind_Ok_inv {A B : Type} (m : result A) (f : A → result B) (b : B) :
  m ≫= f = Ok b → ∃ a, m = Ok a ∧ f a = Ok b.
Proof. destruct m as [a|e]; simpl; [eauto | discriminate]. Qed.

Lemma for_each_collect {A B : Type} (xs : list A) (body : A → list B → result (list B))
    (f : A → list B) (acc : list B) :
  (∀ x acc, x ∈ xs → body x acc = Ok (acc ++ f x)) →
  for_each xs body acc = Ok (acc ++ (xs ≫= f)).
Proof.
  revert acc. induction xs as [|x xs IH]; intros acc Hb; simpl.
  - by rewrite app_nil_r.
  - rewrite Hb by left. simpl. rewrite IH.
    + by rewrite <- app_assoc.
    + intros x' acc' Hx'. apply Hb. by right.
Qed.

(** Destructs the binds of a hypothesis [H : ... = Ok _]. *)
Ltac inv_bind H :=
  repeat match type of H with
  | _ ≫= _ = Ok _ =>
      let a := fresh "a" in let Ha := fresh "Ha" in
      apply bind_Ok_inv in H; destruct H as (a & Ha & H)
  end.

(** ** Python primitives *)

Lemma to_bytes8_inv (n : Z) (b : list byte) :
  Py.to_bytes8 n = Ok b → 0 ≤ n < 2 ^ 64 ∧ b = le_split 8 n.
Proof.
  unfold Py.to_bytes8. destruct (decide _) as [Hn|Hn]; [|discriminate].
  intros [= <-]. auto.
Qed.

Lemma to_bytes8_Ok (n : Z) : 0 ≤ n < 2 ^ 64 → Py.to_bytes8 n = Ok (le_split 8 n).
Proof. intros. unfold Py.to_bytes8. by rewrite decide_True. Qed.

Lemma from_bytes_le_split8 (n : Z) :
  0 ≤ n < 2 ^ 64 → Py.from_bytes (le_split 8 n) = n.
Proof.
  intros Hn. unfold Py.from_bytes. rewrite le_combine_split.
  apply Z.mod_small. exact Hn.
Qed.

Lemma len_app {A : Type} (l k : list A) : Py.len (l ++ k) = Py.len l + Py.len k.
Proof. unfold Py.len. rewrite length_app. lia. Qed.

Lemma len_nonneg {A : Type} (l : list A) : 0 ≤ Py.len l.
Proof. unfold Py.len. lia. Qed.

Lemma len_le_split (n : nat) (z : Z) : Py.len (le_split n z) = Z.of_nat n.
Proof. unfold Py.len. by rewrite length_le_split. Qed.

Lemma slice_app_r {A : Type} (l k : list A) (a b : Z) :
  0 ≤ a → 0 ≤ b →
  Py.slice (l ++ k) (Py.len l + a) (Py.len l + b) = Py.slice k a b.
Proof.
  intros Ha Hb. unfold Py.slice, Py.len.
  replace (Z.to_nat (Z.of_nat (length l) + a)) with (length l + Z.to_nat a)%nat by lia.
  replace (Z.to_nat (Z.of_nat (length l) + b)) with (length l + Z.to_nat b)%nat by lia.
  rewrite drop_app_add.
  f_equal. lia.
Qed.

Lemma slice_prefix {A : Type} (l k : list A) (b : Z) :
  b = Py.len l → Py.slice (l ++ k) 0 b = l.
Proof.
  intros ->. unfold Py.slice, Py.len.
  change (Z.to_nat 0) with 0%nat. rewrite Nat.sub_0_r, Nat2Z.id, drop_0.
  by rewrite take_app_length.
Qed.

Lemma slice_middle {A : Type} (l m k : list A) (a b : Z) :
  a = Py.len l → b = Py.len l + Py.len m →
  Py.slice (l ++ m ++ k) a b = m.
Proof.
  intros -> ->.
  rewrite <- (Z.add_0_r (Py.len l)) at 1.
  rewrite slice_app_r by (pose proof (len_nonneg m); lia).
  by apply slice_prefix.
Qed.

(** ** Layout of the container *)


Lemma offsets_loop_inv (sizes : list Z) (start : Z) (acc fb : list byte) :
  Container.offsets_loop sizes start acc = Ok fb →
  fb = acc ++ mjoin (le_split 8 <$> running start sizes)
  ∧ Forall (λ o, 0 ≤ o < 2 ^ 64) (running start sizes).
Proof.
  revert start acc. induction sizes as [|val rest IH]; intros start acc H; simpl in *.
  - injection H as <-. by rewrite app_nil_r.
  - inv_bind H. apply to_bytes8_inv in Ha as [Hr ->].
    apply IH in H as [-> HF]. split; [by rewrite <- app_assoc | by constructor].
Qed.

Lemma offsets_loop_Ok (sizes : list Z) (start : Z) (acc : list byte) :
  Forall (λ o, 0 ≤ o < 2 ^ 64) (running start sizes) →
  Container.offsets_loop sizes start acc
  = Ok (acc ++ mjoin (le_split 8 <$> running start sizes)).
Proof.
  revert start acc. induction sizes as [|val rest IH]; intros start acc H; simpl in *.
  - by rewrite app_nil_r.
  - inversion H as [|? ? Hr HF]; subst. rewrite to_bytes8_Ok by done. simpl.
    rewrite IH by done. by rewrite <- app_assoc.
Qed.

Lemma running_lookup (tiles : list (list byte)) (start : Z) (i : nat) :
  (i ≤ length tiles)%nat →
  (start :: running start (Py.len <$> tiles)) !! i = Some (start + psum tiles i).
Proof.
  revert start i. induction tiles as [|t tiles IH]; intros start i Hi.
  - destruct i; [|simpl in Hi; lia]. simpl. unfold psum. simpl. f_equal.
    unfold Py.len. simpl. lia.
  - destruct i as [|i].
    + simpl. unfold psum, Py.len. simpl. f_equal. lia.
    + simpl. simpl in Hi. rewrite IH by lia. f_equal.
      unfold psum. simpl. rewrite len_app. lia.
Qed.

Lemma length_running (start : Z) (sizes : list Z) :
  length (running start sizes) = length sizes.
Proof. revert start; induction sizes; intros; simpl; auto. Qed.

Lemma table_cons (o : Z) (offs : list Z) :
  mjoin (le_split 8 <$> o :: offs) = le_split 8 o ++ mjoin (le_split 8 <$> offs).
Proof. reflexivity. Qed.

Lemma table_slice (offs : list Z) (rest : list byte) (i : nat) (o : Z) :
  offs !! i = Some o →
  Py.slice (mjoin (le_split 8 <$> offs) ++ rest) (8 * Z.of_nat i) (8 * Z.of_nat i + 8)
  = le_split 8 o.
Proof.
  revert i. induction offs as [|o' offs IH]; intros i Hi; [done|].
  destruct i as [|i]; simpl in Hi.
  - injection Hi as ->. rewrite table_cons, <- app_assoc.
    apply slice_prefix. by rewrite len_le_split.
  - rewrite table_cons, <- app_assoc.
    replace (8 * Z.of_nat (S i)) with (Py.len (le_split 8 o') + 8 * Z.of_nat i)
      by (rewrite len_le_split; lia).
    rewrite <- Z.add_assoc. rewrite slice_app_r by lia. by apply IH.
Qed.

Lemma len_table (offs : list Z) :
  Py.len (mjoin (le_split 8 <$> offs)) = 8 * Py.len offs.
Proof.
  induction offs as [|o offs IH]; [done|].
  rewrite table_cons, len_app, IH, len_le_split. unfold Py.len. simpl length. lia.
Qed.

Lemma foldl_append_tile (tile_png : Z → Z → list byte) (grid : list (Z * Z))
    (st : list Z * list byte) :
  foldl (λ st origin, Container.append_tile tile_png origin st) st grid
  = (st.1 ++ (Py.len <$> Container.superblock_tiles tile_png grid),
     st.2 ++ mjoin (Container.superblock_tiles tile_png grid)).
Proof.
  revert st. induction grid as [|o grid IH]; intros [sizes vol]; simpl.
  - by rewrite !app_nil_r.
  - rewrite IH. simpl. by rewrite <- !app_assoc.
Qed.


Lemma pack_laid_out (width height shard_size : Z) (tiles : list (list byte))
    (c : list byte) :
  Container.pack width height shard_size (Py.len <$> tiles) (mjoin tiles) = Ok c →
  laid_out width height shard_size tiles c.
Proof.
  unfold Container.pack. intros H. inv_bind H.
  apply to_bytes8_inv in Ha as [Hw ->].
  apply to_bytes8_inv in Ha0 as [Hh ->].
  apply to_bytes8_inv in Ha1 as [Hs ->].
  apply to_bytes8_inv in Ha2 as [Hst ->].
  apply offsets_loop_inv in Ha3 as [-> HF].
  injection H as <-.
  assert (Hlen : Py.len (Py.len <$> tiles) = Py.len tiles)
    by (unfold Py.len; by rewrite length_fmap).
  rewrite Hlen in *.
  split; try done. by constructor.
Qed.

Lemma superblock_container_laid_out (tile_png : Z → Z → list byte)
    (width height shard_size startx starty : Z) (c : list byte) :
  Container.superblock_container tile_png width height shard_size startx starty = Ok c →
  ∃ grid, Container.tile_grid width height shard_size startx starty = Ok grid
    ∧ laid_out width height shard_size (Container.superblock_tiles tile_png grid) c.
Proof.
  unfold Container.superblock_container. intros H. inv_bind H.
  exists a. split; [done|].
  rewrite foldl_append_tile in H. simpl in H.
  by apply pack_laid_out.
Qed.

Section LaidOut.
Context {width height shard_size : Z} {tiles : list (list byte)} {c : list byte}.
Context (L : laid_out width height shard_size tiles c).

Lemma laid_out_header :
  Container.u64_at c 0 = width ∧ Container.u64_at c 8 = height
  ∧ Container.u64_at c 16 = shard_size.
Proof.
  destruct L as [start offs -> Hw Hh Hs _]. unfold Container.u64_at.
  rewrite <- !app_assoc. repeat split.
  - rewrite slice_prefix by (by rewrite len_le_split).
    by apply from_bytes_le_split8.
  - change 8 with (Py.len (le_split 8 width) + 0) at 1.
    change (8 + 8) with (Py.len (le_split 8 width) + 8).
    rewrite slice_app_r by lia.
    rewrite slice_prefix by (by rewrite len_le_split).
    by apply from_bytes_le_split8.
  - rewrite (app_assoc (le_split 8 width)).
    change 16 with (Py.len (le_split 8 width ++ le_split 8 height) + 0) at 1.
    change (16 + 8) with (Py.len (le_split 8 width ++ le_split 8 height) + 8).
    rewrite slice_app_r by lia.
    rewrite slice_prefix by (by rewrite len_le_split).
    by apply from_bytes_le_split8.
Qed.

Lemma laid_out_entry (i : nat) :
  (i ≤ length tiles)%nat →
  Container.entry c (Z.of_nat i) = 24 + (Py.len tiles + 1) * 8 + psum tiles i.
Proof.
  intros Hi. destruct L as [start offs -> _ _ _ HF].
  unfold Container.entry, Container.u64_at.
  change 24 with (Py.len (le_split 8 width ++ le_split 8 height ++ le_split 8 shard_size)) at 1 2.
  rewrite <- Z.add_assoc. rewrite slice_app_r by lia.
  pose proof (running_lookup tiles start i Hi) as Hl. fold offs in Hl.
  rewrite (table_slice _ _ _ _ Hl).
  apply from_bytes_le_split8.
  rewrite Forall_lookup in HF. by apply (HF i).
Qed.

Lemma laid_out_len :
  Py.len c = 24 + (Py.len tiles + 1) * 8 + psum tiles (length tiles).
Proof.
  destruct L as [start offs -> _ _ _ _].
  rewrite !len_app, len_table, !len_le_split.
  unfold psum. rewrite firstn_all.
  unfold offs, Py.len. simpl length. rewrite length_running, length_fmap. lia.
Qed.

Lemma laid_out_tile (i : nat) (tile : list byte) :
  tiles !! i = Some tile →
  Py.slice c (24 + (Py.len tiles + 1) * 8 + psum tiles i)
             (24 + (Py.len tiles + 1) * 8 + psum tiles i + Py.len tile) = tile.
Proof.
  intros Hi. destruct L as [start offs -> _ _ _ _].
  rewrite app_assoc.
  assert (Hpre : Py.len ((le_split 8 width ++ le_split 8 height ++ le_split 8 shard_size)
                         ++ mjoin (le_split 8 <$> offs)) = 24 + (Py.len tiles + 1) * 8).
  { rewrite !len_app, len_table, !len_le_split.
    unfold offs, Py.len. simpl length. rewrite length_running, length_fmap. lia. }
  rewrite <- Hpre, <- Z.add_assoc.
  rewrite slice_app_r by (unfold psum; pose proof (len_nonneg tile);
                          pose proof (len_nonneg (mjoin (take i tiles))); lia).
  rewrite <- (take_drop_middle tiles i tile Hi) at 1.
  rewrite join_app. simpl mjoin.
  apply slice_middle; [done|]. reflexivity.
Qed.
End LaidOut.

Lemma psum_S (tiles : list (list byte)) (i : nat) (tile : list byte) :
  tiles !! i = Some tile → psum tiles (S i) = psum tiles i + Py.len tile.
Proof.
  intros Hi. unfold psum. rewrite (take_S_r _ _ _ Hi), join_app, len_app.
  simpl. by rewrite app_nil_r.
Qed.

Lemma table_slice2 (offs : list Z) (rest : list byte) (i : nat) (o o' : Z) :
  offs !! i = Some o → offs !! S i = Some o' →
  Py.slice (mjoin (le_split 8 <$> offs) ++ rest) (8 * Z.of_nat i) (8 * Z.of_nat i + 16)
  = le_split 8 o ++ le_split 8 o'.
Proof.
  revert i. induction offs as [|o1 offs IH]; intros i Hi Hi'; [done|].
  destruct i as [|i]; simpl in Hi, Hi'.
  - injection Hi as ->. destruct offs as [|o2 offs]; [done|].
    injection Hi' as ->. rewrite !table_cons, <- !app_assoc.
    rewrite (app_assoc (le_split 8 o)).
    apply slice_prefix. by rewrite len_app, !len_le_split.
  - rewrite table_cons, <- app_assoc.
    replace (8 * Z.of_nat (S i)) with (Py.len (le_split 8 o1) + 8 * Z.of_nat i)
      by (rewrite len_le_split; lia).
    rewrite <- Z.add_assoc. rewrite slice_app_r by lia. by apply IH.
Qed.

(** C1: the bytes of a container emitted for a super-block of k tiles decode,
    at offsets 0, 8 and 16, to W, H and shard_size (unsigned little-endian
    64-bit); the k+1 offset entries that follow start at
    payload_start_0 = 24 + (k+1)*8 and are strictly increasing; tile i
    occupies exactly the bytes [entry i, entry (i+1)); the last entry is the
    size of the container.  PNG files are never empty, which is the
    hypothesis on [tile_png]. *)
Theorem container_layout (tile_png : Z → Z → list byte)
    (width height shard_size startx starty : Z) (c : list byte) :
  (∀ x y, tile_png x y ≠ []) →
  Container.superblock_container tile_png width height shard_size startx starty = Ok c →
  ∃ grid, Container.tile_grid width height shard_size startx starty = Ok grid ∧
    let k := length grid in
    Container.u64_at c 0 = width
    ∧ Container.u64_at c 8 = height
    ∧ Container.u64_at c 16 = shard_size
    ∧ Container.entry c 0 = 24 + (Z.of_nat k + 1) * 8
    ∧ (∀ i : nat, (i < k)%nat →
         Container.entry c (Z.of_nat i) < Container.entry c (Z.of_nat (S i)))
    ∧ (∀ (i : nat) (origin : Z * Z), grid !! i = Some origin →
         Py.slice c (Container.entry c (Z.of_nat i)) (Container.entry c (Z.of_nat (S i)))
         = tile_png origin.1 origin.2
         ∧ Container.entry c (Z.of_nat (S i)) - Container.entry c (Z.of_nat i)
           = Py.len (tile_png origin.1 origin.2))
    ∧ Container.entry c (Z.of_nat k) = Py.len c.
Proof.
  intros Hne H.
  apply superblock_container_laid_out in H as (grid & Hgrid & L).
  exists grid. split; [done|]. cbv zeta.
  set (tiles := Container.superblock_tiles tile_png grid) in *.
  assert (Hk : length tiles = length grid) by (unfold tiles, Container.superblock_tiles; by rewrite length_fmap).
  assert (Hlk : Py.len tiles = Z.of_nat (length grid)) by (unfold Py.len; by rewrite Hk).
  assert (Hstep : ∀ (i : nat) origin, grid !! i = Some origin →
            tiles !! i = Some (tile_png origin.1 origin.2)).
  { intros i origin Hi. unfold tiles, Container.superblock_tiles.
    by rewrite list_lookup_fmap, Hi. }
  destruct (laid_out_header L) as (Hw & Hh & Hs).
  split_and!; try done.
  - change 0 with (Z.of_nat 0). rewrite (laid_out_entry L) by lia.
    unfold psum. simpl. unfold Py.len at 2. simpl. lia.
  - intros i Hi.
    destruct (lookup_lt_is_Some_2 grid i Hi) as [origin Ho].
    rewrite !(laid_out_entry L) by lia.
    rewrite (psum_S _ _ _ (Hstep _ _ Ho)).
    specialize (Hne origin.1 origin.2).
    assert (0 < Py.len (tile_png origin.1 origin.2)); [|lia].
    unfold Py.len. destruct (tile_png origin.1 origin.2); [done|]. simpl length. lia.
  - intros i origin Ho.
    pose proof (lookup_lt_Some _ _ _ Ho) as Hi.
    rewrite !(laid_out_entry L) by lia.
    rewrite (psum_S _ _ _ (Hstep _ _ Ho)). split; [|lia].
    rewrite Z.add_assoc. apply (laid_out_tile L). by apply Hstep.
  - rewrite (laid_out_entry L) by lia. rewrite (laid_out_len L). by rewrite Hk.
Qed.

Lemma download_range_Ok (data : list byte) (a b : Z) :
  0 ≤ a < Py.len data → a ≤ b →
  Container.download_range data a b = Ok (Py.slice data a (b + 1)).
Proof. intros. unfold Container.download_range. by rewrite decide_True. Qed.

(** C2: reading tile t of a container the producer wrote by the assembler's
    two-offset lookup (16 bytes at [24 + 8t, 24 + 8t + 16), then the range
    the two offsets delimit) returns exactly the PNG bytes the producer
    appended at position t. *)
Theorem read_tile_roundtrip (tile_png : Z → Z → list byte)
    (width height shard_size startx starty : Z) (c : list byte)
    (grid : list (Z * Z)) (t : nat) (origin : Z * Z) :
  (∀ x y, tile_png x y ≠ []) →
  Container.superblock_container tile_png width height shard_size startx starty = Ok c →
  Container.tile_grid width height shard_size startx starty = Ok grid →
  grid !! t = Some origin →
  Container.read_tile c (Z.of_nat t) = Ok (tile_png origin.1 origin.2).
Proof.
  intros Hne H Hgrid Ht.
  apply superblock_container_laid_out in H as (grid' & Hgrid' & L).
  rewrite Hgrid in Hgrid'. injection Hgrid' as <-.
  set (tiles := Container.superblock_tiles tile_png grid) in *.
  set (tile := tile_png origin.1 origin.2).
  assert (Hk : length tiles = length grid)
    by (unfold tiles, Container.superblock_tiles; by rewrite length_fmap).
  assert (Htile : tiles !! t = Some tile)
    by (unfold tiles, Container.superblock_tiles; by rewrite list_lookup_fmap, Ht).
  pose proof (lookup_lt_Some _ _ _ Ht) as Hlt.
  pose proof (laid_out_len L) as Hlen.
  pose proof (laid_out_tile L t tile Htile) as Hbytes.
  assert (Hpos : 0 < Py.len tile).
  { specialize (Hne origin.1 origin.2). fold tile in Hne.
    unfold Py.len. destruct tile; [done|]. simpl. lia. }
  assert (Hmono : psum tiles (S t) ≤ psum tiles (length tiles)).
  { unfold psum. rewrite <- (take_drop (S t) (take (length tiles) tiles)).
    rewrite take_take, join_app, len_app.
    replace (S t `min` length tiles)%nat with (S t) by lia.
    pose proof (len_nonneg (mjoin (drop (S t) (take (length tiles) tiles)))). lia. }
  pose proof (psum_S _ _ _ Htile) as HS.
  assert (Hp0 : 0 ≤ psum tiles t) by apply len_nonneg.
  set (start := 24 + (Py.len tiles + 1) * 8) in *.
  assert (Hlt' : Py.len tiles = Z.of_nat (length grid)) by (unfold Py.len; by rewrite Hk).
  (* the two offsets *)
  assert (Hrange : Py.slice c (24 + Z.of_nat t * 8) (24 + Z.of_nat t * 8 + 16 - 1 + 1)
                   = le_split 8 (start + psum tiles t) ++ le_split 8 (start + psum tiles (S t))).
  { destruct L as [start' offs -> _ _ _ _].
    change 24 with (Py.len (le_split 8 width ++ le_split 8 height ++ le_split 8 shard_size)) at 1 2.
    replace (Py.len (le_split 8 width ++ le_split 8 height ++ le_split 8 shard_size)
             + Z.of_nat t * 8 + 16 - 1 + 1)
      with (Py.len (le_split 8 width ++ le_split 8 height ++ le_split 8 shard_size)
            + (8 * Z.of_nat t + 16)) by lia.
    rewrite slice_app_r by lia.
    replace (Z.of_nat t * 8) with (8 * Z.of_nat t) by lia.
    apply table_slice2; apply running_lookup; lia. }
  assert (Hin : ∀ i : nat, (i ≤ length tiles)%nat → 0 ≤ start + psum tiles i < 2 ^ 64).
  { intros i Hi. destruct L as [start' offs _ _ _ _ HF].
    rewrite Forall_lookup in HF. apply (HF i). by apply running_lookup. }
  unfold Container.read_tile. cbv zeta.
  rewrite download_range_Ok by (rewrite ?Hlen; fold start; lia).
  rewrite Hrange. cbn [mbind result_bind].
  assert (H8 : Py.slice (le_split 8 (start + psum tiles t)
                         ++ le_split 8 (start + psum tiles (S t))) 0 8
               = le_split 8 (start + psum tiles t))
    by (apply slice_prefix; by rewrite len_le_split).
  assert (H16 : Py.slice (le_split 8 (start + psum tiles t)
                          ++ le_split 8 (start + psum tiles (S t))) 8 16
                = le_split 8 (start + psum tiles (S t))).
  { rewrite <- (app_nil_r (le_split 8 (start + psum tiles (S t)))).
    apply slice_middle; by rewrite !len_le_split. }
  rewrite H8, H16.
  rewrite !from_bytes_le_split8 by (apply Hin; lia).
  rewrite download_range_Ok by (rewrite ?Hlen; fold start; lia).
  f_equal. rewrite <- Hbytes. f_equal. fold start. lia.
Qed.

(** ** Ranges and grids *)

Lemma range_nonzero (a b s : Z) (l : list Z) : Py.range a b s = Ok l → s ≠ 0.
Proof. unfold Py.range. by destruct (decide (s = 0)). Qed.

Lemma range_pos (a b s : Z) :
  0 < s →
  Py.range a b s = Ok ((λ i, a + i * s) <$> seqZ 0 ((b - a + s - 1) `div` s)).
Proof.
  intros Hs. unfold Py.range.
  rewrite decide_False by lia. by rewrite decide_True by lia.
Qed.

Lemma range_pos_elem (a b s v : Z) (l : list Z) :
  Py.range a b s = Ok l → 0 < s → v ∈ l →
  a ≤ v < b ∧ ∃ i, 0 ≤ i ∧ v = a + i * s.
Proof.
  intros H Hs Hv. rewrite range_pos in H by done. injection H as <-.
  apply list_elem_of_fmap in Hv as (i & -> & Hi).
  apply elem_of_seqZ in Hi.
  assert (s * ((b - a + s - 1) `div` s) ≤ b - a + s - 1)
    by (apply Z.mul_div_le; lia).
  split; [nia | exists i; lia].
Qed.

Lemma range_neg_empty (a b s : Z) (l : list Z) :
  Py.range a b s = Ok l → s < 0 → a ≤ b → l = [].
Proof.
  intros H Hs Hab. unfold Py.range in H.
  rewrite decide_False in H by lia. rewrite decide_False in H by lia.
  injection H as <-. rewrite seqZ_nil; [done|].
  assert ((a - b - s - 1) `div` (- s) < 1); [|lia].
  apply Z.div_lt_upper_bound; lia.
Qed.

(** The list built by two nested loops whose inner range does not depend on
    the outer variable. *)
Lemma nested_grid_elem (ys : list Z) (inner : result (list Z))
    (mk : Z → Z → Z * Z) (acc g : list (Z * Z)) (p : Z * Z) :
  for_each ys (λ y acc, xs ← inner; Ok (acc ++ ((λ x, mk x y) <$> xs))) acc = Ok g →
  p ∈ g →
  p ∈ acc ∨ ∃ xs x y, inner = Ok xs ∧ x ∈ xs ∧ y ∈ ys ∧ p = mk x y.
Proof.
  revert acc. induction ys as [|y ys IH]; intros acc H Hp; simpl in H.
  - injection H as <-. by left.
  - inv_bind H. inv_bind Ha. injection Ha as <-.
    destruct (IH _ H Hp) as [Hin | (xs & x & y' & Hi & Hx & Hy & ->)].
    + apply elem_of_app in Hin as [Hin | Hin]; [by left|].
      apply list_elem_of_fmap in Hin as (x & -> & Hx).
      right. exists a0, x, y. split_and!; try done. by left.
    + right. exists xs, x, y'. split_and!; try done. by right.
Qed.

Lemma tile_grid_elem (width height shard_size startx starty : Z)
    (grid : list (Z * Z)) (chunkx chunky : Z) :
  Container.tile_grid width height shard_size startx starty = Ok grid →
  startx < width → starty < height →
  (chunkx, chunky) ∈ grid →
  0 < shard_size
  ∧ startx ≤ chunkx < Z.min (startx + MAX_IMAGE_SIZE) width
  ∧ starty ≤ chunky < Z.min (starty + MAX_IMAGE_SIZE) height.
Proof.
  unfold Container.tile_grid. intros H Hx Hy Hp. inv_bind H.
  pose proof (range_nonzero _ _ _ _ Ha) as Hnz.
  destruct (nested_grid_elem _ _ (λ x y, (x, y)) _ _ _ H Hp)
    as [Hin | (xs & x & y & Hi & Hxs & Hys & [= -> ->])]; [by apply elem_of_nil in Hin|].
  destruct (decide (0 < shard_size)) as [Hs|Hs].
  - split; [done|]. split.
    + by apply (range_pos_elem _ _ _ _ _ Hi).
    + by apply (range_pos_elem _ _ _ _ _ Ha).
  - apply range_neg_empty in Ha; [|lia|unfold MAX_IMAGE_SIZE; lia].
    subst a. by apply elem_of_nil in Hys.
Qed.

Lemma superblocks_elem (width height : Z) (sbs : list (Z * Z)) (startx starty : Z) :
  Tiles.superblocks width height = Ok sbs → (startx, starty) ∈ sbs →
  0 ≤ startx < width ∧ 0 ≤ starty < height.
Proof.
  unfold Tiles.superblocks. intros H Hp. inv_bind H.
  destruct (nested_grid_elem _ _ (λ x y, (x, y)) _ _ _ H Hp)
    as [Hin | (xs & x & y & Hi & Hxs & Hys & [= -> ->])]; [by apply elem_of_nil in Hin|].
  split.
  - by apply (range_pos_elem _ _ _ _ _ Hi).
  - by apply (range_pos_elem _ _ _ _ _ Ha).
Qed.

(** With a positive [shard_size] the tile loops raise nothing. *)
Lemma tile_grid_Ok (width height shard_size startx starty : Z) :
  0 < shard_size →
  ∃ grid, Container.tile_grid width height shard_size startx starty = Ok grid.
Proof.
  intros Hs. unfold Container.tile_grid. rewrite !range_pos by done.
  cbn [mbind result_bind]. eexists.
  set (xs := (λ i, startx + i * shard_size) <$> seqZ 0 _).
  apply (for_each_collect _ _ (λ chunky, (λ chunkx, (chunkx, chunky)) <$> xs)).
  intros chunky acc _. reflexivity.
Qed.

Lemma running_bounds (sizes : list Z) (start : Z) :
  Forall (λ v, 0 ≤ v) sizes →
  Forall (λ o, start ≤ o ≤ start + foldr Z.add 0 sizes) (running start sizes).
Proof.
  revert start. induction sizes as [|v sizes IH]; intros start Hpos; simpl; [done|].
  inversion Hpos as [|? ? Hv Hrest]; subst.
  assert (0 ≤ foldr Z.add 0 sizes).
  { clear IH Hpos. induction Hrest; simpl; lia. }
  constructor; [lia|].
  eapply Forall_impl; [by apply IH|]. simpl. intros; lia.
Qed.

Lemma sum_lens (tiles : list (list byte)) :
  foldr Z.add 0 (Py.len <$> tiles) = Py.len (mjoin tiles).
Proof.
  induction tiles as [|t tiles IH]; [done|].
  rewrite fmap_cons. cbn [foldr]. rewrite IH.
  change (mjoin (t :: tiles)) with (t ++ mjoin tiles). by rewrite len_app.
Qed.

(** The producer does emit a container whenever the three header fields and
    the size of the container fit 64 bits and [shard_size] is positive. *)
Lemma superblock_container_Ok (tile_png : Z → Z → list byte)
    (width height shard_size startx starty : Z) (grid : list (Z * Z)) :
  0 ≤ width < 2 ^ 64 → 0 ≤ height < 2 ^ 64 → 0 ≤ shard_size < 2 ^ 64 →
  Container.tile_grid width height shard_size startx starty = Ok grid →
  24 + (Py.len grid + 1) * 8 + Py.len (mjoin (Container.superblock_tiles tile_png grid))
    < 2 ^ 64 →
  ∃ c, Container.superblock_container tile_png width height shard_size startx starty
       = Ok c.
Proof.
  intros Hw Hh Hs Hgrid Hsize. unfold Container.superblock_container.
  rewrite Hgrid. cbn [mbind result_bind]. rewrite foldl_append_tile. simpl.
  set (tiles := Container.superblock_tiles tile_png grid) in *.
  assert (Hlen : Py.len (Py.len <$> tiles) = Py.len grid).
  { unfold Py.len, tiles, Container.superblock_tiles. by rewrite !length_fmap. }
  unfold Container.pack.
  rewrite (to_bytes8_Ok width), (to_bytes8_Ok height), (to_bytes8_Ok shard_size) by done.
  cbn [mbind result_bind].
  rewrite Hlen.
  pose proof (len_nonneg grid). pose proof (len_nonneg (mjoin tiles)).
  rewrite to_bytes8_Ok by lia. cbn [mbind result_bind].
  rewrite offsets_loop_Ok; [cbn [mbind result_bind]; eauto|].
  eapply Forall_impl.
  - apply running_bounds. apply Forall_fmap, Forall_true. intros t. apply len_nonneg.
  - simpl. intros o Ho. rewrite sum_lens in Ho. lia.
Qed.

(** ** Tiles at the edge of the slice *)

(** C3, as amended: every tile the producer writes is a full
    shard_size-by-shard_size image, also on the right and bottom edge.  Only
    the origin of a tile is kept inside the slice (and inside its
    super-block); the crop box is not clipped, and the part of it outside
    the slice is filled with zero before the tile is equalized. *)
Theorem tile_full_size (curr_im : Tiles.image) (width height shard_size : Z)
    (sbs grid : list (Z * Z)) (startx starty chunkx chunky : Z) :
  Tiles.im_width curr_im = width → Tiles.im_height curr_im = height →
  Tiles.superblocks width height = Ok sbs → (startx, starty) ∈ sbs →
  Container.tile_grid width height shard_size startx starty = Ok grid →
  (chunkx, chunky) ∈ grid →
  let tile := Tiles.cropped_tile curr_im shard_size chunkx chunky in
  Tiles.im_width tile = shard_size
  ∧ Tiles.im_height tile = shard_size
  ∧ 0 ≤ chunkx < width ∧ 0 ≤ chunky < height
  ∧ ∀ x y, width ≤ chunkx + x ∨ height ≤ chunky + y → Tiles.im_pixel tile x y = 0.
Proof.
  intros Hw Hh Hsbs Hsb Hgrid Hp.
  destruct (superblocks_elem _ _ _ _ _ Hsbs Hsb) as [Hx Hy].
  destruct (tile_grid_elem _ _ _ _ _ _ _ _ Hgrid ltac:(lia) ltac:(lia) Hp)
    as (Hs & Hcx & Hcy).
  unfold Tiles.cropped_tile, Tiles.crop. simpl.
  split_and!; try lia.
  intros x y Hout. rewrite decide_False; [done|]. lia.
Qed.

(** ** The descriptor *)

Lemma create_meta_Ok (width height minz maxz shard_size : Z) (isRaw : bool) (res : Z) :
  shard_size ≠ 0 →
  ∃ d, Meta.create_meta width height minz maxz shard_size isRaw res = Ok d.
Proof.
  intros Hs. unfold Meta.create_meta. rewrite decide_False by done.
  destruct isRaw; eauto.
Qed.

(** C4: the lossy descriptor has exactly six scales; scale l has resolution
    [r, r, r] and key "{r}.0x{r}.0x{r}.0" for r = res * 2^l, chunk_sizes
    [[64,64,64]] and encoding "jpeg"; scales 0, 1, 2 carry a
    neuroglancer_uint64_sharded_v1 object with minishard_bits 0,
    preshift_bits 6, gzip minishard index and shard_bits 27, 24, 21, and
    scales 3, 4, 5 carry none.  The lossless descriptor has exactly one
    scale, with chunk_sizes [[128,128,128]], encoding "raw" and no sharding
    object. *)
Theorem create_meta_scales (width height minz maxz shard_size res : Z) :
  shard_size ≠ 0 →
  (∃ lossy, Meta.create_meta width height minz maxz shard_size false res = Ok lossy
     ∧ length (Meta.scales lossy) = 6%nat
     ∧ ∀ (l : nat) (sc : Meta.scale), Meta.scales lossy !! l = Some sc →
         let r := res * 2 ^ Z.of_nat l in
         Meta.resolution sc = [r; r; r]
         ∧ Meta.key sc
           = (pretty r +:+ ".0x" +:+ pretty r +:+ ".0x" +:+ pretty r +:+ ".0")%string
         ∧ Meta.chunk_sizes sc = [[64; 64; 64]]
         ∧ Meta.encoding sc = "jpeg"%string
         ∧ match Meta.sharding_spec sc with
           | Some sh =>
               (l < 3)%nat
               ∧ Meta.sh_type sh = "neuroglancer_uint64_sharded_v1"%string
               ∧ Meta.minishard_bits sh = 0
               ∧ Meta.preshift_bits sh = 6
               ∧ Meta.minishard_index_encoding sh = "gzip"%string
               ∧ Meta.shard_bits sh = 27 - 3 * Z.of_nat l
           | None => (3 ≤ l)%nat
           end)
  ∧ (∃ lossless sc, Meta.create_meta width height minz maxz shard_size true res = Ok lossless
       ∧ Meta.scales lossless = [sc]
       ∧ Meta.chunk_sizes sc = [[128; 128; 128]]
       ∧ Meta.encoding sc = "raw"%string
       ∧ Meta.sharding_spec sc = None).
Proof.
  intros Hs. unfold Meta.create_meta. rewrite !decide_False by done. split.
  - eexists. split; [reflexivity|]. split; [reflexivity|].
    intros l sc Hl. cbn [Meta.scales] in Hl.
    do 6 (destruct l as [|l];
      [injection Hl as <-; cbn -[Z.mul pretty String.append];
       rewrite ?Z.mul_1_r; split_and!; (reflexivity || lia) |]).
    discriminate Hl.
  - eexists. eexists. split; [reflexivity|]. by split_and!.
Qed.

(** The ["offset"] of every scale is zero, and the ["realoffset"] of scales
    0..4 is [0, 0, minz // 2^l]; scale 5 divides by 16 again. *)
Lemma create_meta_offsets (width height minz maxz shard_size res : Z)
    (lossy : Meta.descriptor) (l : nat) (sc : Meta.scale) :
  Meta.create_meta width height minz maxz shard_size false res = Ok lossy →
  Meta.scales lossy !! l = Some sc →
  Meta.offset sc = [0; 0; 0]
  ∧ Meta.realoffset sc = [0; 0; minz `div` 2 ^ Z.of_nat (l `min` 4)].
Proof.
  unfold Meta.create_meta. destruct (decide (shard_size = 0)); [done|].
  intros [= <-] Hl. cbn [Meta.scales] in Hl.
  do 6 (destruct l as [|l];
    [injection Hl as <-; cbn -[Z.div]; rewrite ?Z.div_1_r; by split |]).
  discriminate Hl.
Qed.

(** C5, evaluated where the code departs from it: for minz = 16 the sixth
    scale (l = 5) records realoffset [0, 0, 1], which is 16 // 16, while
    16 // 2^5 is 0. *)
Theorem realoffset_scale5_divides_by_16 :
  ∃ lossy sc,
    Meta.create_meta 1024 1024 16 1023 1024 false 8 = Ok lossy
    ∧ Meta.scales lossy !! 5%nat = Some sc
    ∧ Meta.realoffset sc = [0; 0; 1]
    ∧ Meta.realoffset sc ≠ [0; 0; 16 `div` 2 ^ 5]
    ∧ Meta.offset sc = [0; 0; 0].
Proof.
  eexists. eexists. split; [reflexivity|]. split; [reflexivity|].
  split_and!; [reflexivity | discriminate | reflexivity].
Qed.

Lemma pad_round_up (v : Z) : Meta.pad v 1024 = Meta.round_up_1024 v.
Proof.
  unfold Meta.pad, Meta.round_up_1024, Py.ceil_div.
  destruct (decide _); Z.div_mod_to_equations; lia.
Qed.

Lemma pad_maxz_round_up (maxz : Z) :
  Meta.pad_maxz maxz 1024 + 1 = Meta.round_up_1024 (maxz + 1).
Proof.
  unfold Meta.pad_maxz, Meta.round_up_1024, Py.ceil_div.
  destruct (decide _); Z.div_mod_to_equations; lia.
Qed.

Lemma round_up_1024_spec (v : Z) :
  v ≤ Meta.round_up_1024 v < v + 1024 ∧ Meta.round_up_1024 v `mod` 1024 = 0.
Proof.
  unfold Meta.round_up_1024, Py.ceil_div. Z.div_mod_to_equations. lia.
Qed.


(** C6, as amended: with W', H' and Z' the values of W, H and maxz+1 rounded
    up to the next multiple of 1024, scale l of either descriptor records
    size = [W' // 2^l + p, H' // 2^l + p, Z' // 2^l + p] (p = 0, 1, 2, 4, 8, 16
    for l = 0..5) and realsize = [W' // 2^l, H' // 2^l, (Z' - minz) // 2^l]:
    realsize is computed from the same padded values as size, and differs
    from it by the padding p and by minz on the Z axis. *)
Theorem create_meta_sizes (width height minz maxz res : Z) (isRaw : bool)
    (d : Meta.descriptor) (l : nat) (sc : Meta.scale) :
  Meta.create_meta width height minz maxz 1024 isRaw res = Ok d →
  Meta.scales d !! l = Some sc →
  let W' := Meta.round_up_1024 width in
  let H' := Meta.round_up_1024 height in
  let Z' := Meta.round_up_1024 (maxz + 1) in
  let p := size_padding l in
  Meta.size sc = [W' `div` 2 ^ Z.of_nat l + p; H' `div` 2 ^ Z.of_nat l + p;
                  Z' `div` 2 ^ Z.of_nat l + p]
  ∧ Meta.realsize sc = [W' `div` 2 ^ Z.of_nat l; H' `div` 2 ^ Z.of_nat l;
                        (Z' - minz) `div` 2 ^ Z.of_nat l].
Proof.
  unfold Meta.create_meta. rewrite decide_False by done.
  rewrite <- pad_maxz_round_up, <- !pad_round_up.
  set (w := Meta.pad width 1024). set (h := Meta.pad height 1024).
  set (mz := Meta.pad_maxz maxz 1024).
  replace (mz + 1 - minz) with (mz - minz + 1) by lia.
  destruct isRaw; intros [= <-] Hl; cbn [Meta.scales] in Hl.
  - destruct l as [|l]; [|discriminate Hl]. injection Hl as <-.
    cbn -[Z.div]. rewrite !Z.div_1_r, !Z.add_0_r. by split.
  - do 6 (destruct l as [|l];
      [injection Hl as <-; cbn -[Z.div Z.add];
       rewrite ?Z.div_1_r, ?Z.add_0_r; by split |]).
    discriminate Hl.
Qed.

(** ** Downsampling *)

(** Python's [round] sends an exact half to the even neighbour. *)
Lemma round_half_even (n : Z) :
  (Z.even n = true → 2 * Py.round_half n = n)
  ∧ (Z.even n = false →
       Z.even (Py.round_half n) = true
       ∧ (2 * Py.round_half n = n - 1 ∨ 2 * Py.round_half n = n + 1)).
Proof.
  unfold Py.round_half. split; intros He; rewrite He.
  - apply Zeven_bool_iff, Zeven_ex_iff in He as [m ->].
    replace ((2 * m) `div` 2) with m by (Z.div_mod_to_equations; lia). lia.
  - assert (Ho : Z.odd n = true) by (rewrite <- Z.negb_even, He; done).
    apply Zodd_bool_iff, Zodd_ex_iff in Ho as [m ->].
    replace ((2 * m + 1) `div` 2) with m by (Z.div_mod_to_equations; lia).
    destruct (Z.even m) eqn:Hm; [split; [done | lia]|].
    split; [|lia]. rewrite Z.even_add, Hm. reflexivity.
Qed.

Lemma round_half_add4 (k r : Z) :
  Py.round_half (4 * k + r) = 2 * k + Py.round_half r.
Proof.
  unfold Py.round_half.
  replace (4 * k + r) with (r + 2 * (2 * k)) by lia.
  rewrite Z.even_add_mul_2.
  replace ((r + 2 * (2 * k)) `div` 2) with (r `div` 2 + 2 * k)
    by (Z.div_mod_to_equations; lia).
  rewrite Z.even_add_mul_2.
  destruct (Z.even r), (Z.even (r `div` 2)); lia.
Qed.

Lemma round_half_bounds (n : Z) : n `div` 2 ≤ Py.round_half n ≤ n `div` 2 + 1.
Proof. unfold Py.round_half. destruct (Z.even n), (Z.even (n `div` 2)); lia. Qed.

Lemma round_half_small (r : Z) : 0 ≤ r ≤ 256 → 0 ≤ Py.round_half r ≤ 128.
Proof.
  intros Hr. destruct (decide (r = 256)) as [->|]; [by vm_compute|].
  pose proof (round_half_bounds r). Z.div_mod_to_equations. lia.
Qed.

(** Along one axis the zoomed block always has the length of the region of
    [target] it is assigned to. *)
Lemma axis_fits (n i : Z) (l : list Z) :
  Py.range 0 n 256 = Ok l → i ∈ l →
  Py.round_half (Downsample.slice_len n i (i + 256))
  = Downsample.slice_len (Py.round_half n) (i `div` 2) ((i + 256) `div` 2).
Proof.
  intros Hl Hi.
  destruct (range_pos_elem _ _ _ _ _ Hl ltac:(lia) Hi) as [Hr (j & Hj & ->)].
  unfold Downsample.slice_len.
  replace ((0 + j * 256) `div` 2) with (128 * j) by (Z.div_mod_to_equations; lia).
  replace ((0 + j * 256 + 256) `div` 2) with (128 * j + 128)
    by (Z.div_mod_to_equations; lia).
  destruct (decide (0 + j * 256 + 256 ≤ n)) as [Hfull|Hpart].
  - pose proof (round_half_bounds n).
    assert ((0 + j * 256 + 256) `div` 2 ≤ n `div` 2) by (apply Z.div_le_mono; lia).
    replace ((0 + j * 256 + 256) `div` 2) with (128 * j + 128) in *
      by (Z.div_mod_to_equations; lia).
    replace (Z.max 0 ((0 + j * 256 + 256) `min` n - (0 + j * 256) `min` n)) with 256 by lia.
    change (Py.round_half 256) with 128. lia.
  - assert (Hn : Py.round_half n = 2 * (64 * j) + Py.round_half (n - 256 * j)).
    { rewrite <- round_half_add4. f_equal. lia. }
    rewrite Hn.
    pose proof (round_half_small (n - 256 * j) ltac:(lia)).
    replace (Z.max 0 ((0 + j * 256 + 256) `min` n - (0 + j * 256) `min` n))
      with (n - 256 * j) by lia.
    lia.
Qed.


Lemma assign_piece_Ok (x y z xi yi zi : Z) (xs ys zs : list Z) :
  Py.range 0 x 256 = Ok xs → Py.range 0 y 256 = Ok ys → Py.range 0 z 256 = Ok zs →
  xi ∈ xs → yi ∈ ys → zi ∈ zs →
  Downsample.assign_piece (x, y, z)
    (Py.round_half x, Py.round_half y, Py.round_half z)
    (Downsample.mk_piece xi yi zi) = Ok ().
Proof.
  intros Hxs Hys Hzs Hx Hy Hz.
  unfold Downsample.assign_piece, Downsample.mk_piece, Downsample.zoom_shape,
    Downsample.broadcasts. cbn [Downsample.src_lo Downsample.src_hi
    Downsample.dst_lo Downsample.dst_hi].
  rewrite (axis_fits _ _ _ Hxs Hx), (axis_fits _ _ _ Hys Hy), (axis_fits _ _ _ Hzs Hz).
  rewrite bool_decide_eq_true_2; [done|]. split_and!; by left.
Qed.

(** C7, as amended: one downsampling step of a cube of shape (X, Y, Z)
    returns a cube of shape (round(X/2), round(Y/2), round(Z/2)) where round
    is Python's: an exact half goes to the even neighbour, so an odd X gives
    X/2 - 0.5 or X/2 + 0.5, whichever is even.  When X, Y and Z are all at
    most 256 the result is one zoom call on the whole cube; otherwise it is
    assembled from the 256-cubed pieces at the multiples (xi, yi, zi) of 256
    inside the cube, x outermost, piece [xi:xi+256, yi:yi+256, zi:zi+256]
    being written to [xi//2:(xi+256)//2, yi//2:(yi+256)//2, zi//2:(zi+256)//2]. *)
Theorem downsample_shape (x y z : Z) :
  0 ≤ x → 0 ≤ y → 0 ≤ z →
  ∃ d, Downsample._downsample (x, y, z) = Ok d
    ∧ Downsample.out_shape d = (Py.round_half x, Py.round_half y, Py.round_half z)
    ∧ (∀ n, (Z.even n = true → 2 * Py.round_half n = n)
          ∧ (Z.even n = false → Z.even (Py.round_half n) = true
               ∧ (2 * Py.round_half n = n - 1 ∨ 2 * Py.round_half n = n + 1)))
    ∧ (x ≤ 256 ∧ y ≤ 256 ∧ z ≤ 256 → ∃ out, d = Downsample.Whole out)
    ∧ (¬ (x ≤ 256 ∧ y ≤ 256 ∧ z ≤ 256) →
         ∃ target, d = Downsample.Pieced target
           (xi ← Downsample.multiples_of_256 x; yi ← Downsample.multiples_of_256 y; zi ← Downsample.multiples_of_256 z;
            [ {| Downsample.src_lo := (xi, yi, zi);
                 Downsample.src_hi := (xi + 256, yi + 256, zi + 256);
                 Downsample.dst_lo := (xi `div` 2, yi `div` 2, zi `div` 2);
                 Downsample.dst_hi := ((xi + 256) `div` 2, (yi + 256) `div` 2,
                                       (zi + 256) `div` 2) |} ])).
Proof.
  intros Hx Hy Hz. unfold Downsample._downsample.
  destruct (decide (x ≤ 256 ∧ y ≤ 256 ∧ z ≤ 256)) as [Hs|Hb].
  - eexists. split; [reflexivity|]. split; [reflexivity|].
    split; [apply round_half_even|]. split; [eauto | done].
  - pose proof (range_pos 0 x 256 ltac:(lia)) as Hxs.
    pose proof (range_pos 0 y 256 ltac:(lia)) as Hys.
    pose proof (range_pos 0 z 256 ltac:(lia)) as Hzs.
    fold (Downsample.multiples_of_256 x) in Hxs. fold (Downsample.multiples_of_256 y) in Hys.
    fold (Downsample.multiples_of_256 z) in Hzs.
    rewrite Hxs. cbn [mbind result_bind].
    erewrite (for_each_collect (Downsample.multiples_of_256 x) _
      (λ xi, yi ← Downsample.multiples_of_256 y; zi ← Downsample.multiples_of_256 z;
             [Downsample.mk_piece xi yi zi])).
    + cbn [mbind result_bind app]. eexists. split; [reflexivity|].
      split; [reflexivity|]. split; [apply round_half_even|].
      split; [done|]. intros _. eexists. reflexivity.
    + intros xi acc Hxi. rewrite Hys. cbn [mbind result_bind].
      apply for_each_collect. intros yi acc' Hyi. rewrite Hzs. cbn [mbind result_bind].
      apply for_each_collect. intros zi acc'' Hzi.
      by rewrite (assign_piece_Ok x y z xi yi zi _ _ _ Hxs Hys Hzs Hxi Hyi Hzi).
Qed.

(** ** [/ngmeta] *)

(** C10: ngmeta is not atomic.  The lossy descriptor is uploaded to
    neuroglancer/jpeg/info before the lossless one is attempted: whenever
    that first upload is accepted the object store holds the lossy
    descriptor afterwards, whatever the response; when writeRaw is true and
    the upload of the lossless descriptor then fails, the response is HTTP
    400 and the lossy descriptor stays written; and when the first upload
    fails nothing is written at all. *)
Theorem ngmeta_not_atomic (cfg : NgMeta.config) (w : Store.world) :
  NgMeta.shard_size cfg = 1024 →
  ∃ lossy,
    Meta.create_meta (NgMeta.bbox cfg).1 (NgMeta.bbox cfg).2 (NgMeta.minz cfg)
      (NgMeta.maxz cfg) 1024 false (NgMeta.resolution cfg) = Ok lossy
    ∧ let r := (NgMeta.ngmeta cfg w).1 in
      let w' := (NgMeta.ngmeta cfg w).2 in
      let jpeg_info := (NgMeta.dest cfg, "neuroglancer/jpeg/info"%string) in
      let raw_info := (NgMeta.dest cfg, "neuroglancer/raw/info"%string) in
      (Store.put_ok w jpeg_info.1 jpeg_info.2 = true →
         Store.infos w' !! jpeg_info = Some lossy)
      ∧ (Store.put_ok w jpeg_info.1 jpeg_info.2 = true →
         NgMeta.writeRaw cfg = true →
         Store.put_ok w raw_info.1 raw_info.2 = false →
         Store.status r = 400
         ∧ Store.content r = Store.Message (UploadFailed raw_info.1 raw_info.2)
         ∧ Store.infos w' !! jpeg_info = Some lossy
         ∧ Store.infos w' !! raw_info = Store.infos w !! raw_info)
      ∧ (Store.put_ok w jpeg_info.1 jpeg_info.2 = false →
         Store.status r = 400 ∧ Store.infos w' = Store.infos w).
Proof.
  intros Hs.
  destruct (create_meta_Ok (NgMeta.bbox cfg).1 (NgMeta.bbox cfg).2 (NgMeta.minz cfg)
              (NgMeta.maxz cfg) 1024 false (NgMeta.resolution cfg) ltac:(done))
    as [lossy Hlossy].
  destruct (create_meta_Ok (NgMeta.bbox cfg).1 (NgMeta.bbox cfg).2 (NgMeta.minz cfg)
              (NgMeta.maxz cfg) 1024 true (NgMeta.resolution cfg) ltac:(done))
    as [lossless Hlossless].
  exists lossy. split; [done|]. cbv zeta.
  unfold NgMeta.ngmeta, Store.try_except, NgMeta.ngmeta_body.
  destruct (NgMeta.bbox cfg) as [width height] eqn:Hb. simpl in Hlossy, Hlossless.
  unfold Store.io_bind, Store.lift, Store.upload_info, Store.io_ret.
  rewrite Hs. destruct (decide (1024 ≠ 1024)) as [Hc|_]; [by destruct Hc|].
  rewrite Hlossy, Hlossless.
  simpl fst; simpl snd.
  destruct (Store.put_ok w (NgMeta.dest cfg) "neuroglancer/jpeg/info") eqn:Hj;
    destruct (NgMeta.writeRaw cfg) eqn:Hr;
    cbn [Store.put_ok Store.infos Store.blobs fst snd];
    try destruct (Store.put_ok w (NgMeta.dest cfg) "neuroglancer/raw/info") eqn:Hraw;
    cbn [fst snd Store.infos Store.status Store.content Store.error_response
         Store.success_response];
    rewrite ?lookup_insert_eq;
    rewrite ?(lookup_insert_ne _ (NgMeta.dest cfg, "neuroglancer/raw/info"%string))
      by (intros [= ?]; done);
    rewrite ?(lookup_insert_ne _ (NgMeta.dest cfg, "neuroglancer/jpeg/info"%string))
      by (intros [= ?]; done);
    rewrite ?lookup_insert_eq;
    split_and!; try done; intros; split_and!; done.
Qed.

(** ** The endpoints as error boundaries *)

(** An exception raised in the main thread of an endpoint always becomes an
    HTTP 400, and a normal end HTTP 200 "success". *)
Lemma try_except_boundary {A : Type} (m : Store.io A) (fmt : exn → Store.body)
    (w : Store.world) :
  let r := (Store.try_except m fmt w).1 in
  (Store.status r = 200 ∧ Store.content r = Store.Success
     ∧ Store.content_type r = "text/html"%string ∧ ∃ a, (m w).1 = Ok a)
  ∨ (Store.status r = 400 ∧ ∃ e, Store.content r = fmt e ∧ (m w).1 = Raise e).
Proof.
  unfold Store.try_except. destruct (m w) as [[a|e] w']; simpl.
  - left. split_and!; eauto.
  - right. split_and!; eauto.
Qed.

(** The three endpoints: HTTP 200 "success" with Content-Type text/html when
    the body of the [try] ends normally, HTTP 400 carrying the exception
    raised in it otherwise: its message for alignedslice and ngmeta, its
    stack trace for ngshard. *)
Lemma endpoint_boundary {affine : Type}
    (png_open : list byte → result Tiles.image)
    (warp : Tiles.image → affine → Z → Z → result Tiles.image)
    (thumbnail_png : Tiles.image → Z → list byte)
    (tile_png : Tiles.image → list byte)
    (acfg : AlignedSlice.config) (mcfg : NgMeta.config) (scfg : NgShard.config)
    (w : Store.world) :
  let ok (r : Store.response) :=
    Store.status r = 200 ∧ Store.content r = Store.Success
    ∧ Store.content_type r = "text/html"%string in
  let ra := (AlignedSlice.alignedslice png_open warp thumbnail_png tile_png acfg w).1 in
  let rm := (NgMeta.ngmeta mcfg w).1 in
  let rs := (NgShard.ngshard png_open scfg w).1 in
  (ok ra ∨ Store.status ra = 400 ∧ ∃ e, Store.content ra = Store.Message e
      ∧ (AlignedSlice.alignedslice_body png_open warp thumbnail_png tile_png acfg w).1
        = Raise e)
  ∧ (ok rm ∨ Store.status rm = 400 ∧ ∃ e, Store.content rm = Store.Message e
      ∧ (NgMeta.ngmeta_body mcfg w).1 = Raise e)
  ∧ (ok rs ∨ Store.status rs = 400 ∧ ∃ e, Store.content rs = Store.StackTrace e
      ∧ (NgShard.ngshard_body png_open scfg w).1 = Raise e).
Proof.
  cbv zeta. split_and!.
  - destruct (try_except_boundary
               (AlignedSlice.alignedslice_body png_open warp thumbnail_png tile_png acfg)
               Store.Message w) as [(? & ? & ? & _)|?]; [left|right]; done.
  - destruct (try_except_boundary (NgMeta.ngmeta_body mcfg) Store.Message w)
      as [(? & ? & ? & _)|?]; [left|right]; done.
  - destruct (try_except_boundary (NgShard.ngshard_body png_open scfg) Store.StackTrace w)
      as [(? & ? & ? & _)|?]; [left|right]; done.
Qed.

(** ** The cube *)

Section Cube.
Import Store NgShard CubeSpec.
Context (png_open : list byte → result Tiles.image) (cfg : config) (w : world).

Lemma np_zeros_inv (nz h wd : Z) (vol : cube) :
  np_zeros nz h wd = Ok vol →
  0 ≤ nz ∧ cube_shape vol = (nz, h, wd) ∧ planes vol = replicate (Z.to_nat nz) Zeros.
Proof.
  unfold np_zeros. destruct (decide _); [done|]. intros [= <-]. simpl.
  split_and!; try done. lia.
Qed.

Lemma set_plane_inv (vol vol' : cube) (i : Z) (im : Tiles.image) :
  set_plane vol i im = Ok vol' → 0 ≤ i →
  cube_shape vol' = cube_shape vol ∧ i < (cube_shape vol).1.1
  ∧ ∃ p, (p = Copied im ∨ p = Stretched im)
       ∧ planes vol' = <[Z.to_nat i := p]> (planes vol).
Proof.
  unfold set_plane. destruct (cube_shape vol) as [[nz h] wd] eqn:Hshape.
  destruct (decide (i < - nz ∨ nz ≤ i)); [done|]. intros H Hi.
  rewrite (decide_False (P := i < 0)) in H by lia.
  repeat (destruct (decide _) in H); try done; injection H as <-; simpl;
    (split_and!; [done | lia | eauto]).
Qed.

Lemma set_image_first (v : option cube) :
  set_image png_open cfg w (zstart cfg) None = Ok v →
  ∃ vol, v = Some vol ∧ cube_inv png_open cfg w vol ∧ filled cfg vol (zstart cfg).
Proof.
  unfold set_image. intros H. inv_bind H.
  rewrite decide_True in Ha0 by done.
  destruct (np_zeros _ _ _) as [vol0|] eqn:Hz; [|done].
  injection Ha0 as <-.
  destruct (set_plane vol0 _ a) as [vol|] eqn:Hp; [|done]. injection H as <-.
  apply np_zeros_inv in Hz as (Hnz & Hshape & Hplanes).
  apply set_plane_inv in Hp as (Hshape' & Hlt & p & Hp & Hplanes'); [|lia].
  rewrite Hshape in Hshape', Hlt. simpl in Hlt.
  exists vol. split; [done|].
  assert (Hlen : length (planes vol) = Z.to_nat (zfinish cfg - zstart cfg + 1)).
  { by rewrite Hplanes', length_insert, Hplanes, length_replicate. }
  split; [split_and!|].
  - by rewrite Hshape'.
  - done.
  - intros i q Hq. rewrite Hplanes', Z.sub_diag in Hq. change (Z.to_nat 0) with 0%nat in Hq.
    destruct i as [|i].
    + rewrite list_lookup_insert_eq in Hq
        by (rewrite Hplanes, length_replicate; lia).
      injection Hq as <-. right. exists a. rewrite Z.add_0_r. done.
    + rewrite list_lookup_insert_ne in Hq by done. rewrite Hplanes in Hq.
      apply lookup_replicate in Hq as [-> _]. by left.
  - exists p. rewrite Hplanes', Z.sub_diag. change (Z.to_nat 0) with 0%nat.
    rewrite list_lookup_insert_eq by (rewrite Hplanes, length_replicate; lia).
    split; [done|]. by destruct Hp as [-> | ->].
Qed.

Lemma set_image_later (slice : Z) (vol : cube) (v : option cube) :
  zstart cfg < slice → cube_inv png_open cfg w vol →
  set_image png_open cfg w slice (Some vol) = Ok v →
  ∃ vol', v = Some vol' ∧ cube_inv png_open cfg w vol' ∧ filled cfg vol' slice
    ∧ ∀ s, filled cfg vol s → filled cfg vol' s.
Proof.
  intros Hs (Hnz & Hlen & Hpl). unfold set_image. intros H. inv_bind H.
  rewrite decide_False in Ha0 by lia. injection Ha0 as <-.
  destruct (set_plane vol _ a) as [vol'|] eqn:Hp; [|done]. injection H as <-.
  apply set_plane_inv in Hp as (Hshape' & Hlt & p & Hp & Hplanes'); [|lia].
  rewrite Hnz in Hlt.
  assert (Hin : (Z.to_nat (slice - zstart cfg) < length (planes vol))%nat) by lia.
  exists vol'. split; [done|]. split_and!.
  - split_and!.
    + by rewrite Hshape'.
    + by rewrite Hplanes', length_insert.
    + intros i q Hq. rewrite Hplanes' in Hq.
      destruct (decide (i = Z.to_nat (slice - zstart cfg))) as [->|Hne].
      * rewrite list_lookup_insert_eq in Hq by done. injection Hq as <-.
        right. exists a. split; [|done].
        replace (zstart cfg + Z.of_nat (Z.to_nat (slice - zstart cfg))) with slice by lia.
        done.
      * rewrite list_lookup_insert_ne in Hq by done. by apply Hpl.
  - exists p. rewrite Hplanes', list_lookup_insert_eq by done.
    split; [done|]. by destruct Hp as [-> | ->].
  - intros s (q & Hq & Hqz). unfold filled. rewrite Hplanes'.
    destruct (decide (Z.to_nat (s - zstart cfg) = Z.to_nat (slice - zstart cfg))) as [Heq|Hne].
    + exists p. rewrite Heq, list_lookup_insert_eq by done.
      split; [done|]. by destruct Hp as [-> | ->].
    + exists q. by rewrite list_lookup_insert_ne.
Qed.

Lemma set_images_from_inv (slices : list Z) (thread_id num_threads : Z)
    (vol : cube) (v : option cube) (e : option exn) :
  Forall (λ s, zstart cfg < s) slices → cube_inv png_open cfg w vol →
  set_images_from png_open cfg w slices thread_id num_threads (Some vol) = (v, e) →
  ∃ vol', v = Some vol' ∧ cube_inv png_open cfg w vol'
    ∧ (∀ s, filled cfg vol s → filled cfg vol' s)
    ∧ (e = None → ∀ s, s ∈ slices → s `mod` num_threads = thread_id → filled cfg vol' s).
Proof.
  revert vol. induction slices as [|slice rest IH]; intros vol Hall Hinv H; simpl in H.
  - injection H as <- <-. exists vol. split_and!; try done.
    intros _ s Hs. by apply elem_of_nil in Hs.
  - inversion Hall as [|? ? Hs Hrest]; subst.
    destruct (decide (slice `mod` num_threads = thread_id)) as [Hmine|Hother].
    + destruct (set_image png_open cfg w slice (Some vol)) as [v1|e1] eqn:Hset.
      * destruct (set_image_later _ _ _ Hs Hinv Hset) as (vol1 & -> & Hinv1 & Hf1 & Hmono1).
        destruct (IH _ Hrest Hinv1 H) as (vol' & -> & Hinv' & Hmono & Hdone).
        exists vol'. split_and!; try done; [by auto|].
        intros He s Hin Hmod. apply elem_of_cons in Hin as [->|Hin]; [by auto|].
        by apply Hdone.
      * injection H as <- <-. exists vol. split_and!; done.
    + destruct (IH _ Hrest Hinv H) as (vol' & -> & Hinv' & Hmono & Hdone).
      exists vol'. split_and!; try done.
      intros He s Hin Hmod. apply elem_of_cons in Hin as [->|Hin]; [done|].
      by apply Hdone.
Qed.

Lemma threads_fold_inv (tids : list Z) (vol : cube) (errs0 : list exn)
    (v : option cube) (errs : list exn) :
  cube_inv png_open cfg w vol →
  foldl (λ st thread_id,
           let '(vol3d', e) :=
             set_images png_open cfg w (zstart cfg + 1) (zfinish cfg) thread_id 20 st.1 in
           (vol3d', st.2 ++ option_list e))
        (Some vol, errs0) tids = (v, errs) →
  ∃ vol', v = Some vol' ∧ cube_inv png_open cfg w vol'
    ∧ (∀ s, filled cfg vol s → filled cfg vol' s)
    ∧ (errs = [] → errs0 = [] ∧
         ∀ s tid, tid ∈ tids → zstart cfg < s ≤ zfinish cfg → s `mod` 20 = tid →
           filled cfg vol' s).
Proof.
  revert vol errs0. induction tids as [|tid tids IH]; intros vol errs0 Hinv H; simpl in H.
  - injection H as <- <-. exists vol. split_and!; try done.
    intros ->. split; [done|]. intros s tid Hin. by apply elem_of_nil in Hin.
  - destruct (set_images png_open cfg w (zstart cfg + 1) (zfinish cfg) tid 20 (Some vol))
      as [v1 e1] eqn:Hrun.
    unfold set_images in Hrun.
    apply set_images_from_inv in Hrun as (vol1 & -> & Hinv1 & Hmono1 & Hdone1); [|
      unfold Py.range1; apply Forall_seqZ; intros; lia | done].
    destruct (IH _ _ Hinv1 H) as (vol' & -> & Hinv' & Hmono & Hdone).
    exists vol'. split_and!; try done; [by auto|].
    intros Herrs. destruct (Hdone Herrs) as [Happ Hfilled].
    apply app_eq_nil in Happ as [-> He1]. split; [done|].
    intros s tid' Hin Hs Hmod. apply elem_of_cons in Hin as [->|Hin].
    + apply Hmono, Hdone1; [by destruct e1 | | done].
      unfold Py.range1. apply elem_of_seqZ. lia.
    + by apply (Hfilled s tid').
Qed.

Lemma assemble_inv (vol : cube) (errs : list exn) :
  assemble png_open cfg w = Ok (Some vol, errs) →
  cube_inv png_open cfg w vol
  ∧ (errs = [] → ∀ s, zstart cfg ≤ s ≤ zfinish cfg → filled cfg vol s).
Proof.
  unfold assemble. intros H. inv_bind H. injection H as H.
  destruct (set_image_first _ Ha) as (vol0 & -> & Hinv0 & Hf0).
  unfold fetch_threads in H.
  apply threads_fold_inv in H as (vol' & [= <-] & Hinv & Hmono & Hdone); [|done].
  split; [done|]. intros Herrs s Hs.
  destruct (decide (s = zstart cfg)) as [->|Hne]; [by auto|].
  destruct (Hdone Herrs) as [_ Hfilled].
  apply (Hfilled s (s `mod` 20)); [|lia|done].
  unfold Py.range1. apply elem_of_seqZ.
  pose proof (Z.mod_pos_bound s 20 ltac:(lia)). lia.
Qed.

Lemma set_image_first_fails :
  zfinish cfg < zstart cfg →
  ∃ e, set_image png_open cfg w (zstart cfg) None = Raise e.
Proof.
  intros Hz.
  destruct (set_image png_open cfg w (zstart cfg) None) as [v|e] eqn:H; [|eauto].
  destruct (set_image_first _ H) as (vol & -> & (Hnz & Hlen & _) & (p & Hp & _)).
  apply lookup_lt_Some in Hp. lia.
Qed.

End Cube.

(** X10.  What does hold of the cube.  With
    zstart = max(cz * shard_size, minz) and
    zfinish = min(maxz, zstart + shard_size - 1), a cube that is assembled
    has Nz = zfinish - zstart + 1 planes; plane s - zstart is either still
    zero or holds the tile of slice s, never the tile of another slice, and
    it holds the tile of s for every s of [zstart, zfinish] when no worker
    thread failed.  When zfinish < zstart the request fails: the response is
    HTTP 400, it carries the stack trace of the exception, and nothing is
    written to the volume. *)
Theorem cube_extent (png_open : list byte → result Tiles.image)
    (cfg : NgShard.config) (w : Store.world) :
  let zstart :=
    Z.max (NgShard.shard_size cfg * (NgShard.tile_chunk cfg).2) (NgShard.minz cfg) in
  let zfinish := Z.min (NgShard.maxz cfg) (zstart + NgShard.shard_size cfg - 1) in
  let Nz := zfinish - zstart + 1 in
  (∀ vol errs, NgShard.assemble png_open cfg w = Ok (Some vol, errs) →
     (NgShard.cube_shape vol).1.1 = Nz
     ∧ length (NgShard.planes vol) = Z.to_nat Nz
     ∧ (∀ s p, zstart ≤ s ≤ zfinish →
          NgShard.planes vol !! Z.to_nat (s - zstart) = Some p →
          p = NgShard.Zeros ∨ CubeSpec.holds_slice png_open cfg w s p)
     ∧ (errs = [] → ∀ s, zstart ≤ s ≤ zfinish →
          ∃ p, NgShard.planes vol !! Z.to_nat (s - zstart) = Some p
               ∧ CubeSpec.holds_slice png_open cfg w s p))
  ∧ (zfinish < zstart →
     Store.status (NgShard.ngshard png_open cfg w).1 = 400
     ∧ (∃ e, Store.content (NgShard.ngshard png_open cfg w).1 = Store.StackTrace e)
     ∧ Store.volume (NgShard.ngshard png_open cfg w).2 = Store.volume w).
Proof.
  cbv zeta. fold (NgShard.zstart cfg). fold (NgShard.zfinish cfg). split.
  - intros vol errs H.
    destruct (assemble_inv _ _ _ _ _ H) as ((Hnz & Hlen & Hpl) & Hfull).
    split_and!; try done.
    + intros s p Hs Hp. destruct (Hpl _ _ Hp) as [->|Hh]; [by left|]. right.
      by replace (NgShard.zstart cfg + Z.of_nat (Z.to_nat (s - NgShard.zstart cfg)))
        with s in Hh by lia.
    + intros Herrs s Hs. destruct (Hfull Herrs s Hs) as (p & Hp & Hz).
      exists p. split; [done|]. destruct (Hpl _ _ Hp) as [->|Hh]; [done|].
      by replace (NgShard.zstart cfg + Z.of_nat (Z.to_nat (s - NgShard.zstart cfg)))
        with s in Hh by lia.
  - intros Hz. destruct (set_image_first_fails png_open cfg w Hz) as [e He].
    unfold NgShard.ngshard, Store.try_except, NgShard.ngshard_body,
      Store.io_bind, Store.lift, Store.reading, NgShard.assemble.
    destruct (decide (NgShard.shard_size cfg ≠ 1024)); simpl.
    + split_and!; eauto.
    + destruct (decide (MAX_IMAGE_SIZE `mod` NgShard.shard_size cfg = 0)); simpl.
      * rewrite He. simpl. split_and!; eauto.
      * split_and!; eauto.
Qed.

(** [cube_extent] on a cube of 64 slices that are all in the temporary
    bucket: no worker fails, and every plane holds the tile of its slice. *)
Lemma cube_extent_witness :
  ∃ vol, NgShard.assemble Demo.demo_open Demo.demo_shard Demo.full_world = Ok (Some vol, [])
    ∧ (NgShard.cube_shape vol).1.1 = 63 - 0 + 1
    ∧ length (NgShard.planes vol) = 64%nat
    ∧ ∀ s, 0 ≤ s ≤ 63 →
        ∃ p, NgShard.planes vol !! Z.to_nat (s - 0) = Some p
             ∧ CubeSpec.holds_slice Demo.demo_open Demo.demo_shard Demo.full_world s p.
Proof.
  eexists. split; [vm_compute; reflexivity|].
  destruct (cube_extent Demo.demo_open Demo.demo_shard Demo.full_world) as [Hcube _].
  edestruct Hcube as (Hnz & Hlen & _ & Hfull); [vm_compute; reflexivity|].
  split; [exact Hnz|]. split; [exact Hlen|]. exact (Hfull eq_refl).
Defined.

(** When the cube lies past the last slice the request fails even if the
    temporary bucket has a container under the name of the first slice:
    the cube is allocated with no plane, and writing plane 0 is out of
    range. *)
Lemma ngshard_past_last_slice :
  NgShard.zstart Demo.beyond_shard = 1024
  ∧ NgShard.zfinish Demo.beyond_shard = 1023
  ∧ (NgShard.ngshard Demo.demo_open Demo.beyond_shard (Demo.store_with [1024])).1
    = Store.error_response (Store.StackTrace IndexError)
  ∧ (NgShard.ngshard Demo.demo_open Demo.beyond_shard (Demo.store_with [])).1
    = Store.error_response (Store.StackTrace (NotFound "tmp" "1024_0_0")).
Proof. split_and!; by vm_compute. Qed.

(** C8, evaluated where the code departs from it: the cube (0, 0, 0) of a
    volume of slices 0..63, with the containers of slices 0 and 2..63 in the
    temporary bucket and none for slice 1.  zstart is 0 and zfinish 63, and
    the cube has 64 planes; but worker thread 1, which is to fetch slices 1,
    21, 41 and 61, ends at slice 1 with NotFound.  The tiles of slices 21,
    41 and 61 can be fetched, yet planes 21, 41 and 61 are still zero when
    the threads are joined, and ngshard answers HTTP 200: slice s is not
    stored at plane s - zstart. *)
Theorem cube_misses_fetchable_slice :
  NgShard.zstart Demo.demo_shard = 0
  ∧ NgShard.zfinish Demo.demo_shard = 63
  ∧ (∀ s, s ∈ [21; 41; 61] →
       ∃ im, NgShard.fetch_tile Demo.demo_open Demo.demo_shard Demo.demo_world s = Ok im)
  ∧ (∃ vol errs,
       NgShard.assemble Demo.demo_open Demo.demo_shard Demo.demo_world = Ok (Some vol, errs)
       ∧ length (NgShard.planes vol) = 64%nat
       ∧ ∀ s, s ∈ [21; 41; 61] →
           NgShard.planes vol !! Z.to_nat (s - NgShard.zstart Demo.demo_shard)
           = Some NgShard.Zeros)
  ∧ Store.status (NgShard.ngshard Demo.demo_open Demo.demo_shard Demo.demo_world).1 = 200.
Proof.
  split; [by vm_compute|]. split; [by vm_compute|]. split_and!.
  - intros s Hs. eexists.
    repeat (apply elem_of_cons in Hs as [->|Hs]; [vm_compute; reflexivity|]).
    by apply elem_of_nil in Hs.
  - eexists _, _. split; [vm_compute; reflexivity|]. split; [by vm_compute|].
    intros s Hs.
    repeat (apply elem_of_cons in Hs as [->|Hs]; [by vm_compute|]).
    by apply elem_of_nil in Hs.
  - by vm_compute.
Qed.

(** C9, evaluated where the code departs from it: the temporary bucket
    holds the containers of slices 0 and 2..63 of the cube and none for
    slice 1.  The worker thread that fetches slice 1 ends with NotFound,
    plane 1 of the cube stays zero, and ngshard answers HTTP 200 "success"
    all the same: the exception of a worker is never read, where
    alignedslice stores it in [failure] and raises it after the join. *)
Theorem ngshard_drops_worker_error :
  NgShard.fetch_tile Demo.demo_open Demo.demo_shard Demo.demo_world 1
    = Raise (NotFound "tmp" "1_0_0")
  ∧ (∃ vol, NgShard.assemble Demo.demo_open Demo.demo_shard Demo.demo_world
             = Ok (Some vol, [NotFound "tmp" "1_0_0"])
           ∧ length (NgShard.planes vol) = 64%nat
           ∧ NgShard.planes vol !! 1%nat = Some NgShard.Zeros)
  ∧ (NgShard.ngshard Demo.demo_open Demo.demo_shard Demo.demo_world).1
    = Store.success_response
  ∧ Store.status Store.success_response = 200
  ∧ Store.content Store.success_response = Store.Success.
Proof.
  split; [by vm_compute|]. split; [|split_and!; by vm_compute].
  eexists. split_and!; by vm_compute.
Qed.

(** ** [/alignedslice]: a worker's exception reaches the response *)

Section Workers.
Import Store AlignedSlice.
Context {affine : Type} (tile_png : Tiles.image → list byte).
Context (cfg : config (affine := affine)) (curr_im : Tiles.image).

Lemma workers_fold_None (tids : list Z) (w w' : world) (failure : option exn) :
  foldl (run_worker tile_png cfg curr_im) (w, failure) tids = (w', None) →
  failure = None
  ∧ io_for_each tids (write_sub_image_tiles tile_png cfg curr_im) w = (Ok (), w').
Proof.
  revert w failure. induction tids as [|tid tids IH]; intros w failure H; simpl in H.
  - by injection H as <- <-.
  - unfold run_worker at 2 in H. simpl in H.
    cbn [io_for_each]. unfold io_bind.
    destruct (write_sub_image_tiles tile_png cfg curr_im tid w) as [[[]|e] w1].
    + by apply IH in H.
    + apply IH in H as [[=] _].
Qed.

(** When the joined workers raise nothing, no worker raised. *)
Lemma run_workers_Ok (w w' : world) :
  run_workers tile_png cfg curr_im w = (Ok (), w') →
  io_for_each (Py.range1 0 NUM_THREADS) (write_sub_image_tiles tile_png cfg curr_im) w
  = (Ok (), w').
Proof.
  unfold run_workers.
  destruct (foldl _ _ _) as [w1 [e|]] eqn:Hfold; [done|].
  intros [= <-]. by apply workers_fold_None in Hfold as [_ ?].
Qed.

End Workers.

(** ** The theorems at concrete inputs *)

(** [container_layout] on the container of super-block (1, 0) of a
    5000 x 3000 slice cut in tiles of 1000: three tiles, of 1, 2 and 3 bytes. *)
Lemma container_layout_witness :
  (∀ x y, Demo.demo_png x y ≠ [])
  ∧ Container.superblock_container Demo.demo_png 5000 3000 1000 4096 0
    = Ok Demo.demo_container
  ∧ ∃ grid, Container.tile_grid 5000 3000 1000 4096 0 = Ok grid ∧
      Container.u64_at Demo.demo_container 0 = 5000
      ∧ Container.u64_at Demo.demo_container 8 = 3000
      ∧ Container.u64_at Demo.demo_container 16 = 1000
      ∧ Container.entry Demo.demo_container 0 = 24 + (Z.of_nat (length grid) + 1) * 8
      ∧ (∀ i : nat, (i < length grid)%nat →
           Container.entry Demo.demo_container (Z.of_nat i)
           < Container.entry Demo.demo_container (Z.of_nat (S i)))
      ∧ (∀ (i : nat) (origin : Z * Z), grid !! i = Some origin →
           Py.slice Demo.demo_container (Container.entry Demo.demo_container (Z.of_nat i))
             (Container.entry Demo.demo_container (Z.of_nat (S i)))
           = Demo.demo_png origin.1 origin.2
           ∧ Container.entry Demo.demo_container (Z.of_nat (S i))
             - Container.entry Demo.demo_container (Z.of_nat i)
             = Py.len (Demo.demo_png origin.1 origin.2))
      ∧ Container.entry Demo.demo_container (Z.of_nat (length grid))
        = Py.len Demo.demo_container.
Proof.
  assert (H1 : ∀ x y, Demo.demo_png x y ≠ []) by (intros x y; discriminate).
  assert (H2 : Container.superblock_container Demo.demo_png 5000 3000 1000 4096 0
               = Ok Demo.demo_container) by (vm_compute; reflexivity).
  split; [exact H1|]. split; [exact H2|].
  exact (container_layout Demo.demo_png 5000 3000 1000 4096 0 Demo.demo_container H1 H2).
Defined.

(** [read_tile_roundtrip] on the same container: tile 1, cropped at
    (4096, 1000). *)
Lemma read_tile_roundtrip_witness :
  (∀ x y, Demo.demo_png x y ≠ [])
  ∧ Container.superblock_container Demo.demo_png 5000 3000 1000 4096 0
    = Ok Demo.demo_container
  ∧ Container.tile_grid 5000 3000 1000 4096 0
    = Ok [(4096, 0); (4096, 1000); (4096, 2000)]
  ∧ Container.read_tile Demo.demo_container 1 = Ok (Demo.demo_png 4096 1000).
Proof.
  assert (H1 : ∀ x y, Demo.demo_png x y ≠ []) by (intros x y; discriminate).
  assert (H2 : Container.superblock_container Demo.demo_png 5000 3000 1000 4096 0
               = Ok Demo.demo_container) by (vm_compute; reflexivity).
  assert (H3 : Container.tile_grid 5000 3000 1000 4096 0
               = Ok [(4096, 0); (4096, 1000); (4096, 2000)]) by (vm_compute; reflexivity).
  split; [exact H1|]. split; [exact H2|]. split; [exact H3|].
  exact (read_tile_roundtrip Demo.demo_png 5000 3000 1000 4096 0 Demo.demo_container
           _ 1%nat (4096, 1000) H1 H2 H3 eq_refl).
Defined.

(** C3 as stated fails on the right edge: in a 5000 x 3000 slice cut in
    tiles of 1024, the tile of column cx = 4, row cy = 0 (cropped at
    (4096, 0) in super-block (1, 0)) is 1024 x 1024, where the claim gives
    min(1024, 5000 - 4 * 1024) = 904 columns. *)
Lemma edge_tile_not_clipped :
  Tiles.superblocks 5000 3000 = Ok [(0, 0); (4096, 0)]
  ∧ Container.tile_grid 5000 3000 1024 4096 0
    = Ok [(4096, 0); (4096, 1024); (4096, 2048)]
  ∧ Tiles.im_width (Tiles.cropped_tile (Demo.blank 5000 3000) 1024 (4 * 1024) (0 * 1024))
    = 1024
  ∧ Tiles.im_height (Tiles.cropped_tile (Demo.blank 5000 3000) 1024 (4 * 1024) (0 * 1024))
    = 1024
  ∧ Z.min 1024 (5000 - 4 * 1024) = 904
  ∧ Tiles.im_width (Tiles.cropped_tile (Demo.blank 5000 3000) 1024 (4 * 1024) (0 * 1024))
    ≠ Z.min 1024 (5000 - 4 * 1024).
Proof. split_and!; by vm_compute. Qed.

(** [tile_full_size] on that tile. *)
Lemma tile_full_size_witness :
  Tiles.superblocks 5000 3000 = Ok [(0, 0); (4096, 0)]
  ∧ Container.tile_grid 5000 3000 1024 4096 0
    = Ok [(4096, 0); (4096, 1024); (4096, 2048)]
  ∧ Tiles.im_width (Tiles.cropped_tile (Demo.blank 5000 3000) 1024 4096 0) = 1024
  ∧ Tiles.im_height (Tiles.cropped_tile (Demo.blank 5000 3000) 1024 4096 0) = 1024
  ∧ 0 ≤ 4096 < 5000 ∧ 0 ≤ 0 < 3000
  ∧ ∀ x y, 5000 ≤ 4096 + x ∨ 3000 ≤ 0 + y →
      Tiles.im_pixel (Tiles.cropped_tile (Demo.blank 5000 3000) 1024 4096 0) x y = 0.
Proof.
  assert (H1 : Tiles.superblocks 5000 3000 = Ok [(0, 0); (4096, 0)])
    by (vm_compute; reflexivity).
  assert (H2 : Container.tile_grid 5000 3000 1024 4096 0
               = Ok [(4096, 0); (4096, 1024); (4096, 2048)]) by (vm_compute; reflexivity).
  split; [exact H1|]. split; [exact H2|].
  refine (tile_full_size (Demo.blank 5000 3000) 5000 3000 1024 _ _ 4096 0 4096 0
            eq_refl eq_refl H1 _ H2 _).
  - apply list_elem_of_further, list_elem_of_here.
  - apply list_elem_of_here.
Defined.

(** [create_meta_scales] for the only shard size the endpoint accepts. *)
Lemma create_meta_scales_witness :
  1024 ≠ 0
  ∧ ∃ lossy, Meta.create_meta 2048 2048 0 2047 1024 false 8 = Ok lossy
      ∧ (Meta.key <$> Meta.scales lossy)
        = ["8.0x8.0x8.0"; "16.0x16.0x16.0"; "32.0x32.0x32.0"; "64.0x64.0x64.0";
           "128.0x128.0x128.0"; "256.0x256.0x256.0"]%string
      ∧ (Meta.sharding_spec <$> Meta.scales lossy)
        = [Some (Meta.sharded_v1 27); Some (Meta.sharded_v1 24);
           Some (Meta.sharded_v1 21); None; None; None].
Proof.
  split; [discriminate|].
  destruct (create_meta_scales 2048 2048 0 2047 1024 8 ltac:(discriminate))
    as [(lossy & Hl & _) _].
  exists lossy. split; [exact Hl|].
  vm_compute in Hl. injection Hl as <-. split; reflexivity.
Defined.

(** C6 as stated fails when the request is not a multiple of 1024: for a
    1000 x 1000 slice and slices 0..999, realsize at scale 0 is
    [1024, 1024, 1024], not the requested [1000, 1000, 1000]. *)
Lemma realsize_is_padded :
  ∃ lossy sc,
    Meta.create_meta 1000 1000 0 999 1024 false 8 = Ok lossy
    ∧ Meta.scales lossy !! 0%nat = Some sc
    ∧ Meta.realsize sc = [1024; 1024; 1024]
    ∧ Meta.size sc = [1024; 1024; 1024]
    ∧ Meta.realsize sc
      ≠ [1000 `div` 2 ^ 0; 1000 `div` 2 ^ 0; (999 - 0 + 1) `div` 2 ^ 0].
Proof.
  eexists. eexists. split; [by vm_compute|]. split; [reflexivity|].
  split_and!; by vm_compute.
Qed.

(** [create_meta_sizes] on that request, at scale 1. *)
Lemma create_meta_sizes_witness :
  ∃ lossy sc,
    Meta.create_meta 1000 1000 0 999 1024 false 8 = Ok lossy
    ∧ Meta.scales lossy !! 1%nat = Some sc
    ∧ Meta.size sc = [1024 `div` 2 ^ 1 + 1; 1024 `div` 2 ^ 1 + 1; 1024 `div` 2 ^ 1 + 1]
    ∧ Meta.realsize sc = [1024 `div` 2 ^ 1; 1024 `div` 2 ^ 1; (1024 - 0) `div` 2 ^ 1].
Proof.
  eexists. eexists.
  assert (H1 : Meta.create_meta 1000 1000 0 999 1024 false 8 = Ok _)
    by (vm_compute; reflexivity).
  split; [exact H1|]. split; [reflexivity|].
  exact (create_meta_sizes 1000 1000 0 999 8 false _ 1%nat _ H1 eq_refl).
Defined.

(** C7 as stated fails on an odd axis whose half rounds down to an even
    number: a cube of shape (261, 261, 261) is downsampled to
    (130, 130, 130), where half-up rounding of 130.5 gives 131. *)
Lemma downsample_rounds_half_to_even :
  ∃ d, Downsample._downsample (261, 261, 261) = Ok d
    ∧ Downsample.out_shape d = (130, 130, 130)
    ∧ Downsample.round_half_up 261 = 131
    ∧ Downsample.out_shape d
      ≠ (Downsample.round_half_up 261, Downsample.round_half_up 261,
         Downsample.round_half_up 261).
Proof.
  eexists. split; [by vm_compute|]. split_and!; by vm_compute.
Qed.

(** [downsample_shape] on that cube: eight pieces. *)
Lemma downsample_shape_witness :
  0 ≤ 261
  ∧ ∃ d, Downsample._downsample (261, 261, 261) = Ok d
      ∧ Downsample.out_shape d = (130, 130, 130)
      ∧ ∃ writes, d = Downsample.Pieced (130, 130, 130) writes ∧ length writes = 8%nat.
Proof.
  split; [lia|].
  destruct (downsample_shape 261 261 261 ltac:(lia) ltac:(lia) ltac:(lia))
    as (d & Hd & Hshape & _ & _ & Hpieces).
  exists d. split; [exact Hd|]. split; [exact Hshape|].
  destruct (Hpieces ltac:(lia)) as [target ->].
  simpl in Hshape. rewrite Hshape. eexists. split; [reflexivity|]. by vm_compute.
Defined.

(** [ngmeta_not_atomic] on a store that refuses neuroglancer/raw/info. *)
Lemma ngmeta_not_atomic_witness :
  NgMeta.shard_size Demo.demo_meta = 1024
  ∧ Store.put_ok Demo.raw_refused "vol" "neuroglancer/jpeg/info" = true
  ∧ NgMeta.writeRaw Demo.demo_meta = true
  ∧ Store.put_ok Demo.raw_refused "vol" "neuroglancer/raw/info" = false
  ∧ ∃ lossy, Meta.create_meta 2048 2048 0 2047 1024 false 8 = Ok lossy
      ∧ Store.status (NgMeta.ngmeta Demo.demo_meta Demo.raw_refused).1 = 400
      ∧ Store.infos (NgMeta.ngmeta Demo.demo_meta Demo.raw_refused).2
          !! ("vol", "neuroglancer/jpeg/info")%string = Some lossy
      ∧ Store.infos (NgMeta.ngmeta Demo.demo_meta Demo.raw_refused).2
          !! ("vol", "neuroglancer/raw/info")%string = None.
Proof.
  split; [reflexivity|]. split; [reflexivity|]. split; [reflexivity|].
  split; [reflexivity|].
  destruct (ngmeta_not_atomic Demo.demo_meta Demo.raw_refused eq_refl)
    as (lossy & Hl & _ & Hfail & _).
  destruct (Hfail eq_refl eq_refl eq_refl) as (Hs & _ & Hj & Hr).
  exists lossy. split; [exact Hl|]. split; [exact Hs|]. split; [exact Hj|].
  etransitivity; [exact Hr|]. reflexivity.
Defined.

(** * Further properties of the code *)

(** ** The tile loops of one super-block *)

Lemma ceil_div_range_count (a s : Z) :
  0 < s → (a + s - 1) `div` s = Py.ceil_div a s.
Proof. intros Hs. unfold Py.ceil_div. Z.div_mod_to_equations. nia. Qed.

Lemma lookup_bind_uniform {A B : Type} (ys : list A) (f : A → list B) (n : nat)
    (iy ix : nat) (y : A) :
  (∀ y, length (f y) = n) → (ix < n)%nat → ys !! iy = Some y →
  (ys ≫= f) !! (iy * n + ix)%nat = f y !! ix.
Proof.
  intros Hlen Hix. revert iy. induction ys as [|y0 ys IH]; intros iy Hy; [done|].
  change ((y0 :: ys) ≫= f) with (f y0 ++ (ys ≫= f)).
  destruct iy as [|iy]; simpl in Hy.
  - injection Hy as ->. simpl. apply lookup_app_l. by rewrite Hlen.
  - rewrite lookup_app_r by (rewrite Hlen; lia).
    rewrite Hlen. replace (S iy * n + ix - n)%nat with (iy * n + ix)%nat by lia.
    by apply IH.
Qed.

Lemma length_bind_uniform {A B : Type} (ys : list A) (f : A → list B) (n : nat) :
  (∀ y, length (f y) = n) → length (ys ≫= f) = (length ys * n)%nat.
Proof.
  intros Hlen. induction ys as [|y ys IH]; [done|].
  change ((y :: ys) ≫= f) with (f y ++ (ys ≫= f)).
  rewrite length_app, Hlen, IH. simpl. lia.
Qed.

Lemma range_neg (a b s : Z) : s < 0 → a ≤ b → Py.range a b s = Ok [].
Proof.
  intros Hs Hab. destruct (Py.range a b s) as [l|e] eqn:H.
  - by rewrite (range_neg_empty _ _ _ _ H Hs Hab).
  - unfold Py.range in H. repeat destruct (decide _); done || lia.
Qed.

(** The grid of a super-block for a positive [shard_size], as a list
    comprehension. *)
Lemma tile_grid_pos (width height shard_size startx starty : Z) :
  0 < shard_size →
  Container.tile_grid width height shard_size startx starty
  = Ok (chunky ← ((λ i, starty + i * shard_size) <$>
                   seqZ 0 (Py.ceil_div (Z.min (starty + MAX_IMAGE_SIZE) height - starty)
                             shard_size));
        (λ chunkx, (chunkx, chunky)) <$>
          ((λ i, startx + i * shard_size) <$>
            seqZ 0 (Py.ceil_div (Z.min (startx + MAX_IMAGE_SIZE) width - startx)
                      shard_size))).
Proof.
  intros Hs. unfold Container.tile_grid. rewrite !range_pos by done.
  rewrite !ceil_div_range_count by done.
  cbn [mbind result_bind].
  set (xs := (λ i, startx + i * shard_size) <$> seqZ 0 _).
  rewrite (for_each_collect _ _ (λ chunky, (λ chunkx, (chunkx, chunky)) <$> xs)).
  - reflexivity.
  - intros chunky acc _. reflexivity.
Qed.

(** The cells of the grid of a super-block, in row-major order. *)
Lemma tile_grid_cells (width height shard_size startx starty : Z) :
  startx < width → starty < height → 0 < shard_size →
  let bw := Z.min (startx + MAX_IMAGE_SIZE) width - startx in
  let bh := Z.min (starty + MAX_IMAGE_SIZE) height - starty in
  let nx := Py.ceil_div bw shard_size in
  let ny := Py.ceil_div bh shard_size in
  ∃ grid, Container.tile_grid width height shard_size startx starty = Ok grid
    ∧ Py.len grid = nx * ny
    ∧ 0 < nx ∧ 0 < ny
    ∧ ∀ ix iy, 0 ≤ ix < nx → 0 ≤ iy < ny →
        grid !! Z.to_nat (iy * nx + ix)
        = Some (startx + ix * shard_size, starty + iy * shard_size).
Proof.
  intros Hx Hy Hs. cbv zeta.
  rewrite tile_grid_pos by done. eexists. split; [reflexivity|].
  set (bw := Z.min (startx + MAX_IMAGE_SIZE) width - startx).
  set (bh := Z.min (starty + MAX_IMAGE_SIZE) height - starty).
  assert (Hbw : 0 < bw) by (unfold bw, MAX_IMAGE_SIZE; lia).
  assert (Hbh : 0 < bh) by (unfold bh, MAX_IMAGE_SIZE; lia).
  assert (Hnx : 0 < Py.ceil_div bw shard_size)
    by (unfold Py.ceil_div; Z.div_mod_to_equations; nia).
  assert (Hny : 0 < Py.ceil_div bh shard_size)
    by (unfold Py.ceil_div; Z.div_mod_to_equations; nia).
  set (nx := Py.ceil_div bw shard_size) in *.
  set (ny := Py.ceil_div bh shard_size) in *.
  set (xs := (λ i, startx + i * shard_size) <$> seqZ 0 nx).
  set (ys := (λ i, starty + i * shard_size) <$> seqZ 0 ny).
  assert (Hrow : ∀ y : Z, length ((λ chunkx : Z, (chunkx, y)) <$> xs) = Z.to_nat nx).
  { intros y. unfold xs. by rewrite !length_fmap, length_seqZ. }
  split_and!; try done.
  - unfold Py.len. rewrite (length_bind_uniform _ _ _ Hrow).
    unfold ys. rewrite length_fmap, length_seqZ. lia.
  - intros ix iy Hix Hiy.
    replace (Z.to_nat (iy * nx + ix)) with (Z.to_nat iy * Z.to_nat nx + Z.to_nat ix)%nat
      by lia.
    rewrite (lookup_bind_uniform ys _ _ _ _ (starty + iy * shard_size) Hrow); [|lia|].
    + unfold xs. rewrite !list_lookup_fmap, lookup_seqZ_lt by lia.
      simpl. repeat f_equal; lia.
    + unfold ys. rewrite list_lookup_fmap, lookup_seqZ_lt by lia.
      simpl. repeat f_equal; lia.
Qed.

(** X1.  The tile loops of a super-block: a [shard_size] of 0 raises
    ValueError; a negative one visits no tile; a positive one visits
    nx * ny tiles, nx = ceil(bw / shard_size) and ny = ceil(bh / shard_size)
    for the clipped super-block size (bw, bh), in row-major order: the tile
    of column ix and row iy, cropped at
    (startx + ix * shard_size, starty + iy * shard_size), is number
    iy * nx + ix. *)
Theorem tile_grid_row_major (width height shard_size startx starty : Z) :
  startx < width → starty < height →
  let bw := Z.min (startx + MAX_IMAGE_SIZE) width - startx in
  let bh := Z.min (starty + MAX_IMAGE_SIZE) height - starty in
  let nx := Py.ceil_div bw shard_size in
  let ny := Py.ceil_div bh shard_size in
  (shard_size = 0 →
     Container.tile_grid width height shard_size startx starty = Raise ValueError)
  ∧ (shard_size < 0 →
     Container.tile_grid width height shard_size startx starty = Ok [])
  ∧ (0 < shard_size →
     ∃ grid, Container.tile_grid width height shard_size startx starty = Ok grid
       ∧ Py.len grid = nx * ny
       ∧ 0 < nx ∧ 0 < ny
       ∧ ∀ ix iy, 0 ≤ ix < nx → 0 ≤ iy < ny →
           grid !! Z.to_nat (iy * nx + ix)
           = Some (startx + ix * shard_size, starty + iy * shard_size)).
Proof.
  intros Hx Hy. cbv zeta. split_and!.
  - intros ->. reflexivity.
  - intros Hs. unfold Container.tile_grid.
    rewrite (range_neg starty) by (unfold MAX_IMAGE_SIZE; lia). reflexivity.
  - intros Hs. by apply tile_grid_cells.
Qed.

(** ** When a container is emitted *)

Lemma range_Ok (a b s : Z) : s ≠ 0 → ∃ l, Py.range a b s = Ok l.
Proof. intros Hs. unfold Py.range. rewrite decide_False by done. destruct (decide _); eauto. Qed.

Lemma tile_grid_nonzero_Ok (width height shard_size startx starty : Z) :
  shard_size ≠ 0 →
  ∃ grid, Container.tile_grid width height shard_size startx starty = Ok grid.
Proof.
  intros Hs. unfold Container.tile_grid.
  destruct (range_Ok starty (Z.min (starty + MAX_IMAGE_SIZE) height) _ Hs) as [ys ->].
  destruct (range_Ok startx (Z.min (startx + MAX_IMAGE_SIZE) width) _ Hs) as [xs ->].
  cbn [mbind result_bind]. eexists.
  apply (for_each_collect _ _ (λ chunky : Z, (λ chunkx : Z, (chunkx, chunky)) <$> xs)).
  intros chunky acc _. reflexivity.
Qed.

Lemma to_bytes8_raises (n : Z) (e : exn) : Py.to_bytes8 n = Raise e → e = OverflowError.
Proof. unfold Py.to_bytes8. destruct (decide _); [done|]. by intros [= <-]. Qed.

Lemma offsets_loop_raises (sizes : list Z) (start : Z) (acc : list byte) (e : exn) :
  Container.offsets_loop sizes start acc = Raise e → e = OverflowError.
Proof.
  revert start acc. induction sizes as [|v sizes IH]; intros start acc H; simpl in H; [done|].
  destruct (Py.to_bytes8 (start + v)) as [b|e'] eqn:Hb; simpl in H.
  - by apply IH in H.
  - injection H as <-. by apply to_bytes8_raises in Hb.
Qed.

Lemma pack_raises (width height shard_size : Z) (sizes : list Z) (vol : list byte)
    (e : exn) :
  Container.pack width height shard_size sizes vol = Raise e → e = OverflowError.
Proof.
  unfold Container.pack. intros H.
  repeat match type of H with
  | context [Py.to_bytes8 ?n] =>
      let Hb := fresh "Hb" in
      destruct (Py.to_bytes8 n) eqn:Hb; cbn [mbind result_bind] in H;
      [|injection H as <-; by apply to_bytes8_raises in Hb]
  end.
  destruct (Container.offsets_loop _ _ _) eqn:Ho; cbn [mbind result_bind] in H; [done|].
  injection H as <-. by apply offsets_loop_raises in Ho.
Qed.

(** X2.  When the producer emits a container.  A [shard_size] of 0 ends the
    super-block with ValueError.  Otherwise the container is emitted exactly
    when width, height and shard_size are unsigned 64-bit values and the
    size of the container, 24 + 8 (k + 1) + the bytes of its k tiles, is
    below 2^64, and it then has that size; in every other case (a negative
    shard_size among them) the super-block ends with OverflowError. *)
Theorem container_emitted (tile_png : Z → Z → list byte)
    (width height shard_size startx starty : Z) :
  (shard_size = 0 →
     Container.superblock_container tile_png width height shard_size startx starty
     = Raise ValueError)
  ∧ (shard_size ≠ 0 →
     ∃ grid, Container.tile_grid width height shard_size startx starty = Ok grid ∧
       let size := 24 + (Py.len grid + 1) * 8
                   + Py.len (mjoin (Container.superblock_tiles tile_png grid)) in
       if decide (0 ≤ width < 2 ^ 64 ∧ 0 ≤ height < 2 ^ 64
                  ∧ 0 ≤ shard_size < 2 ^ 64 ∧ size < 2 ^ 64)
       then ∃ c, Container.superblock_container tile_png width height shard_size
                   startx starty = Ok c
                 ∧ Py.len c = size
       else Container.superblock_container tile_png width height shard_size
              startx starty = Raise OverflowError).
Proof.
  split.
  - intros ->. reflexivity.
  - intros Hs. destruct (tile_grid_nonzero_Ok width height shard_size startx starty Hs)
      as [grid Hgrid].
    exists grid. split; [done|]. cbv zeta.
    set (tiles := Container.superblock_tiles tile_png grid).
    assert (Hk : Py.len tiles = Py.len grid)
      by (unfold Py.len, tiles, Container.superblock_tiles; by rewrite length_fmap).
    destruct (decide _) as [(Hw & Hh & Hss & Hsize)|Hno].
    + destruct (superblock_container_Ok tile_png _ _ _ _ _ _ Hw Hh Hss Hgrid Hsize)
        as [c Hc].
      exists c. split; [done|].
      apply superblock_container_laid_out in Hc as (grid' & Hgrid' & L).
      rewrite Hgrid in Hgrid'. injection Hgrid' as <-.
      rewrite (laid_out_len L). fold tiles. unfold psum. rewrite firstn_all. lia.
    + destruct (Container.superblock_container _ _ _ _ _ _) as [c|e] eqn:Hc.
      * exfalso. apply Hno.
        apply superblock_container_laid_out in Hc as (grid' & Hgrid' & L).
        rewrite Hgrid in Hgrid'. injection Hgrid' as <-.
        pose proof (laid_out_len L) as Hlen. fold tiles in L, Hlen.
        destruct L as [start offs _ Hw Hh Hss HF].
        split_and!; try lia.
        rewrite Forall_lookup in HF.
        pose proof (HF (length tiles) _ (running_lookup tiles start _ (le_n _))) as Hlast.
        unfold start in Hlast. unfold psum in Hlast. rewrite firstn_all in Hlast. lia.
      * f_equal. unfold Container.superblock_container in Hc. rewrite Hgrid in Hc.
        cbn [mbind result_bind] in Hc. by apply pack_raises in Hc.
Qed.

(** ** The thumbnail factor *)

Lemma halve_until_spec (fuel : nat) (max_dim factor : Z) :
  max_dim ≤ Z.of_nat fuel →
  ∃ k : nat,
    AlignedSlice.halve_until fuel max_dim factor = factor * 2 ^ Z.of_nat k
    ∧ max_dim `div` 2 ^ Z.of_nat k ≤ AlignedSlice.TARGET_SIZE
    ∧ ∀ j : nat, (j < k)%nat → AlignedSlice.TARGET_SIZE < max_dim `div` 2 ^ Z.of_nat j.
Proof.
  revert max_dim factor. induction fuel as [|fuel IH]; intros m f Hm.
  - exists 0%nat. simpl. rewrite Z.div_1_r. unfold AlignedSlice.TARGET_SIZE.
    split_and!; [lia | lia | intros; lia].
  - cbn [AlignedSlice.halve_until].
    destruct (decide (m > AlignedSlice.TARGET_SIZE)) as [Hbig|Hsmall].
    + unfold AlignedSlice.TARGET_SIZE in Hbig.
      destruct (IH (m `div` 2) (f * 2)) as (k & Hk & Hle & Hgt).
      { Z.div_mod_to_equations. lia. }
      exists (S k). rewrite Hk.
      assert (Hdiv : ∀ j : nat,
                (m `div` 2) `div` (2 ^ Z.of_nat j) = m `div` (2 ^ Z.of_nat (S j))).
      { intros j. rewrite Z.div_div by lia. f_equal.
        rewrite Nat2Z.inj_succ, Z.pow_succ_r by lia. done. }
      split_and!.
      * rewrite Nat2Z.inj_succ, Z.pow_succ_r by lia. lia.
      * by rewrite <- Hdiv.
      * intros [|j] Hj.
        -- simpl. rewrite Z.div_1_r. unfold AlignedSlice.TARGET_SIZE. lia.
        -- rewrite <- Hdiv. apply Hgt. lia.
    + exists 0%nat. simpl. rewrite Z.div_1_r.
      split_and!; [lia | lia | intros; lia].
Qed.

(** X3.  The thumbnail of alignedslice: the factor its loop computes for a
    bounding box (width, height) is a power of two 2^k; the resized
    thumbnail (width // factor, height // factor) is at most 4096 on each
    side when width and height are not negative; and k is the first
    exponent for which max(width, height) // 2^k is at most 4096. *)
Theorem thumbnail_factor (width height : Z) :
  let max_dim := Z.max width height in
  let factor := AlignedSlice.halve_until (Z.to_nat max_dim) max_dim 1 in
  ∃ k : nat,
    factor = 2 ^ Z.of_nat k
    ∧ max_dim `div` factor ≤ 4096
    ∧ (∀ j : nat, (j < k)%nat → 4096 < max_dim `div` 2 ^ Z.of_nat j)
    ∧ (0 ≤ width → 0 ≤ height → width `div` factor ≤ 4096 ∧ height `div` factor ≤ 4096)
    ∧ (max_dim ≤ 4096 → factor = 1).
Proof.
  cbv zeta.
  destruct (halve_until_spec (Z.to_nat (Z.max width height)) (Z.max width height) 1
              ltac:(lia)) as (k & Hk & Hle & Hgt).
  rewrite Z.mul_1_l in Hk. unfold AlignedSlice.TARGET_SIZE in *.
  exists k. rewrite Hk. split_and!; try done.
  - intros Hw Hh.
    assert (0 < 2 ^ Z.of_nat k) by (apply Z.pow_pos_nonneg; lia).
    split; (etransitivity; [apply Z.div_le_mono; [done|]|exact Hle]); lia.
  - intros Hsmall. destruct k as [|k]; [done|].
    specialize (Hgt 0%nat ltac:(lia)). simpl in Hgt. rewrite Z.div_1_r in Hgt. lia.
Qed.

(** ** [/ngmeta] and the shard size *)

Lemma ngmeta_eval (cfg : NgMeta.config) (w : Store.world)
    (lossy lossless : Meta.descriptor) :
  NgMeta.shard_size cfg = 1024 →
  Meta.create_meta (NgMeta.bbox cfg).1 (NgMeta.bbox cfg).2 (NgMeta.minz cfg)
    (NgMeta.maxz cfg) 1024 false (NgMeta.resolution cfg) = Ok lossy →
  Meta.create_meta (NgMeta.bbox cfg).1 (NgMeta.bbox cfg).2 (NgMeta.minz cfg)
    (NgMeta.maxz cfg) 1024 true (NgMeta.resolution cfg) = Ok lossless →
  let put name d (w : Store.world) :=
    {| Store.blobs := Store.blobs w;
       Store.infos := <[(NgMeta.dest cfg, name) := d]> (Store.infos w);
       Store.volume := Store.volume w; Store.put_ok := Store.put_ok w;
       Store.writer_ok := Store.writer_ok w |} in
  let w1 := put "neuroglancer/jpeg/info"%string lossy w in
  NgMeta.ngmeta cfg w
  = if Store.put_ok w (NgMeta.dest cfg) "neuroglancer/jpeg/info"
    then if NgMeta.writeRaw cfg
         then if Store.put_ok w (NgMeta.dest cfg) "neuroglancer/raw/info"
              then (Store.success_response, put "neuroglancer/raw/info"%string lossless w1)
              else (Store.error_response
                      (Store.Message (UploadFailed (NgMeta.dest cfg)
                                        "neuroglancer/raw/info")), w1)
         else (Store.success_response, w1)
    else (Store.error_response
            (Store.Message (UploadFailed (NgMeta.dest cfg) "neuroglancer/jpeg/info")), w).
Proof.
  intros Hs Hlossy Hlossless. cbv zeta.
  unfold NgMeta.ngmeta, Store.try_except, NgMeta.ngmeta_body.
  destruct (NgMeta.bbox cfg) as [width height]. simpl in Hlossy, Hlossless.
  unfold Store.io_bind, Store.lift, Store.upload_info, Store.io_ret.
  rewrite Hs. destruct (decide (1024 ≠ 1024)) as [Hc|_]; [by destruct Hc|].
  rewrite Hlossy, Hlossless.
  destruct (Store.put_ok w (NgMeta.dest cfg) "neuroglancer/jpeg/info"); [|done].
  destruct (NgMeta.writeRaw cfg); [|done].
  cbn [Store.put_ok].
  by destruct (Store.put_ok w (NgMeta.dest cfg) "neuroglancer/raw/info").
Qed.

(** X4.  What ngmeta leaves behind.  It answers HTTP 200 exactly when the
    shard size is 1024, the upload of neuroglancer/jpeg/info is accepted and,
    if writeRaw is set, that of neuroglancer/raw/info too.  After a 200 the
    first holds the lossy descriptor of the request and, if writeRaw is set,
    the second the lossless one.  After any other response the second is as
    it was, and the first holds the lossy descriptor when the shard size is
    1024 and its upload was accepted, and is as it was otherwise.  Whatever
    the response, no other descriptor changes, and ngmeta never touches a
    binary object or the volume. *)
Theorem ngmeta_outcome (cfg : NgMeta.config) (w : Store.world) :
  let r := (NgMeta.ngmeta cfg w).1 in
  let w' := (NgMeta.ngmeta cfg w).2 in
  let jpeg_info := (NgMeta.dest cfg, "neuroglancer/jpeg/info"%string) in
  let raw_info := (NgMeta.dest cfg, "neuroglancer/raw/info"%string) in
  let meta isRaw :=
    Meta.create_meta (NgMeta.bbox cfg).1 (NgMeta.bbox cfg).2 (NgMeta.minz cfg)
      (NgMeta.maxz cfg) 1024 isRaw (NgMeta.resolution cfg) in
  (Store.status r = 200 ↔
     NgMeta.shard_size cfg = 1024
     ∧ Store.put_ok w jpeg_info.1 jpeg_info.2 = true
     ∧ (NgMeta.writeRaw cfg = true → Store.put_ok w raw_info.1 raw_info.2 = true))
  ∧ (Store.status r = 200 →
     (Ok <$> Store.infos w' !! jpeg_info) = Some (meta false)
     ∧ (if NgMeta.writeRaw cfg
        then (Ok <$> Store.infos w' !! raw_info) = Some (meta true)
        else Store.infos w' !! raw_info = Store.infos w !! raw_info))
  ∧ (Store.status r ≠ 200 →
     Store.infos w' !! raw_info = Store.infos w !! raw_info
     ∧ (if decide (NgMeta.shard_size cfg = 1024
                   ∧ Store.put_ok w jpeg_info.1 jpeg_info.2 = true)
        then (Ok <$> Store.infos w' !! jpeg_info) = Some (meta false)
        else Store.infos w' !! jpeg_info = Store.infos w !! jpeg_info))
  ∧ (∀ k, k ≠ jpeg_info → k ≠ raw_info → Store.infos w' !! k = Store.infos w !! k)
  ∧ Store.blobs w' = Store.blobs w
  ∧ Store.volume w' = Store.volume w.
Proof.
  cbv zeta.
  destruct (decide (NgMeta.shard_size cfg = 1024)) as [Hs|Hne].
  - destruct (create_meta_Ok (NgMeta.bbox cfg).1 (NgMeta.bbox cfg).2 (NgMeta.minz cfg)
                (NgMeta.maxz cfg) 1024 false (NgMeta.resolution cfg) ltac:(done))
      as [lossy Hlossy].
    destruct (create_meta_Ok (NgMeta.bbox cfg).1 (NgMeta.bbox cfg).2 (NgMeta.minz cfg)
                (NgMeta.maxz cfg) 1024 true (NgMeta.resolution cfg) ltac:(done))
      as [lossless Hlossless].
    rewrite (ngmeta_eval cfg w lossy lossless Hs Hlossy Hlossless).
    rewrite Hlossy, Hlossless. cbn [fst snd].
    assert (Hjr : (NgMeta.dest cfg, "neuroglancer/jpeg/info"%string)
                  ≠ (NgMeta.dest cfg, "neuroglancer/raw/info"%string))
      by (intros [= ?]; done).
    destruct (Store.put_ok w (NgMeta.dest cfg) "neuroglancer/jpeg/info") eqn:Hj;
      [destruct (NgMeta.writeRaw cfg) eqn:Hr;
       [destruct (Store.put_ok w (NgMeta.dest cfg) "neuroglancer/raw/info") eqn:Hraw|]|];
      cbn [fst snd Store.infos Store.blobs Store.volume Store.status
           Store.error_response Store.success_response].
    + split_and!; try done.
      * intros _. split.
        -- by rewrite lookup_insert_ne, lookup_insert_eq.
        -- by rewrite lookup_insert_eq.
      * intros k Hk1 Hk2. by rewrite !lookup_insert_ne.
    + split_and!; try done.
      * split; [done|]. intros (_ & _ & Hx). by specialize (Hx eq_refl).
      * intros _. split.
        -- by rewrite lookup_insert_ne.
        -- rewrite decide_True by done. by rewrite lookup_insert_eq.
      * intros k Hk1 Hk2. by rewrite lookup_insert_ne.
    + split_and!; try done.
      * intros _. split.
        -- by rewrite lookup_insert_eq.
        -- by rewrite lookup_insert_ne.
      * intros k Hk1 Hk2. by rewrite lookup_insert_ne.
    + split_and!; try done.
      * split; [done|]. by intros (_ & ? & _).
      * intros _. split; [done|]. rewrite decide_False; [done|]. by intros [_ ?].
  - unfold NgMeta.ngmeta, Store.try_except, NgMeta.ngmeta_body.
    destruct (NgMeta.bbox cfg) as [width height].
    unfold Store.io_bind, Store.lift.
    rewrite decide_True by done. simpl.
    split_and!; try done.
    + split; [done|]. by intros (? & _).
    + intros _. split; [done|]. rewrite decide_False; [done|]. by intros [? _].
Qed.

(** A shard size other than 1024 is refused by ngmeta and ngshard before
    anything is read or written. *)
Lemma shard_size_refused (png_open : list byte → result Tiles.image)
    (mcfg : NgMeta.config) (scfg : NgShard.config) (w : Store.world) :
  (NgMeta.shard_size mcfg ≠ 1024 →
     NgMeta.ngmeta mcfg w
     = (Store.error_response
          (Store.Message (RuntimeError "shard size must be 1024x1024x1024")), w))
  ∧ (NgShard.shard_size scfg ≠ 1024 →
     NgShard.ngshard png_open scfg w
     = (Store.error_response
          (Store.StackTrace (RuntimeError "shard size must be 1024x1024x1024")), w)).
Proof.
  split.
  - intros Hne. unfold NgMeta.ngmeta, Store.try_except, NgMeta.ngmeta_body.
    destruct (NgMeta.bbox mcfg). unfold Store.io_bind, Store.lift.
    by rewrite decide_True.
  - intros Hne. unfold NgShard.ngshard, Store.try_except, NgShard.ngshard_body.
    unfold Store.io_bind, Store.lift. by rewrite decide_True.
Qed.

(** ** The pieces of a downsampled cube *)

Lemma downsample_whole (x y z : Z) :
  x ≤ 256 ∧ y ≤ 256 ∧ z ≤ 256 →
  Downsample._downsample (x, y, z) = Ok (Downsample.Whole (Downsample.zoom_shape (x, y, z))).
Proof. intros H. unfold Downsample._downsample. by rewrite decide_True. Qed.

Lemma downsample_pieced (x y z : Z) :
  0 ≤ x → 0 ≤ y → 0 ≤ z → ¬ (x ≤ 256 ∧ y ≤ 256 ∧ z ≤ 256) →
  Downsample._downsample (x, y, z)
  = Ok (Downsample.Pieced (Py.round_half x, Py.round_half y, Py.round_half z)
          (xi ← Downsample.multiples_of_256 x; yi ← Downsample.multiples_of_256 y;
           zi ← Downsample.multiples_of_256 z; [Downsample.mk_piece xi yi zi])).
Proof.
  intros Hx Hy Hz Hb. unfold Downsample._downsample. rewrite decide_False by done.
  pose proof (range_pos 0 x 256 ltac:(lia)) as Hxs.
  pose proof (range_pos 0 y 256 ltac:(lia)) as Hys.
  pose proof (range_pos 0 z 256 ltac:(lia)) as Hzs.
  fold (Downsample.multiples_of_256 x) in Hxs. fold (Downsample.multiples_of_256 y) in Hys.
  fold (Downsample.multiples_of_256 z) in Hzs.
  rewrite Hxs. cbn [mbind result_bind].
  erewrite (for_each_collect (Downsample.multiples_of_256 x) _
    (λ xi, yi ← Downsample.multiples_of_256 y; zi ← Downsample.multiples_of_256 z;
           [Downsample.mk_piece xi yi zi])).
  - reflexivity.
  - intros xi acc Hxi. rewrite Hys. cbn [mbind result_bind].
    apply for_each_collect. intros yi acc' Hyi. rewrite Hzs. cbn [mbind result_bind].
    apply for_each_collect. intros zi acc'' Hzi.
    by rewrite (assign_piece_Ok x y z xi yi zi _ _ _ Hxs Hys Hzs Hxi Hyi Hzi).
Qed.

(** The shape after one downsampling, whichever way it is computed. *)
Lemma downsample_out_shape (s : Downsample.shape3) :
  0 ≤ s.1.1 → 0 ≤ s.1.2 → 0 ≤ s.2 →
  ∃ d, Downsample._downsample s = Ok d
       ∧ Downsample.out_shape d = Downsample.zoom_shape s.
Proof.
  destruct s as [[x y] z]. cbn [fst snd]. intros Hx Hy Hz.
  destruct (decide (x ≤ 256 ∧ y ≤ 256 ∧ z ≤ 256)) as [Hs|Hb].
  - rewrite downsample_whole by done. eauto.
  - rewrite downsample_pieced by done. eauto.
Qed.

Lemma elem_of_multiples (n xi : Z) :
  xi ∈ Downsample.multiples_of_256 n ↔ ∃ j, xi = 256 * j ∧ 0 ≤ j ∧ 256 * j < n.
Proof.
  unfold Downsample.multiples_of_256. rewrite list_elem_of_fmap. split.
  - intros (j & -> & Hj). apply elem_of_seqZ in Hj. exists j.
    split; [lia|]. Z.div_mod_to_equations. lia.
  - intros (j & -> & Hj0 & Hj). exists j. split; [lia|].
    apply elem_of_seqZ. Z.div_mod_to_equations. lia.
Qed.

Lemma axis_partition (n t : Z) :
  0 ≤ t < Py.round_half n →
  256 * (t `div` 128) ∈ Downsample.multiples_of_256 n
  ∧ ∀ xi, xi ∈ Downsample.multiples_of_256 n →
      (xi `div` 2 ≤ t < (xi + 256) `div` 2 ↔ xi = 256 * (t `div` 128)).
Proof.
  intros Ht.
  assert (Hn : 2 * Py.round_half n ≤ n + 1).
  { destruct (round_half_even n) as [He Ho].
    destruct (Z.even n); [specialize (He eq_refl); lia|].
    destruct (Ho eq_refl) as [_ [?|?]]; lia. }
  split.
  - apply elem_of_multiples. exists (t `div` 128).
    split; [done|]. Z.div_mod_to_equations. lia.
  - intros xi Hxi. apply elem_of_multiples in Hxi as (j & -> & Hj0 & Hj).
    replace ((256 * j) `div` 2) with (128 * j) by (Z.div_mod_to_equations; lia).
    replace ((256 * j + 256) `div` 2) with (128 * j + 128)
      by (Z.div_mod_to_equations; lia).
    split; intros H; Z.div_mod_to_equations; lia.
Qed.

(** X5.  The blocks the piecewise downsampling assigns tile the target: when
    the cube is downsampled in pieces, every cell of the zero-initialised
    target lies in the destination block of exactly one piece, so no cell
    is left at zero for want of an assignment and none is assigned twice. *)
Theorem downsample_pieces_tile (x y z : Z) :
  0 ≤ x → 0 ≤ y → 0 ≤ z → ¬ (x ≤ 256 ∧ y ≤ 256 ∧ z ≤ 256) →
  ∃ target writes,
    Downsample._downsample (x, y, z) = Ok (Downsample.Pieced target writes)
    ∧ ∀ tx ty tz,
        0 ≤ tx < target.1.1 → 0 ≤ ty < target.1.2 → 0 ≤ tz < target.2 →
        ∃ p, p ∈ writes ∧ in_dst p (tx, ty, tz)
             ∧ ∀ p', p' ∈ writes → in_dst p' (tx, ty, tz) → p' = p.
Proof.
  intros Hx Hy Hz Hb. eexists. eexists.
  split; [by apply downsample_pieced|]. cbn [fst snd].
  intros tx ty tz Htx Hty Htz.
  destruct (axis_partition x tx Htx) as [Hxin Hxu].
  destruct (axis_partition y ty Hty) as [Hyin Hyu].
  destruct (axis_partition z tz Htz) as [Hzin Hzu].
  exists (Downsample.mk_piece (256 * (tx `div` 128)) (256 * (ty `div` 128))
            (256 * (tz `div` 128))).
  split_and!.
  - apply list_elem_of_bind. eexists. split; [|exact Hxin].
    apply list_elem_of_bind. eexists. split; [|exact Hyin].
    apply list_elem_of_bind. eexists. split; [|exact Hzin].
    apply list_elem_of_here.
  - unfold in_dst, Downsample.mk_piece. cbn [Downsample.dst_lo Downsample.dst_hi].
    split_and!; by (apply Hxu || apply Hyu || apply Hzu).
  - intros p' Hp' Hin.
    apply list_elem_of_bind in Hp' as (xi & Hp' & Hxi).
    apply list_elem_of_bind in Hp' as (yi & Hp' & Hyi).
    apply list_elem_of_bind in Hp' as (zi & Hp' & Hzi).
    apply list_elem_of_singleton in Hp' as ->.
    unfold in_dst, Downsample.mk_piece in Hin.
    cbn [Downsample.dst_lo Downsample.dst_hi] in Hin.
    destruct Hin as (Hix & Hiy & Hiz).
    apply (Hxu _ Hxi) in Hix. apply (Hyu _ Hyi) in Hiy. apply (Hzu _ Hzi) in Hiz.
    by subst.
Qed.

(** ** The writes of the pyramid *)

Section WritesOnly.
Import Store.
Context (Q : ts_write → Prop).

Lemma extends_refl (w : world) : extends Q w w.
Proof. unfold extends. split_and!; try done. exists []. by rewrite app_nil_r. Qed.

Lemma extends_trans (w1 w2 w3 : world) :
  extends Q w1 w2 → extends Q w2 w3 → extends Q w1 w3.
Proof.
  intros (Hb & Hi & Hp & Hw & new & Hv & HQ) (Hb' & Hi' & Hp' & Hw' & new' & Hv' & HQ').
  unfold extends. split_and!; try congruence.
  exists (new ++ new'). split; [by rewrite Hv', Hv, app_assoc | by apply Forall_app].
Qed.

Lemma writes_only_ret {A : Type} (a : A) : writes_only Q (io_ret a).
Proof. intros w. apply extends_refl. Qed.

Lemma writes_only_lift {A : Type} (r : result A) : writes_only Q (lift r).
Proof. intros w. apply extends_refl. Qed.

Lemma writes_only_bind {A B : Type} (m : io A) (f : A → io B) :
  writes_only Q m → (∀ a, writes_only Q (f a)) → writes_only Q (io_bind m f).
Proof.
  intros Hm Hf w. unfold io_bind. specialize (Hm w).
  destruct (m w) as [[a|e] w1]; simpl in *; [|done].
  eapply extends_trans; [done|]. apply Hf.
Qed.

Lemma writes_only_bind_lift {A B : Type} (r : result A) (f : A → io B) :
  (∀ a, r = Ok a → writes_only Q (f a)) → writes_only Q (io_bind (lift r) f).
Proof.
  intros Hf w. unfold io_bind, lift. destruct r as [a|e]; simpl.
  - by apply Hf.
  - apply extends_refl.
Qed.

Lemma writes_only_for_each {A : Type} (xs : list A) (body : A → io unit) :
  (∀ x, x ∈ xs → writes_only Q (body x)) → writes_only Q (io_for_each xs body).
Proof.
  induction xs as [|x xs IH]; intros Hb; simpl.
  - apply writes_only_ret.
  - apply writes_only_bind; [apply Hb; by left|].
    intros _. apply IH. intros x' Hx'. apply Hb. by right.
Qed.

Lemma writes_only_write_shard (cfg : NgShard.config) (level : Z)
    (start shape : Z * Z * Z) (format : string) :
  Q {| tw_bucket := NgShard.dest cfg; tw_format := format; tw_level := level;
       tw_origin := start; tw_shape := shape |} →
  writes_only Q (NgShard._write_shard cfg level start shape format).
Proof.
  intros HQ w. unfold NgShard._write_shard.
  destruct (writer_ok w _); simpl; [|apply extends_refl].
  unfold extends; simpl. split_and!; try done. eexists. split; [done|]. by constructor.
Qed.

End WritesOnly.

Lemma writes_only_impl {A : Type} (Q Q' : Store.ts_write → Prop) (m : Store.io A) :
  (∀ wr, Q wr → Q' wr) → writes_only Q m → writes_only Q' m.
Proof.
  intros HQ Hm w. destruct (Hm w) as (? & ? & ? & ? & new & ? & HF).
  unfold extends. split_and!; try done. exists new. split; [done|].
  eapply Forall_impl; eauto.
Qed.

Lemma write_level0_writes (cfg : NgShard.config) (start shape : Z * Z * Z) :
  writes_only (turn_write cfg 0 start shape) (NgShard.write_level0 cfg start shape).
Proof.
  unfold NgShard.write_level0. destruct shape as [[x y] z]. destruct start as [[s0 s1] s2].
  apply writes_only_for_each. intros iterz Hz.
  apply writes_only_for_each. intros itery Hy.
  apply writes_only_for_each. intros iterx Hx.
  destruct (decide _) as [Hzero|Hnz]; [apply writes_only_ret|]. cbn [fst snd] in Hnz.
  assert (Hturn : ∀ format,
            format = "jpeg"%string ∨ format = "raw"%string ∧ NgShard.writeRaw cfg = true →
            turn_write cfg 0 (s0, s1, s2) (x, y, z)
              {| Store.tw_bucket := NgShard.dest cfg; Store.tw_format := format;
                 Store.tw_level := 0;
                 Store.tw_origin := (s0 + iterx, s1 + itery, s2 + iterz);
                 Store.tw_shape := (Downsample.slice_len x iterx (iterx + 512),
                                    Downsample.slice_len y itery (itery + 512),
                                    Downsample.slice_len z iterz (iterz + 512)) |}).
  { intros format Hf. unfold turn_write, no_zero_dim.
    cbn [Store.tw_bucket Store.tw_level Store.tw_shape Store.tw_origin
         Store.tw_format fst snd].
    rewrite decide_True by done.
    split; [done|]. split; [done|]. split; [lia|]. split; [|done].
    exists iterx, itery, iterz. by split_and!. }
  apply writes_only_bind.
  - apply writes_only_write_shard. apply Hturn. by left.
  - intros _. destruct (NgShard.writeRaw cfg) eqn:Hraw; [|apply writes_only_ret].
    apply writes_only_write_shard. apply Hturn. by right.
Qed.

Lemma downsample_Ok_shape (s : Downsample.shape3) (d : Downsample.downsampled) :
  Downsample._downsample s = Ok d → Downsample.out_shape d = Downsample.zoom_shape s.
Proof.
  destruct s as [[x y] z]. unfold Downsample._downsample.
  destruct (decide _); [by intros [= <-]|].
  intros H. inv_bind H. by injection H as <-.
Qed.

Lemma level_origin_S (start : Z * Z * Z) (l : nat) :
  level_origin (start.1.1 `div` 2, start.1.2 `div` 2, start.2 `div` 2) l
  = level_origin start (S l).
Proof.
  unfold level_origin. cbn [fst snd].
  rewrite Nat2Z.inj_succ, Z.pow_succ_r by lia.
  by rewrite !Z.div_div by lia.
Qed.

Lemma level_shape_S (shape : Z * Z * Z) (l : nat) :
  level_shape (Downsample.zoom_shape shape) l = level_shape shape (S l).
Proof. unfold level_shape. by rewrite Nat.iter_succ_r. Qed.

(** The writes of the level loop: the turn number [j] of the loop, for the
    level [levels !! j], writes the cube halved [j] times. *)
Lemma levels_loop_writes (cfg : NgShard.config) (levels : list Z)
    (start shape : Z * Z * Z) :
  head levels = Some 0 ∨ no_zero_dim shape →
  writes_only
    (λ wr, ∃ (j : nat) (level : Z), levels !! j = Some level
           ∧ turn_write cfg level (level_origin start j) (level_shape shape j) wr)
    (NgShard.levels_loop cfg levels start shape).
Proof.
  revert start shape. induction levels as [|level rest IH]; intros start shape Hpre.
  - apply writes_only_ret.
  - cbn [NgShard.levels_loop].
    assert (H0 : level_origin start 0 = start).
    { unfold level_origin. simpl. rewrite !Z.div_1_r. by destruct start as [[??]?]. }
    apply writes_only_bind.
    + destruct (decide (level = 0)) as [->|Hl].
      * eapply writes_only_impl; [|apply write_level0_writes].
        intros wr Hwr. exists 0%nat, 0. by rewrite H0.
      * apply writes_only_write_shard. exists 0%nat, level. rewrite H0.
        split; [done|].
        destruct Hpre as [[= ?]|Hnz]; [done|].
        unfold turn_write. rewrite decide_False by done. by split_and!.
    + intros _. apply writes_only_bind_lift. intros d Hd.
      apply downsample_Ok_shape in Hd. cbv zeta. rewrite Hd.
      destruct (decide _) as [Hzero|Hnz]; [apply writes_only_ret|].
      eapply writes_only_impl; [|apply IH].
      * intros wr (j & l & Hj & Hturn). exists (S j), l. split; [done|].
        by rewrite level_origin_S, level_shape_S in Hturn.
      * right. unfold no_zero_dim. tauto.
Qed.

Lemma writes_only_reading {A : Type} (Q : Store.ts_write → Prop)
    (f : Store.world → result A) : writes_only Q (Store.reading f).
Proof. intros w. apply extends_refl. Qed.

Lemma writes_only_try_except {A : Type} (Q : Store.ts_write → Prop) (m : Store.io A)
    (fmt : exn → Store.body) (w : Store.world) :
  writes_only Q m → extends Q w (Store.try_except m fmt w).2.
Proof.
  intros Hm. specialize (Hm w). unfold Store.try_except.
  by destruct (m w) as [[a|e] w'].
Qed.

(** The writes of ngshard, turn by turn. *)
Lemma ngshard_body_writes (png_open : list byte → result Tiles.image)
    (cfg : NgShard.config) :
  writes_only
    (λ wr, ∃ (j : nat) (shape : Z * Z * Z),
       (j ≤ 5)%nat
       ∧ turn_write cfg (Z.of_nat j)
           (level_origin ((NgShard.tile_chunk cfg).1.1 * NgShard.shard_size cfg,
                          (NgShard.tile_chunk cfg).1.2 * NgShard.shard_size cfg,
                          NgShard.zstart cfg) j)
           shape wr)
    (NgShard.ngshard_body png_open cfg).
Proof.
  unfold NgShard.ngshard_body.
  apply writes_only_bind; [apply writes_only_lift|]. intros _.
  apply writes_only_bind; [apply writes_only_lift|]. intros _.
  apply writes_only_bind; [apply writes_only_reading|]. intros assembled.
  cbv zeta. destruct (NgShard.tile_chunk cfg) as [[cx cy] cz]. cbn [fst snd].
  destruct assembled.1 as [vol|]; [|apply writes_only_lift].
  destruct (NgShard.cube_shape vol) as [[nz h] wd].
  eapply writes_only_impl; [|apply levels_loop_writes; by left].
  intros wr (j & level & Hj & Hturn).
  change (Py.range1 0 6) with [0; 1; 2; 3; 4; 5] in Hj.
  assert (level = Z.of_nat j ∧ (j ≤ 5)%nat) as [-> Hj5].
  { do 6 (destruct j as [|j]; [injection Hj as <-; split; [done|lia]|]). done. }
  eauto.
Qed.

(** X6.  What ngshard writes.  Whatever the response, ngshard changes
    nothing in the object store and only appends writes to the volume of the
    destination bucket.  Each of them is at a level 0..5 and has no empty
    dimension; the lossless (raw) volume is written at level 0 only, and only
    when writeRaw is set; the write of a level l >= 1 is a jpeg write whose
    origin is (cx * 1024 // 2^l, cy * 1024 // 2^l, zstart // 2^l), and a
    write of level 0 starts at the origin of the cube plus 0 or 512 along
    each axis and is at most 512 long along each. *)
Theorem ngshard_writes (png_open : list byte → result Tiles.image)
    (cfg : NgShard.config) (w : Store.world) :
  let w' := (NgShard.ngshard png_open cfg w).2 in
  let start := ((NgShard.tile_chunk cfg).1.1 * NgShard.shard_size cfg,
                (NgShard.tile_chunk cfg).1.2 * NgShard.shard_size cfg,
                NgShard.zstart cfg) in
  Store.blobs w' = Store.blobs w
  ∧ Store.infos w' = Store.infos w
  ∧ ∃ new, Store.volume w' = Store.volume w ++ new ∧
      ∀ wr, wr ∈ new →
        Store.tw_bucket wr = NgShard.dest cfg
        ∧ 0 ≤ Store.tw_level wr ≤ 5
        ∧ no_zero_dim (Store.tw_shape wr)
        ∧ (Store.tw_format wr = "jpeg"%string
           ∨ Store.tw_format wr = "raw"%string ∧ Store.tw_level wr = 0
             ∧ NgShard.writeRaw cfg = true)
        ∧ (Store.tw_level wr ≠ 0 →
           Store.tw_origin wr = level_origin start (Z.to_nat (Store.tw_level wr)))
        ∧ (Store.tw_level wr = 0 →
           ∃ iterx itery iterz,
             iterx ∈ [0; 512] ∧ itery ∈ [0; 512] ∧ iterz ∈ [0; 512]
             ∧ Store.tw_origin wr = (start.1.1 + iterx, start.1.2 + itery, start.2 + iterz)
             ∧ (Store.tw_shape wr).1.1 ≤ 512 ∧ (Store.tw_shape wr).1.2 ≤ 512
             ∧ (Store.tw_shape wr).2 ≤ 512).
Proof.
  cbv zeta.
  destruct (writes_only_try_except _ _ Store.StackTrace w (ngshard_body_writes png_open cfg))
    as (Hb & Hi & _ & _ & new & Hv & HQ).
  split; [exact Hb|]. split; [exact Hi|]. exists new. split; [exact Hv|].
  intros wr Hwr. rewrite Forall_forall in HQ.
  destruct (HQ wr Hwr) as (j & shape & Hj & Hbucket & Hlevel & Hnz & Hturn).
  rewrite Hlevel. split; [done|]. split; [lia|]. split; [done|].
  destruct (decide (Z.of_nat j = 0)) as [Hj0|Hj0].
  - destruct Hturn as [(ix & iy & iz & Hix & Hiy & Hiz & Ho & Hs) Hf].
    assert (j = 0%nat) as -> by lia.
    split_and!.
    + destruct Hf as [?|[? ?]]; [by left|by right].
    + done.
    + intros _. exists ix, iy, iz. split_and!; try done.
      * rewrite Ho. unfold level_origin. simpl. by rewrite !Z.div_1_r.
      * rewrite Hs. simpl. unfold Downsample.slice_len. lia.
      * rewrite Hs. simpl. unfold Downsample.slice_len. lia.
      * rewrite Hs. simpl. unfold Downsample.slice_len. lia.
  - destruct Hturn as (Hf & Ho & Hs). split_and!.
    + by left.
    + intros _. by rewrite Nat2Z.id.
    + done.
Qed.

(** ** The shape of the assembled cube *)

Section CubeShape.
Import Store NgShard.
Context (png_open : list byte → result Tiles.image) (cfg : config) (w : world).

Lemma fetch_tile_decoded (slice : Z) (im : Tiles.image) :
  fetch_tile png_open cfg w slice = Ok im → ∃ bs, png_open bs = Ok im.
Proof.
  unfold fetch_tile. destruct (tile_chunk cfg) as [[cx cy] cz].
  intros H. inv_bind H. eauto.
Qed.

Lemma set_image_first_shape (v : option cube) :
  set_image png_open cfg w (zstart cfg) None = Ok v →
  ∃ vol im, v = Some vol ∧ fetch_tile png_open cfg w (zstart cfg) = Ok im
    ∧ cube_shape vol = (zfinish cfg - zstart cfg + 1, Tiles.im_height im, Tiles.im_width im)
    ∧ zstart cfg ≤ zfinish cfg.
Proof.
  unfold set_image. intros H. inv_bind H.
  rewrite decide_True in Ha0 by done.
  destruct (np_zeros _ _ _) as [vol0|] eqn:Hz; [|done]. injection Ha0 as <-.
  destruct (set_plane vol0 _ a) as [vol|] eqn:Hp; [|done]. injection H as <-.
  apply np_zeros_inv in Hz as (Hnz & Hshape & Hplanes).
  apply set_plane_inv in Hp as (Hshape' & Hlt & _); [|lia].
  rewrite Hshape in Hshape', Hlt. simpl in Hlt.
  exists vol, a. split_and!; try done. lia.
Qed.

Lemma set_image_later_shape (slice : Z) (vol : cube) (v : option cube) :
  slice ≠ zstart cfg →
  set_image png_open cfg w slice (Some vol) = Ok v →
  ∃ vol', v = Some vol' ∧ cube_shape vol' = cube_shape vol.
Proof.
  intros Hs. unfold set_image. intros H. inv_bind H.
  rewrite decide_False in Ha0 by done. injection Ha0 as <-.
  unfold set_plane in H. destruct (cube_shape vol) as [[nz h] wd] eqn:Hshape.
  repeat (destruct (decide _) in H); try done; injection H as <-; eauto.
Qed.

Lemma set_images_from_shape (slices : list Z) (thread_id num_threads : Z)
    (vol : cube) (v : option cube) (e : option exn) :
  Forall (λ s, s ≠ zstart cfg) slices →
  set_images_from png_open cfg w slices thread_id num_threads (Some vol) = (v, e) →
  ∃ vol', v = Some vol' ∧ cube_shape vol' = cube_shape vol.
Proof.
  revert vol. induction slices as [|slice rest IH]; intros vol Hall H; simpl in H.
  - injection H as <- <-. eauto.
  - inversion Hall as [|? ? Hs Hrest]; subst.
    destruct (decide _).
    + destruct (set_image png_open cfg w slice (Some vol)) as [v1|e1] eqn:Hset.
      * destruct (set_image_later_shape _ _ _ Hs Hset) as (vol1 & -> & Hsh1).
        destruct (IH _ Hrest H) as (vol' & -> & Hsh'). exists vol'. split; congruence.
      * injection H as <- <-. eauto.
    + by apply IH.
Qed.

Lemma threads_fold_shape (tids : list Z) (vol : cube) (errs0 : list exn)
    (v : option cube) (errs : list exn) :
  foldl (λ st thread_id,
           let '(vol3d', e) :=
             set_images png_open cfg w (zstart cfg + 1) (zfinish cfg) thread_id 20 st.1 in
           (vol3d', st.2 ++ option_list e))
        (Some vol, errs0) tids = (v, errs) →
  ∃ vol', v = Some vol' ∧ cube_shape vol' = cube_shape vol.
Proof.
  revert vol errs0. induction tids as [|tid tids IH]; intros vol errs0 H; simpl in H.
  - injection H as <- <-. eauto.
  - destruct (set_images png_open cfg w (zstart cfg + 1) (zfinish cfg) tid 20 (Some vol))
      as [v1 e1] eqn:Hrun.
    unfold set_images in Hrun.
    apply set_images_from_shape in Hrun as (vol1 & -> & Hsh1);
      [|unfold Py.range1; apply Forall_seqZ; intros; lia].
    destruct (IH _ _ H) as (vol' & -> & Hsh'). exists vol'. split; congruence.
Qed.

Lemma assemble_shape (v : option cube) (errs : list exn) :
  assemble png_open cfg w = Ok (v, errs) →
  ∃ vol im, v = Some vol ∧ fetch_tile png_open cfg w (zstart cfg) = Ok im
    ∧ cube_shape vol = (zfinish cfg - zstart cfg + 1, Tiles.im_height im, Tiles.im_width im)
    ∧ zstart cfg ≤ zfinish cfg.
Proof.
  unfold assemble. intros H. inv_bind H. injection H as H.
  destruct (set_image_first_shape _ Ha) as (vol0 & im & -> & Hf & Hsh & Hz).
  unfold fetch_threads in H.
  apply threads_fold_shape in H as (vol & -> & Hsh').
  exists vol, im. split_and!; try done. congruence.
Qed.

End CubeShape.

(** ** The pyramid stays inside the declared volume *)

Lemma round_half_le (n : Z) : 0 ≤ n → 0 ≤ Py.round_half n ∧ 2 * Py.round_half n ≤ n + 1.
Proof.
  intros Hn. unfold Py.round_half.
  destruct (Z.even n) eqn:He.
  - Z.div_mod_to_equations. lia.
  - assert (Ho : Z.odd n = true) by (rewrite <- Z.negb_even, He; done).
    apply Zodd_bool_iff, Zodd_ex_iff in Ho as [m ->].
    replace ((2 * m + 1) `div` 2) with m by (Z.div_mod_to_equations; lia).
    destruct (Z.even m); lia.
Qed.

Lemma iter_round_half_bound (l : nat) (n : Z) :
  0 ≤ n →
  0 ≤ Nat.iter l Py.round_half n
  ∧ Nat.iter l Py.round_half n * 2 ^ Z.of_nat l ≤ n + 2 ^ Z.of_nat l - 1.
Proof.
  intros Hn. induction l as [|l [IH0 IH]].
  - simpl. lia.
  - cbn [Nat.iter nat_rect]. fold (Nat.iter l Py.round_half n).
    destruct (round_half_le _ IH0) as [H0 H2]. split; [done|].
    rewrite Nat2Z.inj_succ, Z.pow_succ_r by lia.
    assert (0 < 2 ^ Z.of_nat l) by (apply Z.pow_pos_nonneg; lia). nia.
Qed.

Lemma level_shape_components (x y z : Z) (l : nat) :
  level_shape (x, y, z) l
  = (Nat.iter l Py.round_half x, Nat.iter l Py.round_half y, Nat.iter l Py.round_half z).
Proof.
  unfold level_shape. induction l as [|l IH]; [done|].
  cbn [Nat.iter nat_rect]. fold (Nat.iter l Downsample.zoom_shape (x, y, z)).
  fold (Nat.iter l Py.round_half x). fold (Nat.iter l Py.round_half y).
  fold (Nat.iter l Py.round_half z). by rewrite IH.
Qed.

(** The size create_meta records for scale [l], for the scales that exist:
    0..5 of the lossy descriptor, 0 of the lossless one. *)
Lemma create_meta_size_at (width height minz maxz res : Z) (isRaw : bool) (l : nat) :
  (if isRaw then l = 0%nat else (l ≤ 5)%nat) →
  ∃ d sc,
    Meta.create_meta width height minz maxz 1024 isRaw res = Ok d
    ∧ Meta.scales d !! l = Some sc
    ∧ Meta.size sc
      = [Meta.round_up_1024 width `div` 2 ^ Z.of_nat l + size_padding l;
         Meta.round_up_1024 height `div` 2 ^ Z.of_nat l + size_padding l;
         Meta.round_up_1024 (maxz + 1) `div` 2 ^ Z.of_nat l + size_padding l].
Proof.
  intros Hl. unfold Meta.create_meta. rewrite decide_False by done.
  rewrite <- pad_maxz_round_up, <- !pad_round_up.
  set (w := Meta.pad width 1024). set (h := Meta.pad height 1024).
  set (mz := Meta.pad_maxz maxz 1024).
  destruct isRaw.
  - subst l. eexists _, _. split_and!; [done..|].
    cbn -[Z.div]. by rewrite !Z.div_1_r, !Z.add_0_r.
  - do 6 (destruct l as [|l];
      [eexists _, _; split_and!; [done..|];
       cbn -[Z.div Z.add]; by rewrite ?Z.div_1_r, ?Z.add_0_r |]).
    lia.
Qed.

(** The writes of ngshard, with the shape of the cube they come from. *)
Lemma ngshard_body_turns (png_open : list byte → result Tiles.image)
    (cfg : NgShard.config) (w : Store.world) :
  extends
    (λ wr, ∃ (j : nat) (im : Tiles.image),
       (j ≤ 5)%nat
       ∧ NgShard.shard_size cfg = 1024
       ∧ NgShard.fetch_tile png_open cfg w (NgShard.zstart cfg) = Ok im
       ∧ NgShard.zstart cfg ≤ NgShard.zfinish cfg
       ∧ turn_write cfg (Z.of_nat j)
           (level_origin ((NgShard.tile_chunk cfg).1.1 * NgShard.shard_size cfg,
                          (NgShard.tile_chunk cfg).1.2 * NgShard.shard_size cfg,
                          NgShard.zstart cfg) j)
           (level_shape (Tiles.im_width im, Tiles.im_height im,
                         NgShard.zfinish cfg - NgShard.zstart cfg + 1) j) wr)
    w (NgShard.ngshard_body png_open cfg w).2.
Proof.
  unfold NgShard.ngshard_body, Store.io_bind, Store.lift, Store.reading.
  destruct (decide (NgShard.shard_size cfg ≠ 1024)) as [|Hs%dec_stable];
    [apply extends_refl|].
  destruct (decide _); [|apply extends_refl].
  destruct (NgShard.assemble png_open cfg w) as [[v errs]|err] eqn:Hasm;
    [|apply extends_refl].
  destruct (assemble_shape _ _ _ _ _ Hasm) as (vol & im & -> & Hf & Hsh & Hz).
  destruct (NgShard.tile_chunk cfg) as [[cx cy] cz]. cbn [fst snd].
  rewrite Hsh.
  pose proof (levels_loop_writes cfg (Py.range1 0 6)
    (cx * NgShard.shard_size cfg, cy * NgShard.shard_size cfg, NgShard.zstart cfg)
    (Tiles.im_width im, Tiles.im_height im,
     NgShard.zfinish cfg - NgShard.zstart cfg + 1) (or_introl eq_refl) w)
    as (Hb & Hi & Hp & Hwo & new & Hnew & Hall).
  split_and!; try done. exists new. split; [done|].
  eapply Forall_impl; [exact Hall|]. intros wr (j & level & Hj & Hturn).
  change (Py.range1 0 6) with [0; 1; 2; 3; 4; 5] in Hj.
  assert (level = Z.of_nat j ∧ (j ≤ 5)%nat) as [-> Hj5].
  { do 6 (destruct j as [|j]; [injection Hj as <-; split; [done|lia]|]). done. }
  exists j, im. by split_and!.
Qed.

Lemma level_origin_0 (start : Z * Z * Z) : level_origin start 0 = start.
Proof.
  unfold level_origin. simpl. rewrite !Z.div_1_r. by destruct start as [[??]?].
Qed.

Lemma level_axis_fits (l : nat) (o n a S : Z) :
  (l ≤ 5)%nat → 0 ≤ o → o + n ≤ S →
  a * 2 ^ Z.of_nat l ≤ n + 2 ^ Z.of_nat l - 1 →
  0 ≤ o `div` 2 ^ Z.of_nat l
  ∧ o `div` 2 ^ Z.of_nat l + a ≤ S `div` 2 ^ Z.of_nat l + size_padding l.
Proof.
  intros Hl Ho Hn Ha.
  do 6 (destruct l as [|l];
    [cbn in Ha |- *; Z.div_mod_to_equations; lia|]).
  lia.
Qed.

Lemma block_axis_fits (o n iter S : Z) :
  0 ≤ o → 0 ≤ n → o + n ≤ S → iter ∈ [0; 512] →
  Downsample.slice_len n iter (iter + 512) ≠ 0 →
  0 ≤ o + iter
  ∧ 0 < Downsample.slice_len n iter (iter + 512)
  ∧ o + iter + Downsample.slice_len n iter (iter + 512) ≤ S `div` 2 ^ Z.of_nat 0 + size_padding 0.
Proof.
  intros Ho Hn HS Hit. unfold Downsample.slice_len. cbn [size_padding Z.of_nat].
  rewrite Z.pow_0_r, Z.div_1_r.
  assert (iter = 0 ∨ iter = 512) as [-> | ->]; [|lia..].
  apply elem_of_cons in Hit as [->|Hit]; [by left|].
  apply list_elem_of_singleton in Hit as ->. by right.
Qed.

(** X7.  The pyramid stays inside the declared volume.  When the decoded
    tiles are at most 1024 x 1024 and the cube (cx, cy, cz) starts inside the
    bounding box, every write ngshard issues lies inside the size that
    create_meta declares, for the same bounding box and slice range, at the
    scale of the write: scale tw_level of the lossy descriptor for a jpeg
    write, scale 0 of the lossless descriptor for a raw write. *)
Theorem ngshard_within_declared_size (png_open : list byte → result Tiles.image)
    (cfg : NgShard.config) (w : Store.world) (res : Z) :
  (∀ bs im, png_open bs = Ok im →
     0 ≤ Tiles.im_width im ≤ 1024 ∧ 0 ≤ Tiles.im_height im ≤ 1024) →
  0 ≤ (NgShard.tile_chunk cfg).1.1 →
  (NgShard.tile_chunk cfg).1.1 * 1024 < (NgShard.bbox cfg).1 →
  0 ≤ (NgShard.tile_chunk cfg).1.2 →
  (NgShard.tile_chunk cfg).1.2 * 1024 < (NgShard.bbox cfg).2 →
  0 ≤ NgShard.minz cfg →
  ∃ new, Store.volume (NgShard.ngshard png_open cfg w).2 = Store.volume w ++ new ∧
    ∀ wr, wr ∈ new →
      ∃ d sc sx sy sz,
        Meta.create_meta (NgShard.bbox cfg).1 (NgShard.bbox cfg).2
          (NgShard.minz cfg) (NgShard.maxz cfg) 1024
          (bool_decide (Store.tw_format wr = "raw"%string)) res = Ok d
        ∧ Meta.scales d !! Z.to_nat (Store.tw_level wr) = Some sc
        ∧ Meta.size sc = [sx; sy; sz]
        ∧ 0 ≤ (Store.tw_origin wr).1.1 ∧ 0 < (Store.tw_shape wr).1.1
        ∧ (Store.tw_origin wr).1.1 + (Store.tw_shape wr).1.1 ≤ sx
        ∧ 0 ≤ (Store.tw_origin wr).1.2 ∧ 0 < (Store.tw_shape wr).1.2
        ∧ (Store.tw_origin wr).1.2 + (Store.tw_shape wr).1.2 ≤ sy
        ∧ 0 ≤ (Store.tw_origin wr).2 ∧ 0 < (Store.tw_shape wr).2
        ∧ (Store.tw_origin wr).2 + (Store.tw_shape wr).2 ≤ sz.
Proof.
  intros Hpng Hcx0 Hcx Hcy0 Hcy Hminz.
  destruct (ngshard_body_turns png_open cfg w) as (_ & _ & _ & _ & new & Hnew & Hall).
  exists new. split.
  { unfold NgShard.ngshard, Store.try_except.
    by destruct (NgShard.ngshard_body png_open cfg w) as [[a|e] w']. }
  rewrite Forall_forall in Hall. intros wr Hwr.
  destruct (Hall wr Hwr) as (j & im & Hj & Hs & Hf & Hz & Hturn).
  apply fetch_tile_decoded in Hf as [bs Hbs].
  destruct (Hpng _ _ Hbs) as [Hwd Hht].
  rewrite level_shape_components, Hs in Hturn.
  set (W' := Meta.round_up_1024 (NgShard.bbox cfg).1).
  set (H' := Meta.round_up_1024 (NgShard.bbox cfg).2).
  set (Z' := Meta.round_up_1024 (NgShard.maxz cfg + 1)).
  set (nz := NgShard.zfinish cfg - NgShard.zstart cfg + 1) in *.
  assert (Hx : (NgShard.tile_chunk cfg).1.1 * 1024 + Tiles.im_width im ≤ W').
  { pose proof (round_up_1024_spec (NgShard.bbox cfg).1). fold W' in H.
    Z.div_mod_to_equations. lia. }
  assert (Hy : (NgShard.tile_chunk cfg).1.2 * 1024 + Tiles.im_height im ≤ H').
  { pose proof (round_up_1024_spec (NgShard.bbox cfg).2). fold H' in H.
    Z.div_mod_to_equations. lia. }
  assert (Hzs : 0 ≤ NgShard.zstart cfg) by (unfold NgShard.zstart; lia).
  assert (Hzf : NgShard.zstart cfg + nz ≤ Z').
  { pose proof (round_up_1024_spec (NgShard.maxz cfg + 1)). fold Z' in H.
    unfold nz, NgShard.zfinish. lia. }
  assert (Hnz0 : 0 ≤ nz) by (unfold nz; lia).
  destruct Hturn as (_ & Hlevel & Hnz & Hturn). rewrite Hlevel, Nat2Z.id.
  destruct (decide (Z.of_nat j = 0)) as [Hj0|Hj0].
  - assert (j = 0%nat) as -> by lia. clear Hj0. rewrite level_origin_0 in Hturn.
    destruct Hturn as [(iterx & itery & iterz & Hix & Hiy & Hiz & Ho & Hsh) Hfmt].
    destruct (create_meta_size_at (NgShard.bbox cfg).1 (NgShard.bbox cfg).2
                (NgShard.minz cfg) (NgShard.maxz cfg) res
                (bool_decide (Store.tw_format wr = "raw"%string)) 0)
      as (d & sc & Hd & Hsc & Hsize); [by destruct (bool_decide _)|].
    unfold no_zero_dim in Hnz. rewrite Hsh in Hnz.
    cbn [fst snd Nat.iter nat_rect] in Hnz, Hsh, Ho. destruct Hnz as (Hn1 & Hn2 & Hn3).
    destruct (block_axis_fits ((NgShard.tile_chunk cfg).1.1 * 1024) _ iterx W'
                ltac:(lia) (proj1 Hwd) Hx Hix Hn1) as (Hx1 & Hx2 & Hx3).
    destruct (block_axis_fits ((NgShard.tile_chunk cfg).1.2 * 1024) _ itery H'
                ltac:(lia) (proj1 Hht) Hy Hiy Hn2) as (Hy1 & Hy2 & Hy3).
    destruct (block_axis_fits _ _ iterz Z' Hzs Hnz0 Hzf Hiz Hn3) as (Hz1 & Hz2 & Hz3).
    exists d, sc. eexists _, _, _.
    split_and!; [done..| | | | | | | | |]; rewrite ?Ho, ?Hsh; cbn [fst snd]; done.
  - destruct Hturn as (Hfmt & Ho & Hsh).
    rewrite bool_decide_eq_false_2 by (by rewrite Hfmt).
    destruct (create_meta_size_at (NgShard.bbox cfg).1 (NgShard.bbox cfg).2
                (NgShard.minz cfg) (NgShard.maxz cfg) res false j Hj)
      as (d & sc & Hd & Hsc & Hsize).
    unfold no_zero_dim in Hnz. rewrite Hsh in Hnz. unfold level_origin in Ho.
    cbn [fst snd] in Hnz, Ho. destruct Hnz as (Hn1 & Hn2 & Hn3).
    destruct (iter_round_half_bound j (Tiles.im_width im)) as [Hax0 Hax]; [lia|].
    destruct (iter_round_half_bound j (Tiles.im_height im)) as [Hay0 Hay]; [lia|].
    destruct (iter_round_half_bound j nz) as [Haz0 Haz]; [lia|].
    destruct (level_axis_fits j ((NgShard.tile_chunk cfg).1.1 * 1024) _ _ W'
                Hj ltac:(lia) Hx Hax) as (Hx1 & Hx3).
    destruct (level_axis_fits j ((NgShard.tile_chunk cfg).1.2 * 1024) _ _ H'
                Hj ltac:(lia) Hy Hay) as (Hy1 & Hy3).
    destruct (level_axis_fits j _ _ _ Z' Hj Hzs Hzf Haz) as (Hz1 & Hz3).
    exists d, sc. eexists _, _, _.
    split_and!; [done..| | | | | | | | |]; rewrite ?Ho, ?Hsh; cbn [fst snd];
      first [done | lia].
Qed.

(** ** From the producer's container to the assembler's tile *)

(** Reading tile [t] of a laid-out container gives the bytes appended for
    it. *)
Lemma read_tile_laid_out (width height shard_size : Z) (tiles : list (list byte))
    (c : list byte) (t : nat) (tile : list byte) :
  laid_out width height shard_size tiles c →
  tiles !! t = Some tile → tile ≠ [] →
  Container.read_tile c (Z.of_nat t) = Ok tile.
Proof.
  intros L Htile Hne.
  pose proof (lookup_lt_Some _ _ _ Htile) as Hlt.
  pose proof (laid_out_len L) as Hlen.
  pose proof (laid_out_tile L t tile Htile) as Hbytes.
  assert (Hpos : 0 < Py.len tile).
  { unfold Py.len. destruct tile; [done|]. simpl. lia. }
  assert (Hmono : psum tiles (S t) ≤ psum tiles (length tiles)).
  { unfold psum. rewrite <- (take_drop (S t) (take (length tiles) tiles)).
    rewrite take_take, join_app, len_app.
    replace (S t `min` length tiles)%nat with (S t) by lia.
    pose proof (len_nonneg (mjoin (drop (S t) (take (length tiles) tiles)))). lia. }
  pose proof (psum_S _ _ _ Htile) as HS.
  assert (Hp0 : 0 ≤ psum tiles t) by apply len_nonneg.
  set (start := 24 + (Py.len tiles + 1) * 8) in *.
  assert (Hlt' : Py.len tiles = Z.of_nat (length tiles)) by done.
  assert (Hrange : Py.slice c (24 + Z.of_nat t * 8) (24 + Z.of_nat t * 8 + 16 - 1 + 1)
                   = le_split 8 (start + psum tiles t) ++ le_split 8 (start + psum tiles (S t))).
  { destruct L as [start' offs -> _ _ _ _].
    change 24 with (Py.len (le_split 8 width ++ le_split 8 height ++ le_split 8 shard_size)) at 1 2.
    replace (Py.len (le_split 8 width ++ le_split 8 height ++ le_split 8 shard_size)
             + Z.of_nat t * 8 + 16 - 1 + 1)
      with (Py.len (le_split 8 width ++ le_split 8 height ++ le_split 8 shard_size)
            + (8 * Z.of_nat t + 16)) by lia.
    rewrite slice_app_r by lia.
    replace (Z.of_nat t * 8) with (8 * Z.of_nat t) by lia.
    apply table_slice2; apply running_lookup; lia. }
  assert (Hin : ∀ i : nat, (i ≤ length tiles)%nat → 0 ≤ start + psum tiles i < 2 ^ 64).
  { intros i Hi. destruct L as [start' offs _ _ _ _ HF].
    rewrite Forall_lookup in HF. apply (HF i). by apply running_lookup. }
  unfold Container.read_tile. cbv zeta.
  rewrite download_range_Ok by (rewrite ?Hlen; fold start; lia).
  rewrite Hrange. cbn [mbind result_bind].
  assert (H8 : Py.slice (le_split 8 (start + psum tiles t)
                         ++ le_split 8 (start + psum tiles (S t))) 0 8
               = le_split 8 (start + psum tiles t))
    by (apply slice_prefix; by rewrite len_le_split).
  assert (H16 : Py.slice (le_split 8 (start + psum tiles t)
                          ++ le_split 8 (start + psum tiles (S t))) 8 16
                = le_split 8 (start + psum tiles (S t))).
  { rewrite <- (app_nil_r (le_split 8 (start + psum tiles (S t)))).
    apply slice_middle; by rewrite !len_le_split. }
  rewrite H8, H16.
  rewrite !from_bytes_le_split8 by (apply Hin; lia).
  rewrite download_range_Ok by (rewrite ?Hlen; fold start; lia).
  f_equal. rewrite <- Hbytes. f_equal. fold start. lia.
Qed.

(** The cell of a row-major grid with rows of [nx] cells that the index
    [iy * cw + ix] falls in, for a row length [cw] that may be too small. *)
Lemma row_major_index (ix iy cw nx ny : Z) :
  0 ≤ ix < nx → 0 ≤ iy < ny → 1 ≤ cw ≤ nx →
  let spot := iy * cw + ix in
  0 ≤ spot
  ∧ 0 ≤ spot `mod` nx < nx ∧ 0 ≤ spot `div` nx < ny
  ∧ spot = spot `div` nx * nx + spot `mod` nx
  ∧ (spot `mod` nx = ix ∧ spot `div` nx = iy ↔ iy = 0 ∨ cw = nx).
Proof.
  intros Hix Hiy Hcw. cbv zeta.
  assert (Hle : iy * cw ≤ iy * nx) by (apply Z.mul_le_mono_nonneg_l; lia).
  assert (H0 : 0 ≤ iy * cw) by (apply Z.mul_nonneg_nonneg; lia).
  assert (Hmod : 0 ≤ (iy * cw + ix) `mod` nx < nx) by (apply Z.mod_pos_bound; lia).
  assert (Hdm : iy * cw + ix = (iy * cw + ix) `div` nx * nx + (iy * cw + ix) `mod` nx).
  { rewrite (Z.mul_comm _ nx). apply Z.div_mod. lia. }
  assert (Hq0 : 0 ≤ (iy * cw + ix) `div` nx) by (apply Z.div_pos; lia).
  assert (Hq1 : (iy * cw + ix) `div` nx ≤ iy).
  { apply Z.lt_succ_r, Z.div_lt_upper_bound; lia. }
  split_and!; try lia. split.
  - intros [Hr Hq]. rewrite Hr, Hq in Hdm.
    destruct (decide (iy = 0)) as [|Hne]; [by left|right].
    assert (iy * cw = iy * nx) as Heq by lia.
    apply Z.mul_reg_l in Heq; done.
  - intros Hrow.
    assert (iy * cw + ix = ix + iy * nx) as -> by (destruct Hrow as [->| ->]; lia).
    rewrite Z.mod_add, Z.div_add by lia.
    rewrite Z.mod_small, Z.div_small by lia. lia.
Qed.

(** The row length the assembler computes, [chunk_width], against the row
    length of the producer's loops, for the tile of column [ix] of a
    super-block with [R] columns of pixels left in the slice. *)
Lemma chunk_width_row (ix R : Z) :
  0 ≤ ix ≤ 3 → ix * 1024 < R →
  let nx := Py.ceil_div (Z.min 4096 R) 1024 in
  let cw := Py.ceil_div (Z.min 4096 (R - ix * 1024)) 1024 in
  1 ≤ cw ≤ nx ∧ ix < nx ∧ nx ≤ 4 ∧ (cw = nx ↔ ix = 0 ∨ 3072 < R - ix * 1024).
Proof.
  intros Hix HR. cbv zeta. unfold Py.ceil_div. Z.div_mod_to_equations. lia.
Qed.

(** X8.  From alignedslice to ngshard.  With the container alignedslice
    writes for the super-block of cube (cx, cy) in the temporary bucket,
    set_image decodes one of the tiles of that container; it is the tile
    cropped at (cx * 1024, cy * 1024) exactly when the cube is in the first
    column or the first row of its super-block, or more than 3072 pixel
    columns of the slice are left from cx * 1024 on.  Otherwise chunk_width
    is smaller than the row length of the producer and another tile of the
    super-block is decoded. *)
Theorem fetch_tile_of_producer (tile_png : Z → Z → list byte)
    (png_open : list byte → result Tiles.image)
    (cfg : NgShard.config) (w : Store.world) (slice : Z) (c : list byte) :
  (∀ x y, tile_png x y ≠ []) →
  NgShard.shard_size cfg = 1024 →
  0 ≤ (NgShard.tile_chunk cfg).1.1 →
  (NgShard.tile_chunk cfg).1.1 * 1024 < (NgShard.bbox cfg).1 →
  0 ≤ (NgShard.tile_chunk cfg).1.2 →
  (NgShard.tile_chunk cfg).1.2 * 1024 < (NgShard.bbox cfg).2 →
  let x_block := ((NgShard.tile_chunk cfg).1.1 * 1024) `div` MAX_IMAGE_SIZE in
  let y_block := ((NgShard.tile_chunk cfg).1.2 * 1024) `div` MAX_IMAGE_SIZE in
  Container.superblock_container tile_png (NgShard.bbox cfg).1 (NgShard.bbox cfg).2 1024
    (x_block * MAX_IMAGE_SIZE) (y_block * MAX_IMAGE_SIZE) = Ok c →
  Store.blobs w !! (NgShard.source cfg, Container.blob_name slice x_block y_block) = Some c →
  ∃ grid x y,
    Container.tile_grid (NgShard.bbox cfg).1 (NgShard.bbox cfg).2 1024
      (x_block * MAX_IMAGE_SIZE) (y_block * MAX_IMAGE_SIZE) = Ok grid
    ∧ grid !! Z.to_nat (NgShard.spot cfg) = Some (x, y)
    ∧ NgShard.fetch_tile png_open cfg w slice = png_open (tile_png x y)
    ∧ ((x, y) = ((NgShard.tile_chunk cfg).1.1 * 1024, (NgShard.tile_chunk cfg).1.2 * 1024)
       ↔ (NgShard.tile_chunk cfg).1.1 `mod` 4 = 0
         ∨ (NgShard.tile_chunk cfg).1.2 `mod` 4 = 0
         ∨ 3072 < (NgShard.bbox cfg).1 - (NgShard.tile_chunk cfg).1.1 * 1024).
Proof.
  destruct cfg as [dest source [[cx cy] cz] minz maxz [W H] s wr]. cbn [fst snd
    NgShard.shard_size NgShard.tile_chunk NgShard.bbox NgShard.source].
  intros Hne -> Hcx0 Hcx Hcy0 Hcy. cbv zeta. unfold MAX_IMAGE_SIZE.
  set (startx := (cx * 1024) `div` 4096 * 4096).
  set (starty := (cy * 1024) `div` 4096 * 4096).
  intros Hc Hblob.
  destruct (superblock_container_laid_out _ _ _ _ _ _ _ Hc) as (grid & Hgrid & L).
  set (ix := ((cx * 1024) `mod` 4096) `div` 1024).
  set (iy := ((cy * 1024) `mod` 4096) `div` 1024).
  assert (Hix : 0 ≤ ix ≤ 3 ∧ cx * 1024 = startx + ix * 1024 ∧ (ix = 0 ↔ cx `mod` 4 = 0))
    by (unfold ix, startx; Z.div_mod_to_equations; lia).
  assert (Hiy : 0 ≤ iy ≤ 3 ∧ cy * 1024 = starty + iy * 1024 ∧ (iy = 0 ↔ cy `mod` 4 = 0))
    by (unfold iy, starty; Z.div_mod_to_equations; lia).
  destruct Hix as (Hix & Hxo & Hix0). destruct Hiy as (Hiy & Hyo & Hiy0).
  destruct (tile_grid_cells W H 1024 startx starty)
    as (grid' & Hgrid' & Hlen & Hnx & Hny & Hcells); [lia..|].
  rewrite Hgrid in Hgrid'. injection Hgrid' as <-.
  unfold MAX_IMAGE_SIZE in Hlen, Hnx, Hny, Hcells.
  replace (Z.min (startx + 4096) W - startx) with (Z.min 4096 (W - startx)) in * by lia.
  replace (Z.min (starty + 4096) H - starty) with (Z.min 4096 (H - starty)) in * by lia.
  set (nx := Py.ceil_div (Z.min 4096 (W - startx)) 1024) in *.
  set (ny := Py.ceil_div (Z.min 4096 (H - starty)) 1024) in *.
  set (cw := Py.ceil_div (Z.min 4096 (W - cx * 1024)) 1024).
  assert (Hspot : NgShard.spot
            {| NgShard.dest := dest; NgShard.source := source;
               NgShard.tile_chunk := (cx, cy, cz); NgShard.minz := minz;
               NgShard.maxz := maxz; NgShard.bbox := (W, H);
               NgShard.shard_size := 1024; NgShard.writeRaw := wr |} = iy * cw + ix)
    by reflexivity.
  rewrite Hspot.
  destruct (chunk_width_row ix (W - startx)) as (Hcw & Hixnx & Hnx4 & Hcweq); [lia..|].
  replace (W - startx - ix * 1024) with (W - cx * 1024) in Hcw, Hcweq by lia.
  fold nx cw in Hcw, Hixnx, Hnx4, Hcweq.
  assert (Hiyny : iy < ny).
  { destruct (chunk_width_row iy (H - starty)) as (_ & Hlt & _); [lia..|]. exact Hlt. }
  set (spot := iy * cw + ix).
  destruct (row_major_index ix iy cw nx ny) as (Hspot0 & Hr & Hq & Hqr & Hcell_iff);
    [lia..|].
  fold spot in Hspot0, Hr, Hq, Hqr, Hcell_iff.
  set (q := spot `div` nx) in *. set (r := spot `mod` nx) in *.
  pose proof (Hcells r q Hr Hq) as Hcell. rewrite <- Hqr in Hcell.
  exists grid, (startx + r * 1024), (starty + q * 1024).
  split_and!; [done|done| |].
  - unfold NgShard.fetch_tile, Store.download.
    cbn [fst snd NgShard.shard_size NgShard.tile_chunk NgShard.bbox NgShard.source].
    unfold MAX_IMAGE_SIZE. rewrite Hblob. cbn [fst mbind result_bind].
    rewrite Hspot. fold spot.
    rewrite <- (Z2Nat.id spot) by exact Hspot0.
    rewrite (read_tile_laid_out _ _ _ _ _ (Z.to_nat spot)
               (tile_png (startx + r * 1024) (starty + q * 1024)) L); [done| |done].
    unfold Container.superblock_tiles. by rewrite list_lookup_fmap, Hcell.
  - rewrite <- Hix0, <- Hiy0.
    assert (Hpair : (startx + r * 1024, starty + q * 1024) = (cx * 1024, cy * 1024)
                    ↔ r = ix ∧ q = iy).
    { rewrite Hxo, Hyo. split; [intros [= Hx Hy]; lia|intros [-> ->]; done]. }
    rewrite Hpair, Hcell_iff, Hcweq. tauto.
Qed.

(** ** What a successful ngshard has written *)

Section Emits.
Import Store.
Context (Q : ts_write → Prop).

Lemma emits_bind_l {A B : Type} (m : io A) (f : A → io B) :
  emits Q m → (∀ a, writes_only (λ _, True) (f a)) → emits Q (io_bind m f).
Proof.
  intros Hm Hf w b w'. unfold io_bind.
  destruct (m w) as [[a|e] w1] eqn:Hmw; [|done]. intros Hfw.
  destruct (Hm _ _ _ Hmw) as (new1 & Hv1 & Hex).
  pose proof (Hf a w1) as (_ & _ & _ & _ & new2 & Hv2 & _). rewrite Hfw in Hv2.
  exists (new1 ++ new2). split.
  - simpl in Hv2. by rewrite Hv2, Hv1, app_assoc.
  - apply Exists_app. by left.
Qed.

Lemma emits_bind_r {A B : Type} (m : io A) (f : A → io B) :
  writes_only (λ _, True) m → (∀ a, emits Q (f a)) → emits Q (io_bind m f).
Proof.
  intros Hm Hf w b w'. unfold io_bind.
  pose proof (Hm w) as (_ & _ & _ & _ & new1 & Hv1 & _).
  destruct (m w) as [[a|e] w1] eqn:Hmw; [|done]. intros Hfw.
  destruct (Hf _ _ _ _ Hfw) as (new2 & Hv2 & Hex).
  exists (new1 ++ new2). split.
  - simpl in Hv1. by rewrite Hv2, Hv1, app_assoc.
  - apply Exists_app. by right.
Qed.

Lemma emits_for_each {A : Type} (xs : list A) (body : A → io unit) (x : A) :
  x ∈ xs → emits Q (body x) → (∀ y, writes_only (λ _, True) (body y)) →
  emits Q (io_for_each xs body).
Proof.
  intros Hx Hbody Happ. induction xs as [|y xs IH]; [by apply elem_of_nil in Hx|].
  cbn [io_for_each]. apply elem_of_cons in Hx as [<-|Hx].
  - apply emits_bind_l; [done|]. intros _. apply writes_only_for_each. auto.
  - apply emits_bind_r; [done|]. intros _. by apply IH.
Qed.

Lemma emits_write_shard (cfg : NgShard.config) (level : Z) (start shape : Z * Z * Z)
    (format : string) :
  Q {| tw_bucket := NgShard.dest cfg; tw_format := format; tw_level := level;
       tw_origin := start; tw_shape := shape |} →
  emits Q (NgShard._write_shard cfg level start shape format).
Proof.
  intros HQ w a w'. unfold NgShard._write_shard.
  destruct (writer_ok w _); [|done]. intros [= <- <-]. simpl.
  eexists. split; [done|]. by apply Exists_cons_hd.
Qed.

End Emits.

Lemma write_level0_appends (cfg : NgShard.config) (start shape : Z * Z * Z) :
  writes_only (λ _, True) (NgShard.write_level0 cfg start shape).
Proof. eapply writes_only_impl; [|apply write_level0_writes]. done. Qed.

Lemma levels_loop_appends (cfg : NgShard.config) (levels : list Z)
    (start shape : Z * Z * Z) :
  writes_only (λ _, True) (NgShard.levels_loop cfg levels start shape).
Proof.
  revert start shape. induction levels as [|level rest IH]; intros start shape.
  - apply writes_only_ret.
  - cbn [NgShard.levels_loop]. apply writes_only_bind.
    + destruct (decide _); [apply write_level0_appends|by apply writes_only_write_shard].
    + intros _. apply writes_only_bind; [apply writes_only_lift|]. intros d.
      cbv zeta. destruct (decide _); [apply writes_only_ret|apply IH].
Qed.

(** Along one axis, the 512-block that holds the cell [v] of an axis of [n]
    cells. *)
Lemma block_of_cell (n v : Z) :
  0 ≤ v < n → v < 1024 →
  ∃ iter, iter ∈ [0; 512]
    ∧ iter ≤ v < iter + Downsample.slice_len n iter (iter + 512).
Proof.
  intros Hv Hlt. unfold Downsample.slice_len.
  destruct (decide (v < 512)).
  - exists 0. split; [apply list_elem_of_here|lia].
  - exists 512. split; [apply list_elem_of_further, list_elem_of_here|lia].
Qed.

(** The level-0 turn writes a block around every voxel of the cube, up to
    1024 along each axis, to jpeg, and to raw when writeRaw is set. *)
Lemma write_level0_covers (cfg : NgShard.config) (start shape v : Z * Z * Z)
    (format : string) :
  format = "jpeg"%string ∨ format = "raw"%string ∧ NgShard.writeRaw cfg = true →
  0 ≤ v.1.1 < Z.min shape.1.1 1024 →
  0 ≤ v.1.2 < Z.min shape.1.2 1024 →
  0 ≤ v.2 < Z.min shape.2 1024 →
  emits (λ wr, Store.tw_bucket wr = NgShard.dest cfg ∧ Store.tw_format wr = format
               ∧ Store.tw_level wr = 0
               ∧ in_write wr (start.1.1 + v.1.1, start.1.2 + v.1.2, start.2 + v.2))
        (NgShard.write_level0 cfg start shape).
Proof.
  destruct shape as [[x y] z], start as [[s0 s1] s2], v as [[vx vy] vz]. cbn [fst snd].
  intros Hfmt Hvx Hvy Hvz. unfold NgShard.write_level0.
  destruct (block_of_cell x vx) as (iterx & Hix & Hbx); [lia..|].
  destruct (block_of_cell y vy) as (itery & Hiy & Hby); [lia..|].
  destruct (block_of_cell z vz) as (iterz & Hiz & Hbz); [lia..|].
  assert (Happ : ∀ iz iy ix,
    writes_only (λ _, True)
      (if decide ((Downsample.slice_len x ix (ix + 512),
                   Downsample.slice_len y iy (iy + 512),
                   Downsample.slice_len z iz (iz + 512)).1.1 = 0
                  ∨ (Downsample.slice_len x ix (ix + 512),
                     Downsample.slice_len y iy (iy + 512),
                     Downsample.slice_len z iz (iz + 512)).1.2 = 0
                  ∨ (Downsample.slice_len x ix (ix + 512),
                     Downsample.slice_len y iy (iy + 512),
                     Downsample.slice_len z iz (iz + 512)).2 = 0)
       then Store.io_ret ()
       else
         Store.io_bind
           (NgShard._write_shard cfg 0 (s0 + ix, s1 + iy, s2 + iz)
              (Downsample.slice_len x ix (ix + 512), Downsample.slice_len y iy (iy + 512),
               Downsample.slice_len z iz (iz + 512)) "jpeg")
           (λ _, if NgShard.writeRaw cfg
                 then NgShard._write_shard cfg 0 (s0 + ix, s1 + iy, s2 + iz)
                        (Downsample.slice_len x ix (ix + 512),
                         Downsample.slice_len y iy (iy + 512),
                         Downsample.slice_len z iz (iz + 512)) "raw"
                 else Store.io_ret ()))).
  { intros iz iy ix. destruct (decide _); [apply writes_only_ret|].
    apply writes_only_bind; [by apply writes_only_write_shard|].
    intros _. destruct (NgShard.writeRaw cfg);
      [by apply writes_only_write_shard|apply writes_only_ret]. }
  apply (emits_for_each _ _ _ iterz); [done| |].
  2:{ intros iz. apply writes_only_for_each. intros iy _.
      apply writes_only_for_each. intros ix _. apply Happ. }
  apply (emits_for_each _ _ _ itery); [done| |].
  2:{ intros iy. apply writes_only_for_each. intros ix _. apply Happ. }
  apply (emits_for_each _ _ _ iterx); [done| |apply Happ].
  cbn [fst snd]. rewrite decide_False by lia.
  assert (HQ : ∀ fmt, fmt = format →
    (λ wr, Store.tw_bucket wr = NgShard.dest cfg ∧ Store.tw_format wr = format
           ∧ Store.tw_level wr = 0 ∧ in_write wr (s0 + vx, s1 + vy, s2 + vz))
      {| Store.tw_bucket := NgShard.dest cfg; Store.tw_format := fmt; Store.tw_level := 0;
         Store.tw_origin := (s0 + iterx, s1 + itery, s2 + iterz);
         Store.tw_shape := (Downsample.slice_len x iterx (iterx + 512),
                            Downsample.slice_len y itery (itery + 512),
                            Downsample.slice_len z iterz (iterz + 512)) |}).
  { intros fmt ->. unfold in_write. cbn [Store.tw_bucket Store.tw_format Store.tw_level
      Store.tw_origin Store.tw_shape fst snd]. split_and!; try done; lia. }
  destruct Hfmt as [->|[-> Hraw]].
  - apply emits_bind_l; [by apply emits_write_shard, HQ|].
    intros _. destruct (NgShard.writeRaw cfg);
      [by apply writes_only_write_shard|apply writes_only_ret].
  - apply emits_bind_r; [by apply writes_only_write_shard|].
    intros _. rewrite Hraw. by apply emits_write_shard, HQ.
Qed.

Lemma levels_loop_level0_emits (Q : Store.ts_write → Prop) (cfg : NgShard.config)
    (levels : list Z) (start shape : Z * Z * Z) :
  head levels = Some 0 →
  emits Q (NgShard.write_level0 cfg start shape) →
  emits Q (NgShard.levels_loop cfg levels start shape).
Proof.
  destruct levels as [|level rest]; [done|]. intros [= ->] Hcov.
  cbn [NgShard.levels_loop]. rewrite decide_True by done.
  apply emits_bind_l; [done|].
  intros _. apply writes_only_bind; [apply writes_only_lift|]. intros d.
  cbv zeta. destruct (decide _); [apply writes_only_ret|apply levels_loop_appends].
Qed.

(** Turn [j] of the level loop, for a level other than 0, writes the whole
    cube halved [j] times, when no halving before it left an empty axis. *)
Lemma levels_loop_emits (cfg : NgShard.config) (levels : list Z) (j : nat) (level : Z)
    (start shape : Z * Z * Z) :
  levels !! j = Some level → level ≠ 0 →
  (∀ i, (1 ≤ i ≤ j)%nat → no_zero_dim (level_shape shape i)) →
  emits (λ wr, wr = {| Store.tw_bucket := NgShard.dest cfg; Store.tw_format := "jpeg";
                       Store.tw_level := level;
                       Store.tw_origin := level_origin start j;
                       Store.tw_shape := level_shape shape j |})
        (NgShard.levels_loop cfg levels start shape).
Proof.
  revert j start shape. induction levels as [|l0 rest IH]; intros j start shape Hj Hl Hnz;
    [done|].
  cbn [NgShard.levels_loop]. destruct j as [|j].
  - injection Hj as ->. rewrite decide_False by done.
    apply emits_bind_l.
    + apply emits_write_shard. by rewrite level_origin_0.
    + intros _. apply writes_only_bind; [apply writes_only_lift|]. intros d.
      cbv zeta. destruct (decide _); [apply writes_only_ret|apply levels_loop_appends].
  - simpl in Hj. apply emits_bind_r.
    + destruct (decide _); [apply write_level0_appends|by apply writes_only_write_shard].
    + intros _ w a w'. unfold Store.io_bind at 1, Store.lift.
      destruct (Downsample._downsample shape) as [d|e] eqn:Hd; [|done].
      apply downsample_Ok_shape in Hd. cbv zeta. rewrite Hd.
      assert (H1 : no_zero_dim (level_shape shape 1)) by (apply Hnz; lia).
      change (level_shape shape 1) with (Downsample.zoom_shape shape) in H1.
      rewrite decide_False by (unfold no_zero_dim in H1; tauto).
      rewrite <- level_origin_S, <- level_shape_S.
      apply IH; [done..|].
      intros i Hi. rewrite level_shape_S. apply Hnz. lia.
Qed.

(** The level loop of a successful ngshard. *)
Lemma ngshard_success_loop (png_open : list byte → result Tiles.image)
    (cfg : NgShard.config) (w : Store.world) :
  Store.status (NgShard.ngshard png_open cfg w).1 = 200 →
  ∃ im a,
    NgShard.shard_size cfg = 1024
    ∧ NgShard.fetch_tile png_open cfg w (NgShard.zstart cfg) = Ok im
    ∧ NgShard.levels_loop cfg (Py.range1 0 6)
        ((NgShard.tile_chunk cfg).1.1 * 1024, (NgShard.tile_chunk cfg).1.2 * 1024,
         NgShard.zstart cfg)
        (Tiles.im_width im, Tiles.im_height im,
         NgShard.zfinish cfg - NgShard.zstart cfg + 1) w
      = (Ok a, (NgShard.ngshard png_open cfg w).2).
Proof.
  unfold NgShard.ngshard, Store.try_except.
  destruct (NgShard.ngshard_body png_open cfg w) as [[a|e] w'] eqn:Hbody; [|done].
  intros _. cbn [snd].
  unfold NgShard.ngshard_body, Store.io_bind, Store.lift, Store.reading in Hbody.
  destruct (decide (NgShard.shard_size cfg ≠ 1024)) as [|Hs%dec_stable]; [done|].
  destruct (decide _); [|done].
  destruct (NgShard.assemble png_open cfg w) as [[v errs]|err] eqn:Hasm; [|done].
  destruct (assemble_shape _ _ _ _ _ Hasm) as (vol & im & -> & Hf & Hsh & Hz).
  destruct (NgShard.tile_chunk cfg) as [[cx cy] cz]. cbn [fst snd] in *.
  rewrite Hsh, Hs in Hbody. by exists im, a.
Qed.

(** X9.  What a 200 of ngshard guarantees.  When ngshard answers 200, the
    tile of the first slice was fetched, and with (w, h) its size and
    nz = zfinish - zstart + 1: every voxel of the cube, up to 1024 along
    each axis, lies in the box of a level-0 write to jpeg, and of a level-0
    write to raw when writeRaw is set; and for every level l in 1..5 such
    that no halving up to l left an empty axis, the whole cube halved l
    times was written to jpeg at (cx * 1024 // 2^l, cy * 1024 // 2^l,
    zstart // 2^l). *)
Theorem ngshard_success_writes (png_open : list byte → result Tiles.image)
    (cfg : NgShard.config) (w : Store.world) :
  Store.status (NgShard.ngshard png_open cfg w).1 = 200 →
  ∃ im new,
    NgShard.fetch_tile png_open cfg w (NgShard.zstart cfg) = Ok im
    ∧ Store.volume (NgShard.ngshard png_open cfg w).2 = Store.volume w ++ new
    ∧ let start := ((NgShard.tile_chunk cfg).1.1 * 1024, (NgShard.tile_chunk cfg).1.2 * 1024,
                    NgShard.zstart cfg) in
      let shape := (Tiles.im_width im, Tiles.im_height im,
                    NgShard.zfinish cfg - NgShard.zstart cfg + 1) in
      (∀ (v : Z * Z * Z) (format : string),
         format = "jpeg"%string ∨ format = "raw"%string ∧ NgShard.writeRaw cfg = true →
         0 ≤ v.1.1 < Z.min shape.1.1 1024 →
         0 ≤ v.1.2 < Z.min shape.1.2 1024 →
         0 ≤ v.2 < shape.2 →
         ∃ wr, wr ∈ new
           ∧ Store.tw_bucket wr = NgShard.dest cfg ∧ Store.tw_format wr = format
           ∧ Store.tw_level wr = 0
           ∧ in_write wr (start.1.1 + v.1.1, start.1.2 + v.1.2, start.2 + v.2))
      ∧ (∀ l : nat, (1 ≤ l ≤ 5)%nat →
         (∀ i, (1 ≤ i ≤ l)%nat → no_zero_dim (level_shape shape i)) →
         {| Store.tw_bucket := NgShard.dest cfg; Store.tw_format := "jpeg";
            Store.tw_level := Z.of_nat l;
            Store.tw_origin := level_origin start l;
            Store.tw_shape := level_shape shape l |} ∈ new).
Proof.
  intros H200.
  destruct (ngshard_success_loop _ _ _ H200) as (im & a & Hs & Hf & Hloop).
  set (w' := (NgShard.ngshard png_open cfg w).2) in *.
  set (start := ((NgShard.tile_chunk cfg).1.1 * 1024, (NgShard.tile_chunk cfg).1.2 * 1024,
                 NgShard.zstart cfg)) in *.
  set (shape := (Tiles.im_width im, Tiles.im_height im,
                 NgShard.zfinish cfg - NgShard.zstart cfg + 1)) in *.
  pose proof (levels_loop_appends cfg (Py.range1 0 6) start shape w)
    as (_ & _ & _ & _ & new & Hnew & _).
  rewrite Hloop in Hnew. cbn [snd] in Hnew.
  exists im, new. split; [done|]. split; [done|]. cbv zeta. split.
  - intros v format Hfmt Hvx Hvy Hvz.
    assert (Hz1024 : shape.2 ≤ 1024).
    { unfold shape, NgShard.zfinish. cbn [snd]. rewrite Hs. lia. }
    assert (Hvz' : 0 ≤ v.2 < Z.min shape.2 1024)
      by (unfold shape in *; cbn [snd] in *; lia).
    pose proof (write_level0_covers cfg start shape v format Hfmt Hvx Hvy Hvz') as Hcov.
    apply (levels_loop_level0_emits _ cfg (Py.range1 0 6)) in Hcov; [|done].
    destruct (Hcov _ _ _ Hloop) as (new' & Hnew' & Hex). rewrite Hnew in Hnew'.
    apply app_inv_head in Hnew' as <-.
    apply Exists_exists in Hex as (wr & Hwr & HQ). by exists wr.
  - intros l Hl Hnz.
    assert (Hlev : Py.range1 0 6 !! l = Some (Z.of_nat l)).
    { change (Py.range1 0 6) with [0; 1; 2; 3; 4; 5].
      do 6 (destruct l as [|l]; [done|]). lia. }
    destruct (levels_loop_emits cfg _ l _ start shape Hlev ltac:(lia) Hnz _ _ _ Hloop)
      as (new' & Hnew' & Hex).
    rewrite Hnew in Hnew'. apply app_inv_head in Hnew' as <-.
    apply Exists_exists in Hex as (wr & Hwr & ->). done.
Qed.

(** ** The further properties on concrete inputs *)

(** [tile_grid_row_major] on the super-block (1, 0) of a 5000 x 3000 slice
    cut in tiles of 1000: one column of three tiles. *)
Lemma tile_grid_row_major_witness :
  4096 < 5000 ∧ 0 < 3000
  ∧ ∃ grid, Container.tile_grid 5000 3000 1000 4096 0 = Ok grid
      ∧ Py.len grid = 1 * 3
      ∧ grid !! Z.to_nat (2 * 1 + 0) = Some (4096 + 0 * 1000, 0 + 2 * 1000).
Proof.
  split; [lia|]. split; [lia|].
  destruct (tile_grid_row_major 5000 3000 1000 4096 0 ltac:(lia) ltac:(lia))
    as (_ & _ & Hpos).
  destruct (Hpos ltac:(lia)) as (grid & Hgrid & Hlen & _ & _ & Hcell).
  exists grid. split; [exact Hgrid|]. split; [exact Hlen|].
  apply (Hcell 0 2); vm_compute; (split; [discriminate|reflexivity]).
Defined.

(** [downsample_pieces_tile] on a cube of 261 x 261 x 261: the cell
    (129, 0, 5) of the target is written by the piece cut at (256, 0, 0). *)
Lemma downsample_pieces_tile_witness :
  0 ≤ 261 ∧ ¬ (261 ≤ 256 ∧ 261 ≤ 256 ∧ 261 ≤ 256)
  ∧ ∃ target writes,
      Downsample._downsample (261, 261, 261) = Ok (Downsample.Pieced target writes)
      ∧ ∃ p, p ∈ writes ∧ in_dst p (129, 0, 5)
             ∧ ∀ p', p' ∈ writes → in_dst p' (129, 0, 5) → p' = p.
Proof.
  split; [lia|]. split; [lia|].
  destruct (downsample_pieces_tile 261 261 261 ltac:(lia) ltac:(lia) ltac:(lia) ltac:(lia))
    as (target & writes & Hd & Hcells).
  exists target, writes. split; [exact Hd|].
  assert (Ht : target = (130, 130, 130)).
  { vm_compute in Hd. by injection Hd as <- _. }
  apply Hcells; rewrite Ht; cbn [fst snd]; lia.
Defined.

(** [ngshard_within_declared_size] on the cube (0, 0, 0) of a volume of 64
    slices of 1024 x 1024. *)
Lemma ngshard_within_declared_size_witness :
  (∀ bs im, Demo.demo_open bs = Ok im →
     0 ≤ Tiles.im_width im ≤ 1024 ∧ 0 ≤ Tiles.im_height im ≤ 1024)
  ∧ 0 * 1024 < 1024
  ∧ ∃ new,
      Store.volume (NgShard.ngshard Demo.demo_open Demo.demo_shard Demo.full_world).2
      = Store.volume Demo.full_world ++ new
      ∧ length new = 9%nat
      ∧ ∀ wr, wr ∈ new →
          ∃ d sc sx sy sz,
            Meta.create_meta 1024 1024 0 63 1024
              (bool_decide (Store.tw_format wr = "raw"%string)) 8 = Ok d
            ∧ Meta.scales d !! Z.to_nat (Store.tw_level wr) = Some sc
            ∧ Meta.size sc = [sx; sy; sz]
            ∧ 0 ≤ (Store.tw_origin wr).1.1 ∧ 0 < (Store.tw_shape wr).1.1
            ∧ (Store.tw_origin wr).1.1 + (Store.tw_shape wr).1.1 ≤ sx
            ∧ 0 ≤ (Store.tw_origin wr).1.2 ∧ 0 < (Store.tw_shape wr).1.2
            ∧ (Store.tw_origin wr).1.2 + (Store.tw_shape wr).1.2 ≤ sy
            ∧ 0 ≤ (Store.tw_origin wr).2 ∧ 0 < (Store.tw_shape wr).2
            ∧ (Store.tw_origin wr).2 + (Store.tw_shape wr).2 ≤ sz.
Proof.
  assert (Hopen : ∀ bs im, Demo.demo_open bs = Ok im →
            0 ≤ Tiles.im_width im ≤ 1024 ∧ 0 ≤ Tiles.im_height im ≤ 1024).
  { intros [|b bs] im; [discriminate|]. intros [= <-]. simpl. lia. }
  split; [exact Hopen|]. split; [lia|].
  destruct (ngshard_within_declared_size Demo.demo_open Demo.demo_shard Demo.full_world 8
              Hopen ltac:(simpl; lia) ltac:(simpl; lia) ltac:(simpl; lia)
              ltac:(simpl; lia) ltac:(simpl; lia)) as (new & Hnew & Hin).
  exists new. split; [exact Hnew|]. split; [|exact Hin].
  apply (f_equal length) in Hnew. rewrite length_app in Hnew.
  vm_compute in Hnew. symmetry. exact Hnew.
Defined.

(** [fetch_tile_of_producer] where the two row lengths differ: in a slice of
    4096 columns the cube of column 1 and row 1 computes chunk_width 3 and
    spot 4, and decodes the tile cropped at (0, 1024), not the tile cropped
    at (1024, 1024), which is number 5. *)
Lemma fetch_tile_of_producer_witness :
  (∀ x y, Demo.demo_png x y ≠ [])
  ∧ Container.superblock_container Demo.demo_png 4096 4096 1024 0 0
    = Ok EdgeDemo.wide_container
  ∧ Store.blobs EdgeDemo.wide_world !! ("tmp"%string, Container.blob_name 7 0 0)
    = Some EdgeDemo.wide_container
  ∧ NgShard.spot EdgeDemo.wide_shard = 4
  ∧ NgShard.fetch_tile Demo.demo_open EdgeDemo.wide_shard EdgeDemo.wide_world 7
    = Demo.demo_open (Demo.demo_png 0 1024)
  ∧ ¬ (1 `mod` 4 = 0 ∨ 1 `mod` 4 = 0 ∨ 3072 < 4096 - 1 * 1024).
Proof.
  assert (H1 : ∀ x y, Demo.demo_png x y ≠ []) by (intros x y; discriminate).
  assert (H2 : Container.superblock_container Demo.demo_png 4096 4096 1024 0 0
               = Ok EdgeDemo.wide_container) by (vm_compute; reflexivity).
  assert (H3 : Store.blobs EdgeDemo.wide_world !! ("tmp"%string, Container.blob_name 7 0 0)
               = Some EdgeDemo.wide_container) by (vm_compute; reflexivity).
  split; [exact H1|]. split; [exact H2|]. split; [exact H3|].
  split; [vm_compute; reflexivity|].
  destruct (fetch_tile_of_producer Demo.demo_png Demo.demo_open EdgeDemo.wide_shard
              EdgeDemo.wide_world 7 EdgeDemo.wide_container H1 eq_refl
              ltac:(simpl; lia) ltac:(simpl; lia) ltac:(simpl; lia) ltac:(simpl; lia)
              H2 H3) as (grid & x & y & Hgrid & Hcell & Hfetch & Hiff).
  vm_compute in Hgrid. injection Hgrid as <-.
  vm_compute in Hcell. injection Hcell as <- <-.
  split; [exact Hfetch|].
  intros Hcond. apply Hiff in Hcond. discriminate Hcond.
Defined.

(** [ngshard_success_writes] on the cube (0, 0, 0) of a volume of 64 slices
    that are all in the temporary bucket: the voxel (1000, 20, 63) of the
    cube is in a level-0 write, and level 3 is written whole, 128 x 128 x 8
    at the origin. *)
Lemma ngshard_success_writes_witness :
  Store.status (NgShard.ngshard Demo.demo_open Demo.demo_shard Demo.full_world).1 = 200
  ∧ ∃ new,
      Store.volume (NgShard.ngshard Demo.demo_open Demo.demo_shard Demo.full_world).2
      = Store.volume Demo.full_world ++ new
      ∧ (∃ wr, wr ∈ new ∧ Store.tw_format wr = "jpeg"%string ∧ Store.tw_level wr = 0
               ∧ in_write wr (1000, 20, 63))
      ∧ {| Store.tw_bucket := "vol"; Store.tw_format := "jpeg"; Store.tw_level := 3;
           Store.tw_origin := (0, 0, 0); Store.tw_shape := (128, 128, 8) |} ∈ new.
Proof.
  assert (H200 : Store.status
            (NgShard.ngshard Demo.demo_open Demo.demo_shard Demo.full_world).1 = 200)
    by (vm_compute; reflexivity).
  split; [exact H200|].
  destruct (ngshard_success_writes Demo.demo_open Demo.demo_shard Demo.full_world H200)
    as (im & new & Hf & Hnew & Hcov & Hlev).
  assert (Him : Tiles.im_width im = 1024 ∧ Tiles.im_height im = 1024).
  { destruct (fetch_tile_decoded _ _ _ _ _ Hf) as [[|b bs] Hbs];
      cbn [Demo.demo_open] in Hbs; [discriminate Hbs|].
    injection Hbs as <-. split; reflexivity. }
  destruct Him as [Hw Hh]. rewrite Hw, Hh in Hcov, Hlev.
  exists new. split; [exact Hnew|]. split.
  - destruct (Hcov (1000, 20, 63) "jpeg"%string (or_introl eq_refl))
      as (wr & Hwr & _ & Hfmt & Hl & Hbox);
      [vm_compute; (split; [discriminate|reflexivity])..|].
    exists wr. split; [exact Hwr|]. split; [exact Hfmt|]. split; [exact Hl|]. exact Hbox.
  - apply (Hlev 3%nat); [lia|].
    intros i Hi.
    assert (i = 1 ∨ i = 2 ∨ i = 3)%nat as [->|[->| ->]] by lia;
      vm_compute; split_and!; discriminate.
Defined.
